(** * rates-service (CBR): a shallow embedding of [src/rates-service/main.py]

    The development follows the layout of the Python module:
    - [PyStr], [PyNum]: the string and number builtins the module calls
      ([str.upper], [str.replace], [str.split], [int], [float], float
      arithmetic);
    - [PyDate]: the parts of [datetime] it calls ([strptime], [strftime],
      [toordinal], [fromordinal], [isoformat]);
    - [ET]: the [xml.etree.ElementTree] accessors it calls;
    - [Rates]: the module itself, function by function;
    - [Analytics]: [_env_url] of [src/analytics-service/main.py], the
      service that calls the history endpoint;
    - [Props], [Samples]: the predicates the statements use, and sample
      feeds;
    - [PyNumFacts], [PyDateFacts], [RatesFacts]: the proofs of the
      properties the specification states;
    - [DailyFacts], [FeedFacts], [HistoryFacts], [FloatFacts],
      [EndpointFacts], [AnalyticsFacts]: further properties of the code,
      numbered X1 to X27.

    Modelling choices.
    - A Python [float] is an IEEE 754 binary64 number: the type
      [spec_float] of the standard library with its operations at
      precision 53 and maximal exponent 1024.
    - A function that can raise returns an [Outcome]: the value, or the
      exception. The functions that touch the module-level [_cache], the
      clock or the network run over a [State] that holds the cache, the
      number of clock readings and the requests sent so far; the clock and
      the upstream feed are a [World], read by position.
    - A string is the UTF-8 text of the Python [str], byte by byte; a
      slice counts characters. The other builtins are modelled on ASCII
      input: [upper] leaves other bytes alone, and the digits [int],
      [float] and [strptime] read are [0-9], where Python also reads the
      decimal digits of other scripts. A statement about every date
      string is therefore made for ASCII strings.
    - [int] refuses a text of more than 4300 digits, the default limit of
      the interpreter; [strftime] writes the year as glibc does, without
      padding.
    - The CSV export is given by the rows it hands to [csv.writer] and
      its [Content-Disposition] header; how the [csv] module renders a
      row is not modelled. *)

From Stdlib Require Import ZArith List Ascii String Bool Lia.
From Stdlib Require Import SpecFloat DecimalString Sorted Permutation.
From stdpp Require Import gmap strings.
Import ListNotations.

Local Open Scope string_scope.
Local Open Scope Z_scope.

(* ===================================================================== *)
(** ** String builtins *)
(* ===================================================================== *)

Module PyStr.

Definition code (c : ascii) : Z := Z.of_N (N_of_ascii c).

Definition is_digit (c : ascii) : bool := (48 <=? code c) && (code c <=? 57).

Definition digit_val (c : ascii) : Z := code c - 48.

(** [str.isspace] on ASCII: TAB, LF, VT, FF, CR, FS, GS, RS, US, SPACE. *)
Definition is_space (c : ascii) : bool :=
  ((9 <=? code c) && (code c <=? 13)) || ((28 <=? code c) && (code c <=? 32)).

Definition is_lower (c : ascii) : bool := (97 <=? code c) && (code c <=? 122).
Definition is_upper (c : ascii) : bool := (65 <=? code c) && (code c <=? 90).

Definition upper_char (c : ascii) : ascii :=
  if is_lower c then ascii_of_N (Z.to_N (code c - 32)) else c.

Definition lower_char (c : ascii) : ascii :=
  if is_upper c then ascii_of_N (Z.to_N (code c + 32)) else c.

Fixpoint map_chars (f : ascii -> ascii) (s : string) : string :=
  match s with
  | EmptyString => EmptyString
  | String c s' => String (f c) (map_chars f s')
  end.

(** [s.upper()] and [s.lower()]. *)
Definition upper (s : string) : string := map_chars upper_char s.
Definition lower (s : string) : string := map_chars lower_char s.

(** [s.replace(old, new)] for one-character [old] and [new]. *)
Definition replace (old new : ascii) (s : string) : string :=
  map_chars (fun c => if Ascii.eqb c old then new else c) s.

(** [s.split(sep)] for a one-character separator: always at least one
    segment, empty segments are kept. *)
Fixpoint split (sep : ascii) (s : string) : list string :=
  match s with
  | EmptyString => [EmptyString]
  | String c s' =>
      if Ascii.eqb c sep then EmptyString :: split sep s'
      else match split sep s' with
           | seg :: segs => String c seg :: segs
           | [] => [String c EmptyString]
           end
  end.

Fixpoint lstrip (s : string) : string :=
  match s with
  | String c s' => if is_space c then lstrip s' else s
  | EmptyString => EmptyString
  end.

(** Drops trailing white space: a space is kept only when something that
    is not white space follows it. *)
Fixpoint rstrip (s : string) : string :=
  match s with
  | EmptyString => EmptyString
  | String c s' =>
      match rstrip s' with
      | EmptyString => if is_space c then EmptyString else String c EmptyString
      | r => String c r
      end
  end.

Definition strip (s : string) : string := rstrip (lstrip s).

(** [s.rstrip(c)] for a one-character [c]: drops the trailing run of
    [c]. *)
Fixpoint rstrip_char (c : ascii) (s : string) : string :=
  match s with
  | EmptyString => EmptyString
  | String a s' =>
      match rstrip_char c s' with
      | EmptyString => if Ascii.eqb a c then EmptyString else String a EmptyString
      | r => String a r
      end
  end.

(** A byte that continues a character of the UTF-8 text: [10xxxxxx]. *)
Definition is_continuation (c : ascii) : bool := (128 <=? code c) && (code c <? 192).

(** [s[:n]]: the first [n] characters. A character is the byte that
    starts it and the continuation bytes after it, so the slice stops
    before the byte that starts character [n + 1]. *)
Fixpoint take (n : nat) (s : string) {struct s} : string :=
  match s with
  | EmptyString => EmptyString
  | String c s' =>
      if is_continuation c then String c (take n s')
      else match n with
           | O => EmptyString
           | S n' => String c (take n' s')
           end
  end.

(** Truthiness of a string: [bool(s)]. *)
Definition truthy (s : string) : bool :=
  match s with EmptyString => false | _ => true end.

(** [x or d] for an optional string [x]: [None] and the empty string are
    both falsy. *)
Definition or_default (x : option string) (d : string) : string :=
  match x with
  | Some s => if truthy s then s else d
  | None => d
  end.

End PyStr.

(* ===================================================================== *)
(** ** Numbers: [int], [float] and binary64 arithmetic *)
(* ===================================================================== *)

Module PyNum.
Import PyStr.

(** A Python [float] is an IEEE 754 binary64 number. *)
Definition float : Type := spec_float.

Definition prec : Z := 53.
Definition emax : Z := 1024.

Definition fdiv (x y : float) : float := SFdiv prec emax x y.
Definition fmul (x y : float) : float := SFmul prec emax x y.
Definition fsub (x y : float) : float := SFsub prec emax x y.
Definition flt (x y : float) : bool := SFltb x y.
Definition feq (x y : float) : bool := SFeqb x y.

Definition fzero : float := S754_zero false.
Definition fone : float := S754_finite false 4503599627370496 (-52).

(** [bool(x)] for a float: false exactly for [0.0] and [-0.0]; NaN is
    truthy. *)
Definition float_truthy (x : float) : bool := negb (feq x fzero).

Definition is_finite (x : float) : bool :=
  match x with
  | S754_zero _ | S754_finite _ _ _ => true
  | S754_infinity _ | S754_nan => false
  end.

(** [float(n)] for an [int] [n], as done implicitly by [x / n]: rounds to
    nearest even, [None] stands for [OverflowError]. *)
Definition float_of_int (n : Z) : option float :=
  match binary_normalize prec emax n 0 false with
  | S754_infinity _ => None
  | f => Some f
  end.

(** A [digitpart]: a digit, then digits each optionally preceded by one
    underscore. Returns the value, the number of digits and the rest. *)
Fixpoint digits_more (v : Z) (n : nat) (s : string) : Z * nat * string :=
  match s with
  | String c s' =>
      if is_digit c then digits_more (10 * v + digit_val c) (S n) s'
      else if Ascii.eqb c "_" then
        match s' with
        | String c2 s'' =>
            if is_digit c2 then digits_more (10 * v + digit_val c2) (S n) s''
            else (v, n, s)
        | EmptyString => (v, n, s)
        end
      else (v, n, s)
  | EmptyString => (v, n, s)
  end.

Definition digitpart (s : string) : option (Z * nat * string) :=
  match s with
  | String c s' => if is_digit c then Some (digits_more (digit_val c) 1 s') else None
  | EmptyString => None
  end.

(** An optional sign: [true] for minus. *)
Definition sign (s : string) : bool * string :=
  match s with
  | String "-" s' => (true, s')
  | String "+" s' => (false, s')
  | _ => (false, s)
  end.

(** [sys.get_int_max_str_digits()], which the service leaves at its
    default. *)
Definition MAX_STR_DIGITS : Z := 4300.

(** [int(s)] in base 10; [None] stands for [ValueError], which is also
    raised for a text of more than [MAX_STR_DIGITS] digits, leading
    zeros counted and underscores not. *)
Definition int_of_str (s : string) : option Z :=
  let '(neg, body) := sign (strip s) in
  match digitpart body with
  | Some (v, n, EmptyString) =>
      if Z.of_nat n <=? MAX_STR_DIGITS then Some (if neg then - v else v) else None
  | _ => None
  end.

(** The correctly rounded binary64 value of [(-1)^neg * m * 10^e]. *)
Definition float_of_decimal (neg : bool) (m : Z) (e : Z) : float :=
  match m with
  | Zpos p =>
      if 0 <=? e
      then binary_round prec emax neg (Z.to_pos (Zpos p * 10 ^ e)) 0
      else SFdiv prec emax (S754_finite neg p 0)
                           (S754_finite false (Z.to_pos (10 ^ (- e))) 0)
  | _ => S754_zero neg
  end.

(** The mantissa of a [floatnumber]: [digitpart ["." [digitpart]]] or
    ["." digitpart]. Returns the digits as an integer, the number of
    digits after the point and the rest. *)
Definition mantissa (s : string) : option (Z * nat * string) :=
  match s with
  | String "." s' =>
      match digitpart s' with
      | Some (f, k, r) => Some (f, k, r)
      | None => None
      end
  | _ =>
      match digitpart s with
      | Some (i, _, String "." r) =>
          match digitpart r with
          | Some (f, k, r') => Some (i * 10 ^ Z.of_nat k + f, k, r')
          | None => Some (i, O, r)
          end
      | Some (i, _, r) => Some (i, O, r)
      | None => None
      end
  end.

(** The optional exponent; [None] when an exponent starts and is
    malformed. *)
Definition exponent (s : string) : option (Z * string) :=
  match s with
  | String c s' =>
      if Ascii.eqb c "e" || Ascii.eqb c "E" then
        let '(neg, body) := sign s' in
        match digitpart body with
        | Some (v, _, r) => Some (if neg then - v else v, r)
        | None => None
        end
      else Some (0, s)
  | EmptyString => Some (0, s)
  end.

(** [float(s)]; [None] stands for [ValueError]. *)
Definition float_of_str (s : string) : option float :=
  let '(neg, body) := sign (strip s) in
  let low := lower body in
  if String.eqb low "inf" || String.eqb low "infinity" then Some (S754_infinity neg)
  else if String.eqb low "nan" then Some S754_nan
  else
    match mantissa body with
    | Some (m, k, r) =>
        match exponent r with
        | Some (e, EmptyString) => Some (float_of_decimal neg m (e - Z.of_nat k))
        | _ => None
        end
    | None => None
    end.

(** [round(num / den)] to the nearest integer, ties to even, for
    [num >= 0] and [den > 0]. *)
Definition round_half_even (num den : Z) : Z :=
  let q := num / den in
  let r := num mod den in
  match 2 * r ?= den with
  | Lt => q
  | Gt => q + 1
  | Eq => if Z.even q then q else q + 1
  end.

Definition digit (d : Z) : ascii := ascii_of_N (Z.to_N (48 + d)).

(** ["%06d" % n] for [0 <= n < 10^6]. *)
Definition pad6 (n : Z) : string :=
  String (digit (n / 100000)) (String (digit (n / 10000 mod 10))
    (String (digit (n / 1000 mod 10)) (String (digit (n / 100 mod 10))
      (String (digit (n / 10 mod 10)) (String (digit (n mod 10)) EmptyString))))).

(** [format(x, ".6f")]: the exact value of [x] rounded to six decimals,
    ties to even. *)
Definition format_6f (x : float) : string :=
  match x with
  | S754_nan => "nan"
  | S754_infinity s => if s then "-inf" else "inf"
  | S754_zero s => (if s then "-" else "") ++ "0.000000"
  | S754_finite s m e =>
      let scaled :=
        if 0 <=? e then Z.pos m * 2 ^ e * 1000000
        else round_half_even (Z.pos m * 1000000) (2 ^ (- e)) in
      (if s then "-" else "")
      ++ DecimalString.NilZero.string_of_int (Z.to_int (scaled / 1000000))
      ++ "." ++ pad6 (scaled mod 1000000)
  end.

End PyNum.

(* ===================================================================== *)
(** ** Dates: the parts of [datetime] the module calls *)
(* ===================================================================== *)

Module PyDate.
Import PyStr.

Record date := mkdate { year : Z; month : Z; day : Z }.

Definition MINYEAR : Z := 1.
Definition MAXYEAR : Z := 9999.
(** [date.max.toordinal()]. *)
Definition MAXORDINAL : Z := 3652059.

Definition is_leap (y : Z) : bool :=
  (y mod 4 =? 0) && (negb (y mod 100 =? 0) || (y mod 400 =? 0)).

(** Days in each month of a common year. *)
Definition DAYS_IN_MONTH (m : Z) : Z :=
  match m with
  | 2 => 28
  | 4 | 6 | 9 | 11 => 30
  | _ => 31
  end.

Definition days_in_month (y m : Z) : Z :=
  if (m =? 2) && is_leap y then 29 else DAYS_IN_MONTH m.

(** Days before the first of the month in a common year. *)
Definition DAYS_BEFORE_MONTH (m : Z) : Z :=
  match m with
  | 1 => 0 | 2 => 31 | 3 => 59 | 4 => 90 | 5 => 120 | 6 => 151
  | 7 => 181 | 8 => 212 | 9 => 243 | 10 => 273 | 11 => 304 | 12 => 334
  | _ => 0
  end.

Definition days_before_year (y : Z) : Z :=
  let y := y - 1 in y * 365 + y / 4 - y / 100 + y / 400.

Definition days_before_month (y m : Z) : Z :=
  DAYS_BEFORE_MONTH m + (if (2 <? m) && is_leap y then 1 else 0).

Definition valid_date (d : date) : bool :=
  (MINYEAR <=? year d) && (year d <=? MAXYEAR)
  && (1 <=? month d) && (month d <=? 12)
  && (1 <=? day d) && (day d <=? days_in_month (year d) (month d)).

(** [d.toordinal()]: 1 is 0001-01-01. *)
Definition toordinal (d : date) : Z :=
  days_before_year (year d) + days_before_month (year d) (month d) + day d.

Definition DI400Y : Z := 146097.
Definition DI100Y : Z := 36524.
Definition DI4Y : Z := 1461.

(** The inverse of [toordinal], by successive division into 400-year,
    100-year, 4-year and 1-year cycles. *)
Definition ord2ymd (n : Z) : date :=
  let n := n - 1 in
  let n400 := n / DI400Y in
  let n := n mod DI400Y in
  let y := n400 * 400 + 1 in
  let n100 := n / DI100Y in
  let n := n mod DI100Y in
  let n4 := n / DI4Y in
  let n := n mod DI4Y in
  let n1 := n / 365 in
  let n := n mod 365 in
  let y := y + n100 * 100 + n4 * 4 + n1 in
  if (n1 =? 4) || (n100 =? 4) then mkdate (y - 1) 12 31
  else
    let leapyear := (n1 =? 3) && (negb (n4 =? 24) || (n100 =? 3)) in
    let m := Z.shiftr (n + 50) 5 in
    let preceding := DAYS_BEFORE_MONTH m + (if (2 <? m) && leapyear then 1 else 0) in
    if n <? preceding then
      let m := m - 1 in
      let preceding :=
        preceding
        - (DAYS_IN_MONTH m + (if (m =? 2) && leapyear then 1 else 0)) in
      mkdate y m (n - preceding + 1)
    else mkdate y m (n - preceding + 1).

(** [date.fromordinal(n)]; [None] stands for [ValueError]. *)
Definition fromordinal (n : Z) : option date :=
  if (1 <=? n) && (n <=? MAXORDINAL) then Some (ord2ymd n) else None.

(** *** Formatting *)

Definition digit_char (d : Z) : ascii := ascii_of_N (Z.to_N (48 + d)).

(** ["%02d" % n] and ["%04d" % n], for [0 <= n < 100] and
    [0 <= n < 10000]. *)
Definition fmt2 (n : Z) : string :=
  String (digit_char (n / 10)) (String (digit_char (n mod 10)) EmptyString).
Definition fmt4 (n : Z) : string :=
  String (digit_char (n / 1000)) (String (digit_char (n / 100 mod 10))
    (String (digit_char (n / 10 mod 10)) (String (digit_char (n mod 10)) EmptyString))).

(** [d.isoformat()]. *)
Definition isoformat (d : date) : string :=
  fmt4 (year d) ++ "-" ++ fmt2 (month d) ++ "-" ++ fmt2 (day d).

(** [%Y] of [strftime], which CPython hands to the C library: glibc
    writes the year in decimal without padding, so a year below 1000
    has fewer than four digits. *)
Definition fmt_year (y : Z) : string := DecimalString.NilZero.string_of_int (Z.to_int y).

(** [d.strftime("%d/%m/%Y")]. *)
Definition strftime_dmY_slash (d : date) : string :=
  fmt2 (day d) ++ "/" ++ fmt2 (month d) ++ "/" ++ fmt_year (year d).

(** *** Parsing: [datetime.strptime]

    [strptime] turns the format into a regular expression, matches it at
    the start of the input and then requires that nothing remains. A
    directive is an ordered alternation; the matcher below lists, for a
    directive, every way it matches a prefix of the input in the order the
    regular expression tries them, and takes the first one after which the
    rest of the format matches. The digits are [0-9]: the model is that of
    [strptime] on ASCII input. *)

Definition candidates : Type := list (Z * string).

Definition in_range (lo hi : Z) (c : ascii) : bool := (lo <=? code c) && (code c <=? hi).

(** [%Y]: four digits. *)
Definition re_Y (s : string) : candidates :=
  match s with
  | String a (String b (String c (String d r))) =>
      if is_digit a && is_digit b && is_digit c && is_digit d
      then [(1000 * digit_val a + 100 * digit_val b + 10 * digit_val c + digit_val d, r)]
      else []
  | _ => []
  end.

(** A two-character alternative: first character in [[a1, a2]], second
    in [[b1, b2]]; the value is read by [int], which skips a blank. *)
Definition two (a1 a2 b1 b2 : Z) (s : string) : candidates :=
  match s with
  | String a (String b r) =>
      if in_range a1 a2 a && in_range b1 b2 b
      then [((if is_digit a then 10 * digit_val a else 0) + digit_val b, r)]
      else []
  | _ => []
  end.

Definition one (a1 a2 : Z) (s : string) : candidates :=
  match s with
  | String a r => if in_range a1 a2 a then [(digit_val a, r)] else []
  | _ => []
  end.

(** [%m]: [1[0-2]|0[1-9]|[1-9]]. *)
Definition re_m (s : string) : candidates :=
  (two 49 49 48 50 s ++ two 48 48 49 57 s ++ one 49 57 s)%list.

(** [%d]: [3[0-1]|[1-2]\d|0[1-9]|[1-9]| [1-9]]. *)
Definition re_d (s : string) : candidates :=
  (two 51 51 48 49 s ++ two 49 50 48 57 s ++ two 48 48 49 57 s
   ++ one 49 57 s ++ two 32 32 49 57 s)%list.

(** First candidate after which the continuation succeeds. *)
Fixpoint first_match {A} (cs : candidates) (k : Z -> string -> option A) : option A :=
  match cs with
  | [] => None
  | (v, r) :: cs' =>
      match k v r with
      | Some a => Some a
      | None => first_match cs' k
      end
  end.

Definition lit {A} (c : ascii) (s : string) (k : string -> option A) : option A :=
  match s with
  | String c' r => if Ascii.eqb c c' then k r else None
  | EmptyString => None
  end.

(** The checks of the [date] constructor. *)
Definition checked (y m d : Z) : option date :=
  let dt := mkdate y m d in if valid_date dt then Some dt else None.

(** What remains after the match must be empty. *)
Definition whole (found : option (Z * Z * Z * string)) : option date :=
  match found with
  | Some (y, m, d, EmptyString) => checked y m d
  | _ => None
  end.

(** [datetime.strptime(s, "%Y-%m-%d").date()]; [None] stands for
    [ValueError]. *)
Definition strptime_Ymd (s : string) : option date :=
  whole (first_match (re_Y s) (fun y r =>
         lit "-" r (fun r =>
         first_match (re_m r) (fun m r =>
         lit "-" r (fun r =>
         first_match (re_d r) (fun d r => Some (y, m, d, r))))))).

(** [datetime.strptime(s, "%d.%m.%Y").date()]; [None] stands for
    [ValueError]. *)
Definition strptime_dmY (s : string) : option date :=
  whole (first_match (re_d s) (fun d r =>
         lit "." r (fun r =>
         first_match (re_m r) (fun m r =>
         lit "." r (fun r =>
         first_match (re_Y r) (fun y r => Some (y, m, d, r))))))).

(** [d1 < d2] on dates. *)
Definition date_lt (d1 d2 : date) : bool := toordinal d1 <? toordinal d2.

End PyDate.

(* ===================================================================== *)
(** ** XML: the accessors of [xml.etree.ElementTree] the module calls *)
(* ===================================================================== *)

Module ET.

Inductive Element : Type :=
  Elem (tag : string) (attrib : list (string * string))
       (text : option string) (children : list Element).

Definition tag (e : Element) : string := let 'Elem t _ _ _ := e in t.
Definition attrib (e : Element) : list (string * string) := let 'Elem _ a _ _ := e in a.
Definition text (e : Element) : option string := let 'Elem _ _ x _ := e in x.
Definition children (e : Element) : list Element := let 'Elem _ _ _ c := e in c.

(** [e.attrib.get(k)]. *)
Fixpoint assoc (k : string) (l : list (string * string)) : option string :=
  match l with
  | [] => None
  | (k', v) :: l' => if String.eqb k k' then Some v else assoc k l'
  end.
Definition attrib_get (e : Element) (k : string) : option string := assoc k (attrib e).

(** [e.findall(t)]: the direct children with tag [t], in document order. *)
Definition findall (e : Element) (t : string) : list Element :=
  List.filter (fun c => String.eqb (tag c) t) (children e).

(** [e.findtext(t)]: the text of the first direct child with tag [t];
    the empty string when that child has no text, [None] when there is no
    such child. *)
Definition findtext (e : Element) (t : string) : option string :=
  match findall e t with
  | c :: _ => Some (match text c with Some x => x | None => EmptyString end)
  | [] => None
  end.

End ET.

(* ===================================================================== *)
(** ** The service: [src/rates-service/main.py] *)
(* ===================================================================== *)

Module Rates.
Import PyStr PyNum PyDate.

Definition CBR_DAILY_XML : string := "https://www.cbr.ru/scripts/XML_daily.asp".
Definition CBR_DYNAMIC_XML : string := "https://www.cbr.ru/scripts/XML_dynamic.asp".

(** [TTL_SECONDS = 60 * 15]. *)
Definition TTL_SECONDS : Z := 60 * 15.

(** [x < n] for a float [x] and an int [n]; Python compares the two
    exactly, and here [n] is a small integer, which binary64 holds
    exactly. *)
Definition flt_int (x : float) (n : Z) : bool :=
  flt x (binary_normalize prec emax n 0 false).

(** *** Values *)

(** One element of ["items"]. *)
Record Item := mkItem {
  it_id : option string;
  it_num_code : option string;
  it_char_code : string;
  it_name : string;
  it_nominal : Z;
  it_value : option float }.

(** One value of the local dict [rates]. *)
Record RateEntry := mkRateEntry {
  re_rub_per_unit : float;
  re_nominal : Z;
  re_name : string;
  re_id : option string }.

(** One value of ["rates_map"]: a [rates] value without its nominal. *)
Record RateInfo := mkRateInfo {
  ri_rub_per_unit : float;
  ri_name : string;
  ri_id : option string }.

(** The dict [data] built by [fetch_daily]. *)
Record Snapshot := mkSnapshot {
  s_date : option string;
  s_count : Z;
  s_items : list Item;
  s_requested_date_iso : option string;
  s_rates_map : gmap string RateInfo }.

(** What [fetch_daily] returns: a dict with an ["error"] key (and at
    times ["details"]), or [data]. *)
Inductive DailyResult :=
| DailyError (error : string) (details : option string)
| DailyData (data : Snapshot).

Record HistoryPoint := mkPoint { hp_date : string; hp_rub_per_unit : float }.

Record History := mkHistory {
  h_code : string;
  h_name : string;
  h_from : string;
  h_to : string;
  h_points : list HistoryPoint }.

Inductive HistoryResult :=
| HistError (error : string)
| HistData (data : History).

Record Conversion := mkConversion {
  c_date : option string;
  c_from : string;
  c_to : string;
  c_amount : float;
  c_rate : option float;
  c_result : option float }.

Inductive ConvertResult :=
| ConvError (error : string) (details : option string)
| ConvData (data : Conversion).

(** A cell handed to [csv.writer]: a string, an int, or a float that
    may be [None]. *)
Inductive Cell :=
| CellStr (s : string)
| CellInt (n : Z)
| CellFloat (x : option float).

(** What [cbr_daily_csv] returns: the error dict, or the response. The
    response is given by the rows handed to [csv.writer], header first,
    and its [Content-Disposition] header; the rendering of the rows by
    the [csv] module and the encoding as [utf-8-sig] are left out. *)
Inductive CsvResult :=
| CsvError (error : string) (details : option string)
| CsvResponse (rows : list (list Cell)) (content_disposition : string).

Record Currency := mkCurrency { cur_code : string; cur_name : string }.

Inductive CurrenciesResult :=
| CurError (error : string) (details : option string)
| CurData (date : option string) (items : list Currency).

(** *** The world outside *)

Record Request := mkRequest {
  rq_url : string;
  rq_params : list (string * option string) }.

(** What [requests.get] gives: an exception with its text, or a
    response. [r_xml] is what [ET.fromstring(r.text)] returns, [None]
    when it raises [ParseError]. *)
Inductive Response :=
| NetworkError (msg : string)
| HttpResponse (status_code : Z) (r_text : string) (r_xml : option ET.Element).

(** The clock and the upstream feed: the [k]-th reading of [time.time()]
    and the answer to the [k]-th request. *)
Record World := mkWorld {
  clock : nat -> float;
  upstream : nat -> Request -> Response }.

(** The module state: [_cache], with the number of clock readings and
    the requests sent so far. *)
Record State := mkState {
  _cache : gmap (string * option string) (float * Snapshot);
  ticks : nat;
  sent : list Request }.

Definition initial : State := mkState ∅ O [].

(** *** Outcomes *)

Inductive exn := ValueError | OverflowError | ParseError.

Inductive Outcome (A : Type) : Type :=
| Return (a : A)
| Raise (e : exn).
Arguments Return {A} a.
Arguments Raise {A} e.

Definition obind {A B} (o : Outcome A) (f : A -> Outcome B) : Outcome B :=
  match o with
  | Return a => f a
  | Raise e => Raise e
  end.

(** [None] raises [e]. *)
Definition or_raise {A} (e : exn) (o : option A) : Outcome A :=
  match o with
  | Some a => Return a
  | None => Raise e
  end.

(** A computation over the module state that returns or raises. *)
Definition M (A : Type) : Type := State -> Outcome A * State.

Definition ret {A} (a : A) : M A := fun st => (Return a, st).

Definition bind {A B} (m : M A) (f : A -> M B) : M B :=
  fun st =>
    match m st with
    | (Return a, st') => f a st'
    | (Raise e, st') => (Raise e, st')
    end.

Definition lift {A} (o : Outcome A) : M A := fun st => (o, st).

Notation "'let*' x ':=' m 'in' k" := (bind m (fun x => k))
  (at level 10, x name, m at level 100, k at level 200).

(** *** Rendering *)

(** [str(n)] for an int. *)
Definition str_of_int (n : Z) : string :=
  DecimalString.NilZero.string_of_int (Z.to_int n).

(** [str(x)] for an optional string, as an f-string renders it. *)
Definition str_of_opt (x : option string) : string :=
  match x with Some s => s | None => "None" end.

(** *** Date conversions *)

(** [_date_to_cbr]. *)
Definition _date_to_cbr (date_iso : option string) : Outcome (option string) :=
  match date_iso with
  | None => Return None
  | Some s =>
      if negb (truthy s) then Return None
      else obind (or_raise ValueError (strptime_Ymd s))
                 (fun dt => Return (Some (strftime_dmY_slash dt)))
  end.

(** [_ddmmyyyy_to_iso]: the only failure in the [try] is the unpacking
    of [split(".")] into three names. *)
Definition _ddmmyyyy_to_iso (ddmmyyyy : option string) : option string :=
  match ddmmyyyy with
  | None => None
  | Some s =>
      if negb (truthy s) then None
      else match split "." s with
           | [d; m; y] => Some (y ++ "-" ++ m ++ "-" ++ d)
           | _ => None
           end
  end.

(** *** Primitive effects *)

Section Service.
Variable w : World.

(** [time.time()]. *)
Definition time_time : M float :=
  fun st => (Return (clock w (ticks st)),
             mkState (_cache st) (S (ticks st)) (sent st)).

(** [requests.get(url, params=params, timeout=20)]. *)
Definition requests_get (url : string) (params : list (string * option string))
  : M Response :=
  fun st =>
    let rq := mkRequest url params in
    (Return (upstream w (length (sent st)) rq),
     mkState (_cache st) (ticks st) (sent st ++ [rq])).

Definition cache_lookup (key : string * option string) : M (option (float * Snapshot)) :=
  fun st => (Return (_cache st !! key), st).

Definition cache_store (key : string * option string) (v : float * Snapshot) : M unit :=
  fun st => (Return tt, mkState (<[key := v]> (_cache st)) (ticks st) (sent st)).

(** *** [fetch_daily] *)

(** The body of the loop over [root.findall("Valute")]: appends one
    item and, for a usable record, sets [rates[charcode]]. *)
Definition parse_valute (valute : ET.Element)
    (acc : list Item * gmap string RateEntry)
  : Outcome (list Item * gmap string RateEntry) :=
  let '(items, rates) := acc in
  let charcode := upper (or_default (ET.findtext valute "CharCode") "") in
  let name := or_default (ET.findtext valute "Name") "" in
  obind (or_raise ValueError
           (int_of_str (or_default (ET.findtext valute "Nominal") "1")))
    (fun nominal =>
  let value_text := replace "," "." (or_default (ET.findtext valute "Value") "0") in
  let value := float_of_str value_text in
  let numcode := ET.findtext valute "NumCode" in
  let vid := ET.attrib_get valute "ID" in
  let item := mkItem vid numcode charcode name nominal value in
  let items := (items ++ [item])%list in
  match value with
  | Some v =>
      if truthy charcode && (0 <? nominal) then
        obind (or_raise OverflowError (float_of_int nominal))
          (fun fnominal =>
             Return (items,
                     <[charcode := mkRateEntry (fdiv v fnominal) nominal name vid]> rates))
      else Return (items, rates)
  | None => Return (items, rates)
  end).

Fixpoint parse_valutes (valutes : list ET.Element)
    (acc : list Item * gmap string RateEntry)
  : Outcome (list Item * gmap string RateEntry) :=
  match valutes with
  | [] => Return acc
  | valute :: rest => obind (parse_valute valute acc) (parse_valutes rest)
  end.

Definition RUB_NAME : string := "Российский рубль".

Definition RUB_ENTRY : RateEntry := mkRateEntry fone 1 RUB_NAME (Some "RUB").

(** [items] and [rates] after the loop and the [rates["RUB"] = ...]
    that follows it. *)
Definition daily_rates (root : ET.Element)
  : Outcome (list Item * gmap string RateEntry) :=
  obind (parse_valutes (ET.findall root "Valute") ([], ∅))
    (fun '(items, rates) => Return (items, <["RUB" := RUB_ENTRY]> rates)).

Definition rate_info (v : RateEntry) : RateInfo :=
  mkRateInfo (re_rub_per_unit v) (re_name v) (re_id v).

Definition fetch_daily (date_iso : option string) : M DailyResult :=
  let key := ("daily", date_iso) in
  let* now := time_time in
  let* hit := cache_lookup key in
  match (match hit with
         | Some (ts, data) => if flt_int (fsub now ts) TTL_SECONDS then Some data else None
         | None => None
         end) with
  | Some data => ret (DailyData data)
  | None =>
      let* cbr_date := lift (_date_to_cbr date_iso) in
      let params :=
        match cbr_date with
        | Some d => if truthy d then [("date_req", Some d)] else []
        | None => []
        end in
      let* r := requests_get CBR_DAILY_XML params in
      match r with
      | NetworkError e => ret (DailyError ("Network error: " ++ e) None)
      | HttpResponse status_code r_text r_xml =>
          if negb (status_code =? 200)
          then ret (DailyError ("CBR returned " ++ str_of_int status_code)
                               (Some (take 300 r_text)))
          else
            let* root := lift (or_raise ParseError r_xml) in
            let date_attr := ET.attrib_get root "Date" in
            let* parsed := lift (daily_rates root) in
            let items := fst parsed in
            let rates := snd parsed in
            let data :=
              mkSnapshot date_attr (Z.of_nat (length items)) items date_iso
                         (rate_info <$> rates) in
            let* _ := cache_store key (now, data) in
            ret (DailyData data)
      end
  end.

(** *** [get_valute_id] *)

Definition get_valute_id (char_code : string) (date_iso : option string)
  : M (option string) :=
  let* data := fetch_daily date_iso in
  match data with
  | DailyError _ _ => ret None
  | DailyData d =>
      match s_rates_map d !! upper char_code with
      | Some info => ret (ri_id info)
      | None => ret None
      end
  end.

(** *** [fetch_history] *)

(** The loop [for i in range(delta + 1)] of the RUB branch, from
    ordinal [start]. *)
Fixpoint rub_points (start : Z) (count : nat) : Outcome (list HistoryPoint) :=
  match count with
  | O => Return []
  | S count' =>
      obind (or_raise ValueError (fromordinal start))
        (fun d =>
           obind (rub_points (start + 1) count')
             (fun rest => Return (mkPoint (isoformat d) fone :: rest)))
  end.

(** The branch [if code == "RUB"]. *)
Definition rub_history (date_from date_to : string) : Outcome HistoryResult :=
  match strptime_Ymd date_from, strptime_Ymd date_to with
  | Some dt_from, Some dt_to =>
      let '(dt_from, dt_to) :=
        if date_lt dt_to dt_from then (dt_to, dt_from) else (dt_from, dt_to) in
      let delta := toordinal dt_to - toordinal dt_from in
      obind (rub_points (toordinal dt_from) (Z.to_nat (delta + 1)))
        (fun points =>
           Return (HistData (mkHistory "RUB" RUB_NAME date_from date_to points)))
  | _, _ => Return (HistError "bad dates")
  end.

(** One [Record] of the dynamic feed: the point it contributes, if
    any. Both [try] blocks catch every exception. *)
Definition parse_record (rec : ET.Element) : option HistoryPoint :=
  let date_attr := ET.attrib_get rec "Date" in
  let val_text := replace "," "." (or_default (ET.findtext rec "Value") "0") in
  let nom_text := or_default (ET.findtext rec "Nominal") "1" in
  let per_unit :=
    match float_of_str val_text with
    | Some value =>
        match int_of_str nom_text with
        | Some nominal =>
            if nominal =? 0 then None
            else match float_of_int nominal with
                 | Some fnominal => Some (fdiv value fnominal)
                 | None => None
                 end
        | None => None
        end
    | None => None
    end in
  let date_iso :=
    match date_attr with
    | Some s => option_map isoformat (strptime_dmY s)
    | None => None
    end in
  match date_iso, per_unit with
  | Some d, Some p => if truthy d then Some (mkPoint d p) else None
  | _, _ => None
  end.

Fixpoint parse_records (recs : list ET.Element) : list HistoryPoint :=
  match recs with
  | [] => []
  | rec :: rest =>
      match parse_record rec with
      | Some p => p :: parse_records rest
      | None => parse_records rest
      end
  end.

Definition fetch_history (code date_from date_to : string) : M HistoryResult :=
  let code := upper code in
  if String.eqb code "RUB" then lift (rub_history date_from date_to)
  else
    let* val_id := get_valute_id code None in
    match (match val_id with
           | Some v => if truthy v then Some v else None
           | None => None
           end) with
    | None => ret (HistError ("Не найден код " ++ code))
    | Some val_id =>
        let* req1 := lift (_date_to_cbr (Some date_from)) in
        let* req2 := lift (_date_to_cbr (Some date_to)) in
        let params :=
          [("date_req1", req1); ("date_req2", req2); ("VAL_NM_RQ", Some val_id)] in
        let* r := requests_get CBR_DYNAMIC_XML params in
        match r with
        | NetworkError e => ret (HistError ("Network error: " ++ e))
        | HttpResponse status_code r_text r_xml =>
            if negb (status_code =? 200)
            then ret (HistError ("CBR returned " ++ str_of_int status_code))
            else
              let* root := lift (or_raise ParseError r_xml) in
              let points := parse_records (ET.findall root "Record") in
              let* data := fetch_daily None in
              let name :=
                match data with
                | DailyData d =>
                    match s_rates_map d !! code with
                    | Some info => ri_name info
                    | None => code
                    end
                | DailyError _ _ => code
                end in
              ret (HistData (mkHistory code name date_from date_to points))
        end
    end.

(** *** The endpoints *)

Definition date_mismatch (date : string) (feed_date : option string) : string :=
  "Для " ++ date ++ " файл ЦБ недоступен (последняя дата ЦБ: "
  ++ str_of_opt feed_date ++ ").".

(** [GET /cbr/daily]. *)
Definition cbr_daily (date : option string) (strict : bool) : M DailyResult :=
  let* data := fetch_daily date in
  match data with
  | DailyError _ _ => ret data
  | DailyData d =>
      match date with
      | Some dt =>
          if strict && truthy dt then
            match _ddmmyyyy_to_iso (s_date d) with
            | Some cbr_iso =>
                if truthy cbr_iso && negb (String.eqb cbr_iso dt)
                then ret (DailyError (date_mismatch dt (s_date d)) None)
                else ret data
            | None => ret data
            end
          else ret data
      | None => ret data
      end
  end.

(** [GET /cbr/history]. *)
Definition cbr_history (code date_from date_to : string) : M HistoryResult :=
  fetch_history code date_from date_to.

Definition not_found (code : string) (feed_date : option string) : string :=
  "Не найдена валюта " ++ code ++ " на " ++ str_of_opt feed_date.

(** What [cbr_convert] does with the snapshot once it has it. *)
Definition convert (d : Snapshot) (from_code to_code : string) (amount : float)
  : ConvertResult :=
  let rates_map := s_rates_map d in
  let f := upper from_code in
  let t := upper to_code in
  match rates_map !! f with
  | None => ConvError (not_found f (s_date d)) None
  | Some from_info =>
      match rates_map !! t with
      | None => ConvError (not_found t (s_date d)) None
      | Some to_info =>
          let rub_per_from := ri_rub_per_unit from_info in
          let rub_per_to := ri_rub_per_unit to_info in
          let rate :=
            if float_truthy rub_per_to then Some (fdiv rub_per_from rub_per_to)
            else None in
          let result :=
            match rate with
            | Some r => Some (fmul amount r)
            | None => None
            end in
          ConvData (mkConversion (s_date d) f t amount rate result)
      end
  end.

(** [GET /cbr/convert]. *)
Definition cbr_convert (from_code to_code : string) (amount : float)
    (date : option string) : M ConvertResult :=
  let* data := fetch_daily date in
  match data with
  | DailyError e details => ret (ConvError e details)
  | DailyData d => ret (convert d from_code to_code amount)
  end.

(** *** [GET /cbr/daily.csv] *)

(** The header row. *)
Definition CSV_HEADER : list Cell :=
  [CellStr "char_code"; CellStr "name"; CellStr "nominal";
   CellStr "rub_per_nominal"; CellStr "rub_per_1"].

(** [per1] for one item: [value / nominal] when both are truthy. *)
Definition per1 (it : Item) : Outcome (option float) :=
  match it_value it with
  | Some v =>
      if float_truthy v && negb (it_nominal it =? 0) then
        obind (or_raise OverflowError (float_of_int (it_nominal it)))
          (fun fnominal => Return (Some (fdiv v fnominal)))
      else Return None
  | None => Return None
  end.

(** The row written for one item. *)
Definition csv_row (it : Item) : Outcome (list Cell) :=
  obind (per1 it)
    (fun p =>
       Return [CellStr (it_char_code it); CellStr (it_name it); CellInt (it_nominal it);
               CellFloat (it_value it);
               CellStr match p with
                       | Some x => if float_truthy x then format_6f x else ""
                       | None => ""
                       end]).

(** The rows written after the header, in the order of the calls of
    [w.writerow]. *)
Fixpoint csv_rows (items : list Item) : Outcome (list (list Cell)) :=
  match items with
  | [] => Return []
  | it :: rest =>
      obind (csv_row it)
        (fun row => obind (csv_rows rest) (fun rows => Return (row :: rows)))
  end.

(** The double quote character. *)
Definition DQUOTE : string := String (ascii_of_N 34) EmptyString.

Definition csv_disposition (d : Snapshot) : string :=
  "attachment; filename=" ++ DQUOTE ++ "cbr_daily_"
  ++ replace "." "-" (or_default (s_date d) "today") ++ ".csv" ++ DQUOTE.

Definition cbr_daily_csv (date : option string) : M CsvResult :=
  let* data := fetch_daily date in
  match data with
  | DailyError e details => ret (CsvError e details)
  | DailyData d =>
      let* rows := lift (csv_rows (s_items d)) in
      ret (CsvResponse (CSV_HEADER :: rows) (csv_disposition d))
  end.

(** *** [GET /cbr/currencies] *)

(** [items.sort(key=lambda x: x["code"])]: a stable sort by code, here
    by insertion from the right. *)
Fixpoint insert_by_code (x : Currency) (l : list Currency) : list Currency :=
  match l with
  | [] => [x]
  | y :: l' =>
      if String.leb (cur_code x) (cur_code y) then x :: l
      else y :: insert_by_code x l'
  end.

Definition sort_by_code (l : list Currency) : list Currency :=
  List.fold_right insert_by_code [] l.

(** The items are built from the entries of ["rates_map"] and then
    sorted by code; the codes being the keys of a dict, no two are equal,
    so the order in which the dict is walked does not show in the
    result. *)
Definition cbr_currencies (date : option string) : M CurrenciesResult :=
  let* data := fetch_daily date in
  match data with
  | DailyError e details => ret (CurError e details)
  | DailyData d =>
      let items :=
        List.map (fun kv => mkCurrency (fst kv) (ri_name (snd kv)))
                 (map_to_list (s_rates_map d)) in
      ret (CurData (s_date d) (sort_by_code items))
  end.

End Service.

End Rates.

(* ===================================================================== *)
(** ** The caller: [src/analytics-service/main.py] *)
(* ===================================================================== *)

Module Analytics.
Import PyStr.

(** [_env_url]; [getenv] is the environment, [None] for an unset
    variable. *)
Definition _env_url (getenv : string -> option string) (key default : string) : string :=
  let v := strip (match getenv key with Some x => x | None => "" end) in
  if truthy v then rstrip_char "/" v else rstrip_char "/" default.

End Analytics.

(* ===================================================================== *)
(** ** Properties of states and snapshots *)
(* ===================================================================== *)

Module Props.
Import PyStr PyNum PyDate Rates.

(** The state after one reading of the clock. *)
Definition tick (st : State) : State :=
  mkState (_cache st) (S (ticks st)) (sent st).

(** The entry a call of [fetch_daily] would be served from the cache:
    the one under its key, when the clock reading the call takes is less
    than [TTL_SECONDS] after the entry's timestamp. *)
Definition fresh_hit (w : World) (date_iso : option string) (st : State)
  : option Snapshot :=
  match _cache st !! ("daily", date_iso) with
  | Some (ts, data) =>
      if flt_int (fsub (clock w (ticks st)) ts) TTL_SECONDS then Some data else None
  | None => None
  end.

(** The request [fetch_daily] sends for a converted date. *)
Definition daily_request (cbr_date : option string) : Request :=
  mkRequest CBR_DAILY_XML
    match cbr_date with
    | Some d => if truthy d then [("date_req", Some d)] else []
    | None => []
    end.

(** The state after that request has been sent. *)
Definition after_request (rq : Request) (st : State) : State :=
  mkState (_cache st) (S (ticks st)) (sent st ++ [rq]).

(** The dict [data] for a feed document, its items and its rates. *)
Definition snapshot_of (date_iso : option string) (root : ET.Element)
    (items : list Item) (rates : gmap string RateEntry) : Snapshot :=
  mkSnapshot (ET.attrib_get root "Date") (Z.of_nat (length items)) items date_iso
             (rate_info <$> rates).


(** Every rate is a value over a positive nominal: the synthetic RUB
    entry, or the quotient computed from an item of the feed. *)
Definition rate_from (items : list Item) (code : string) (e : RateEntry) : Prop :=
  0 < re_nominal e /\
  exists v fnominal,
    float_of_int (re_nominal e) = Some fnominal /\
    re_rub_per_unit e = fdiv v fnominal /\
    ((code = "RUB" /\ v = fone) \/
     (exists it, In it items /\ it_char_code it = code /\
                 it_value it = Some v /\ it_nominal it = re_nominal e)).

Definition rates_ok (items : list Item) (rates : gmap string RateEntry) : Prop :=
  forall code e, rates !! code = Some e -> rate_from items code e.

(** The invariant of a snapshot: its ["rates_map"] is the projection of
    a [rates] dict that holds RUB at 1.0 with nominal 1 and otherwise
    only quotients of feed values by positive nominals. *)
Definition snapshot_ok (d : Snapshot) : Prop :=
  exists rates,
    s_rates_map d = rate_info <$> rates /\
    rates !! "RUB" = Some RUB_ENTRY /\
    rates_ok (s_items d) rates.

Definition cache_ok (st : State) : Prop :=
  forall key ts d, _cache st !! key = Some (ts, d) -> snapshot_ok d.


(** A rate a conversion can divide by and get a number: finite and not
    zero. *)
Definition valid_rate (x : float) : bool := is_finite x && float_truthy x.

(** The char code [parse_valute] reads off a record. *)
Definition charcode_of (valute : ET.Element) : string :=
  upper (or_default (ET.findtext valute "CharCode") "").

(** A record without [Value] text: no such child, or an empty one. *)
Definition no_value_text (valute : ET.Element) : bool :=
  negb (truthy (or_default (ET.findtext valute "Value") "")).

(** A record without [Nominal] text. *)
Definition no_nominal_text (valute : ET.Element) : bool :=
  negb (truthy (or_default (ET.findtext valute "Nominal") "")).

(** [f] is a binary64 number nearest to the fraction [num / den]: a
    positive normal number [m * 2^e] with [e < 0], within half a unit
    in the last place of the fraction. *)
Definition nearest_to (num den : Z) (f : float) : Prop :=
  match f with
  | S754_finite false m e =>
      e < 0 /\ 2 ^ 52 <= Z.pos m < 2 ^ 53
      /\ 2 * Z.abs (Z.pos m * den - num * 2 ^ (- e)) <= den
  | _ => False
  end.

(** The item [parse_valute] appends for a record whose nominal reads
    as [nominal]. *)
Definition item_of (valute : ET.Element) (nominal : Z) : Item :=
  mkItem (ET.attrib_get valute "ID") (ET.findtext valute "NumCode")
         (charcode_of valute) (or_default (ET.findtext valute "Name") "")
         nominal
         (float_of_str (replace "," "." (or_default (ET.findtext valute "Value") "0"))).

(** The feed's rendering of a date, [DD.MM.YYYY], as in the [Date]
    attribute of its documents. *)
Definition feed_date_of (d : date) : string :=
  fmt2 (day d) ++ "." ++ fmt2 (month d) ++ "." ++ fmt4 (year d).

(** The points of a history result, when it is one. *)
Definition points_of (r : Outcome HistoryResult) : option (list HistoryPoint) :=
  match r with
  | Return (HistData h) => Some (h_points h)
  | _ => None
  end.

(** The ordinals [first, first + 1, ...], [count] of them. *)
Fixpoint ordinals (first : Z) (count : nat) : list Z :=
  match count with
  | O => []
  | S n => first :: ordinals (first + 1) n
  end.

(** The point the RUB series holds for the day with ordinal [o]. *)
Definition rub_point (o : Z) : HistoryPoint := mkPoint (isoformat (ord2ymd o)) fone.

(** The earlier and the later of two dates. *)
Definition earlier (d1 d2 : date) : date := if date_lt d2 d1 then d2 else d1.
Definition later (d1 d2 : date) : date := if date_lt d2 d1 then d1 else d2.

(** Every cached daily snapshot records the date of its key and the
    number of its items. *)
Definition cache_keyed (st : State) : Prop :=
  forall date_iso ts d,
    _cache st !! ("daily", date_iso) = Some (ts, d) ->
    s_requested_date_iso d = date_iso /\ s_count d = Z.of_nat (length (s_items d)).

(** The nominal and the value [parse_valute] reads off a record. *)
Definition nominal_of (valute : ET.Element) : option Z :=
  int_of_str (or_default (ET.findtext valute "Nominal") "1").

Definition value_of (valute : ET.Element) : option float :=
  float_of_str (replace "," "." (or_default (ET.findtext valute "Value") "0")).

(** A record that sets a rate: its value reads as a float, its char
    code is not empty and its nominal is positive. *)
Definition usable (valute : ET.Element) : bool :=
  match value_of valute, nominal_of valute with
  | Some _, Some n => truthy (charcode_of valute) && (0 <? n)
  | _, _ => false
  end.

(** The id [fetch_history] goes on with: the [ID] of the code's entry
    in the snapshot, when there is a snapshot, an entry and a non-empty
    [ID]. *)
Definition valute_id_in (r : DailyResult) (code : string) : option string :=
  match r with
  | DailyError _ _ => None
  | DailyData d =>
      match s_rates_map d !! code with
      | Some info =>
          match ri_id info with
          | Some v => if truthy v then Some v else None
          | None => None
          end
      | None => None
      end
  end.

(** The request of the history for a code's id and two converted
    dates. *)
Definition dynamic_request (req1 req2 : option string) (val_id : string) : Request :=
  mkRequest CBR_DYNAMIC_XML
    [("date_req1", req1); ("date_req2", req2); ("VAL_NM_RQ", Some val_id)].

(** The name the history gives a code: the one in the snapshot, or the
    code itself. *)
Definition name_in (r : DailyResult) (code : string) : string :=
  match r with
  | DailyData d =>
      match s_rates_map d !! code with
      | Some info => ri_name info
      | None => code
      end
  | DailyError _ _ => code
  end.

Definition is_dynamic (rq : Request) : bool := String.eqb (rq_url rq) CBR_DYNAMIC_XML.

(** [st'] comes after [st]: the cache is the same except perhaps under
    the key of the latest daily table and has lost no entry, at most
    [n] requests were sent, at most [k] of them to the dynamic endpoint,
    and the clock was read at most [t] times. *)
Definition extends (n k t : nat) (st st' : State) : Prop :=
  (forall key, key <> ("daily", None) -> _cache st' !! key = _cache st !! key)
  /\ (forall key, is_Some (_cache st !! key) -> is_Some (_cache st' !! key))
  /\ (ticks st' <= ticks st + t)%nat
  /\ exists new,
       sent st' = (sent st ++ new)%list
       /\ (length new <= n)%nat
       /\ (length (List.filter is_dynamic new) <= k)%nat.

(** The order of the currencies listing: by code, strictly. *)
Definition code_lt (a b : Currency) : Prop := String.ltb (cur_code a) (cur_code b) = true.

(** A string of ASCII characters. *)
Fixpoint is_ascii (s : string) : bool :=
  match s with
  | EmptyString => true
  | String c s' => (code c <? 128) && is_ascii s'
  end.

(** The number of characters of a UTF-8 text: of the bytes that start
    one. *)
Fixpoint char_count (s : string) : nat :=
  match s with
  | EmptyString => O
  | String c s' => ((if is_continuation c then 0 else 1) + char_count s')%nat
  end.

(** A text that does not begin in the middle of a character. *)
Definition starts_char (s : string) : bool :=
  match s with
  | EmptyString => true
  | String c _ => negb (is_continuation c)
  end.

(** [out] is the first [n] characters of [text]: a prefix of it that
    ends where a character ends and holds [n] characters, or all of
    them when there are fewer. *)
Definition first_chars (n : nat) (text out : string) : Prop :=
  (exists rest, text = (out ++ rest)%string /\ starts_char rest = true)
  /\ char_count out = Nat.min n (char_count text).

(** A string of decimal digits. *)
Fixpoint all_digits (s : string) : bool :=
  match s with
  | EmptyString => true
  | String c s' => is_digit c && all_digits s'
  end.

(** Whether a character occurs in a string. *)
Fixpoint has_char (c : ascii) (s : string) : bool :=
  match s with
  | EmptyString => false
  | String a s' => Ascii.eqb a c || has_char c s'
  end.

(** [c * k] for a one-character string [c]. *)
Fixpoint repeat_char (c : ascii) (k : nat) : string :=
  match k with
  | O => EmptyString
  | S k' => String c (repeat_char c k')
  end.

(** The row of the CSV export for an item: its code, name, nominal and
    value, then the price of one unit. That last cell is the quotient of
    the value by the nominal, the number ["rates_map"] holds for a
    usable record, written with six decimals, and it is empty when the
    quotient is zero; it is empty too when the item has no value or a
    zero nominal. *)
Definition row_for (it : Item) (row : list Cell) : Prop :=
  exists cell,
    row = [CellStr (it_char_code it); CellStr (it_name it); CellInt (it_nominal it);
           CellFloat (it_value it); CellStr cell]
    /\ (forall v fnominal,
          it_value it = Some v -> 0 < it_nominal it ->
          float_of_int (it_nominal it) = Some fnominal ->
          cell = if float_truthy (fdiv v fnominal) then format_6f (fdiv v fnominal) else "")
    /\ (it_value it = None \/ it_nominal it = 0 -> cell = "").

(** A result of [fetch_daily] with [a] as the requested date of its
    snapshot. *)
Definition with_requested (a : option string) (r : Outcome DailyResult)
  : Outcome DailyResult :=
  match r with
  | Return (DailyData d) =>
      Return (DailyData (mkSnapshot (s_date d) (s_count d) (s_items d) a (s_rates_map d)))
  | other => other
  end.

End Props.

(* ===================================================================== *)
(** ** Sample feeds and worlds *)
(* ===================================================================== *)

Module Samples.
Import PyNum Rates.

Definition leaf (tag text : string) : ET.Element := ET.Elem tag [] (Some text) [].

Definition valute (id num code nominal name value : string) : ET.Element :=
  ET.Elem "Valute" [("ID", id)] None
    [leaf "NumCode" num; leaf "CharCode" code; leaf "Nominal" nominal;
     leaf "Name" name; leaf "Value" value].

(** A record that has no [Value] child at all. *)
Definition valute_no_value (id num code nominal name : string) : ET.Element :=
  ET.Elem "Valute" [("ID", id)] None
    [leaf "NumCode" num; leaf "CharCode" code; leaf "Nominal" nominal;
     leaf "Name" name].

(** A record that has no [Nominal] child. *)
Definition valute_no_nominal (id num code name value : string) : ET.Element :=
  ET.Elem "Valute" [("ID", id)] None
    [leaf "NumCode" num; leaf "CharCode" code; leaf "Name" name; leaf "Value" value].

Definition usd : ET.Element := valute "R01235" "840" "USD" "1" "US Dollar" "92,3405".
Definition cny : ET.Element := valute "R01375" "156" "CNY" "10" "Yuan" "127,5".
Definition xdr_bad_value : ET.Element := valute "R01589" "960" "XDR" "1" "SDR" "n/a".
Definition kzt_no_value : ET.Element := valute_no_value "R01335" "398" "KZT" "100" "Tenge".
Definition eur_no_nominal : ET.Element := valute_no_nominal "R01239" "978" "EUR" "Euro" "99,5".
Definition gbp_bad_nominal : ET.Element := valute "R01035" "826" "GBP" "abc" "Pound" "116,1".

(** The feed of Saturday 2023-12-30, which upstream also serves for the
    days after it that have no table of their own. *)
Definition feed : ET.Element :=
  ET.Elem "ValCurs" [("Date", "30.12.2023"); ("name", "Foreign Currency Market")] None
    [usd; cny; xdr_bad_value; kzt_no_value; eur_no_nominal].

Definition feed_bad_nominal : ET.Element :=
  ET.Elem "ValCurs" [("Date", "30.12.2023")] None [usd; gbp_bad_nominal].

Definition record (date nominal value : string) : ET.Element :=
  ET.Elem "Record" [("Date", date); ("Id", "R01235")] None
    [leaf "Nominal" nominal; leaf "Value" value].

Definition january : ET.Element :=
  ET.Elem "ValCurs" [("ID", "R01235")] None
    [record "10.01.2024" "1" "89,3939"; record "11.01.2024" "1" "88,7818"].

Definition empty_range : ET.Element := ET.Elem "ValCurs" [("ID", "R01235")] None [].

(** The float of a small integer. *)
Definition fl (n : Z) : float := binary_normalize prec emax n 0 false.

(** A clock that reads 0 s, 100 s, then 1000 s and later 1100 s. *)
Definition sample_clock (k : nat) : float :=
  match k with
  | O => fl 0
  | 1%nat => fl 100
  | 2%nat => fl 1000
  | _ => fl 1100
  end.

Definition param (rq : Request) (k : string) : option string :=
  match List.find (fun p => String.eqb (fst p) k) (rq_params rq) with
  | Some (_, v) => v
  | None => None
  end.

(** Upstream serves the daily table, and the dynamic series only for a
    range given in order. *)
Definition serve (rq : Request) : Response :=
  if String.eqb (rq_url rq) CBR_DAILY_XML then HttpResponse 200 "<ValCurs/>" (Some feed)
  else
    match param rq "date_req1", param rq "date_req2" with
    | Some "01/01/2024", Some "01/02/2024" => HttpResponse 200 "<ValCurs/>" (Some january)
    | _, _ => HttpResponse 200 "<ValCurs/>" (Some empty_range)
    end.

Definition world : World := mkWorld sample_clock (fun _ rq => serve rq).

(** Upstream answers 503 to everything. *)
Definition world_down : World :=
  mkWorld sample_clock (fun _ _ => HttpResponse 503 "Service Unavailable" None).

(** Upstream serves a table with a nominal that is not a number. *)
Definition world_bad_nominal : World :=
  mkWorld sample_clock (fun _ _ => HttpResponse 200 "<ValCurs/>" (Some feed_bad_nominal)).

Definition hundred : float := fl 100.

(** The first call for 2024-01-01 on a fresh service: what it parses,
    what it returns and the state it leaves. *)
Definition new_year : option string := Some "2024-01-01".

Definition parsed : list Item * gmap string RateEntry :=
  match daily_rates feed with
  | Return p => p
  | Raise _ => ([], ∅)
  end.

Definition snapshot : Snapshot := Props.snapshot_of new_year feed (fst parsed) (snd parsed).

Definition after_first : State :=
  mkState (<[("daily", new_year) := (fl 0, snapshot)]> ∅) 1
          [Props.daily_request (Some "01/01/2024")].

(** The table of Friday 2024-01-05, and an upstream that serves it. *)
Definition feed_jan5 : ET.Element :=
  ET.Elem "ValCurs" [("Date", "05.01.2024")] None [usd].

Definition world_jan5 : World :=
  mkWorld sample_clock (fun _ _ => HttpResponse 200 "<ValCurs/>" (Some feed_jan5)).

(** The first call for that day, asked for without zero padding. *)
Definition jan5_unpadded : string := "2024-1-5".

Definition snapshot_jan5 : Snapshot :=
  match daily_rates feed_jan5 with
  | Return (items, rates) => Props.snapshot_of (Some jan5_unpadded) feed_jan5 items rates
  | Raise _ => mkSnapshot None 0 [] None ∅
  end.

Definition after_jan5 : State :=
  mkState (<[("daily", Some jan5_unpadded) := (fl 0, snapshot_jan5)]> ∅) 1
          [Props.daily_request (Some "05/01/2024")].

(** A table without a [Date] attribute, and an upstream that serves
    it. *)
Definition feed_undated : ET.Element := ET.Elem "ValCurs" [] None [usd].

Definition world_undated : World :=
  mkWorld sample_clock (fun _ _ => HttpResponse 200 "<ValCurs/>" (Some feed_undated)).

Definition snapshot_undated : Snapshot :=
  match daily_rates feed_undated with
  | Return (items, rates) => Props.snapshot_of new_year feed_undated items rates
  | Raise _ => mkSnapshot None 0 [] None ∅
  end.

Definition after_undated : State :=
  mkState (<[("daily", new_year) := (fl 0, snapshot_undated)]> ∅) 1
          [Props.daily_request (Some "01/01/2024")].

(** The first call for the latest table on a fresh service, and the
    state after the history request that follows it. *)
Definition snapshot_latest : Snapshot :=
  Props.snapshot_of None feed (fst parsed) (snd parsed).

Definition after_latest : State :=
  mkState (<[("daily", None) := (fl 0, snapshot_latest)]> ∅) 1 [Props.daily_request None].

Definition after_history : State :=
  mkState (<[("daily", None) := (fl 0, snapshot_latest)]> ∅) 2
          [Props.daily_request None;
           Props.dynamic_request (Some "01/01/2024") (Some "01/02/2024") "R01235"].

End Samples.

(* ===================================================================== *)
(** * Facts *)
(* ===================================================================== *)

(** Divisions and remainders by constants are handed to [lia] as their
    Euclidean equations. *)
Ltac Zify.zify_post_hook ::= Z.to_euclidean_division_equations.

(** ** Binary64 arithmetic *)

Module PyNumFacts.
Import PyNum.

Lemma digits2_pos_bounds p :
  2 ^ (Z.pos (digits2_pos p) - 1) <= Z.pos p < 2 ^ Z.pos (digits2_pos p).
Proof.
  induction p as [p IH | p IH | ]; cbn [digits2_pos]; [| | cbn; lia].
  all: rewrite Pos2Z.inj_succ, Z.pow_succ_r by lia;
    replace (Z.succ (Z.pos (digits2_pos p)) - 1) with (Z.succ (Z.pos (digits2_pos p) - 1)) by lia;
    rewrite Z.pow_succ_r by lia; lia.
Qed.

Lemma shr_1_m mrs : 0 <= shr_m mrs -> shr_m (shr_1 mrs) = shr_m mrs / 2.
Proof.
  destruct mrs as [m r s]; cbn [shr_m]. intros H.
  destruct m as [ | [p | p | ] | p ]; cbn [shr_1 shr_m]; lia.
Qed.

Lemma pow2_xO p : 2 ^ Z.pos p~0 = 2 ^ Z.pos p * 2 ^ Z.pos p.
Proof. replace (Z.pos p~0) with (Z.pos p + Z.pos p) by lia. apply Z.pow_add_r; lia. Qed.

Lemma pow2_xI p : 2 ^ Z.pos p~1 = 2 * 2 ^ Z.pos p * 2 ^ Z.pos p.
Proof.
  replace (Z.pos p~1) with (1 + Z.pos p + Z.pos p) by lia.
  rewrite !Z.pow_add_r by lia. reflexivity.
Qed.

Lemma iter_shr_1_m p : forall mrs,
  0 <= shr_m mrs -> shr_m (SpecFloat.iter_pos shr_1 p mrs) = shr_m mrs / 2 ^ Z.pos p.
Proof.
  induction p as [p IH | p IH | ]; intros mrs H; cbn [SpecFloat.iter_pos].
  - assert (H1 : 0 <= shr_m (shr_1 mrs)) by (rewrite shr_1_m by lia; lia).
    assert (H2 : 0 <= shr_m (SpecFloat.iter_pos shr_1 p (shr_1 mrs))).
    { rewrite IH by lia. apply Z.div_pos; lia. }
    rewrite IH, IH, shr_1_m by lia.
    rewrite pow2_xI, !Z.div_div by lia. f_equal. lia.
  - assert (H2 : 0 <= shr_m (SpecFloat.iter_pos shr_1 p mrs)).
    { rewrite IH by lia. apply Z.div_pos; lia. }
    rewrite IH, IH by lia.
    rewrite pow2_xO, !Z.div_div by lia. f_equal.
  - rewrite shr_1_m by lia. reflexivity.
Qed.

Lemma shr_record_of_loc_m m l : shr_m (shr_record_of_loc m l) = m.
Proof. destruct l as [ | [ | | ]]; reflexivity. Qed.

(** Shifting a positive mantissa down to the target exponent leaves it
    positive, as long as the exponent is not below the smallest one. *)
Lemma shr_fexp_pos m e l :
  emin prec emax <= e ->
  exists m' e', shr_m (fst (shr_fexp prec emax (Z.pos m) e l)) = Z.pos m'
                /\ snd (shr_fexp prec emax (Z.pos m) e l) = e'
                /\ emin prec emax <= e'.
Proof.
  intros He. unfold shr_fexp, shr. cbn [Zdigits2].
  pose proof (digits2_pos_bounds m) as D.
  set (d := Z.pos (digits2_pos m)) in *.
  assert (K : fexp prec emax (d + e) - e <= d - 1).
  { unfold fexp, emin, prec, emax in *. lia. }
  destruct (fexp prec emax (d + e) - e) as [ | k | k ] eqn:Ek; cbn [fst snd].
  - rewrite shr_record_of_loc_m. eauto.
  - rewrite iter_shr_1_m by (rewrite shr_record_of_loc_m; lia).
    rewrite shr_record_of_loc_m.
    assert (P : 2 ^ Z.pos k <= Z.pos m).
    { eapply Z.le_trans; [ | apply D ]. apply Z.pow_le_mono_r; lia. }
    assert (Q : 0 < Z.pos m / 2 ^ Z.pos k) by (apply Z.div_str_pos; lia).
    destruct (Z.pos m / 2 ^ Z.pos k) as [ | q | q ]; try lia.
    exists q, (e + Z.pos k). split; [reflexivity | split; [reflexivity | lia]].
  - rewrite shr_record_of_loc_m. eauto.
Qed.

Lemma round_nearest_even_pos m l : exists m', round_nearest_even (Z.pos m) l = Z.pos m'.
Proof.
  destruct l as [ | [ | | ]]; cbn [round_nearest_even];
    try destruct (Z.even (Z.pos m)); eauto.
Qed.

Lemma binary_round_aux_pos sx m e l :
  emin prec emax <= e ->
  (exists m' e', binary_round_aux prec emax sx (Z.pos m) e l = S754_finite sx m' e')
  \/ binary_round_aux prec emax sx (Z.pos m) e l = S754_infinity sx.
Proof.
  intros He. unfold binary_round_aux.
  destruct (shr_fexp_pos m e l He) as (m1 & e1 & H1 & H2 & H3).
  destruct (shr_fexp prec emax (Z.pos m) e l) as [mrs1 e1'] eqn:E1. cbn [fst snd] in *. subst e1'.
  rewrite H1.
  destruct (round_nearest_even_pos m1 (loc_of_shr_record mrs1)) as [m2 ->].
  destruct (shr_fexp_pos m2 e1 loc_Exact H3) as (m3 & e3 & G1 & G2 & G3).
  destruct (shr_fexp prec emax (Z.pos m2) e1 loc_Exact) as [mrs3 e3'] eqn:E3. cbn [fst snd] in *. subst e3'.
  rewrite G1. destruct (e3 <=? emax - prec); eauto.
Qed.

Lemma binary_round_pos sx m e :
  emin prec emax <= e ->
  (exists m' e', binary_round prec emax sx m e = S754_finite sx m' e')
  \/ binary_round prec emax sx m e = S754_infinity sx.
Proof.
  intros He. unfold binary_round, shl_align.
  destruct (fexp prec emax (Z.pos (digits2_pos m) + e) - e) eqn:E;
    apply binary_round_aux_pos; try lia.
  unfold fexp in *. lia.
Qed.

Example float_of_str_examples :
  float_of_str " 1_0.5e-1 " = Some (S754_finite false 4728779608739021 (-52))
  /\ float_of_str "1e400" = Some (S754_infinity false)
  /\ float_of_str "-0" = Some (S754_zero true)
  /\ float_of_str "NaN" = Some S754_nan
  /\ float_of_str "1,5" = None
  /\ float_of_str "" = None.
Proof. vm_compute. repeat split. Qed.

Example int_of_str_examples :
  int_of_str " -1_000 " = Some (-1000) /\ int_of_str "1.0" = None /\ int_of_str "" = None.
Proof. vm_compute. repeat split. Qed.

(** [float(n)] of a positive [int] is a positive finite number. *)
Lemma float_of_int_pos n f :
  0 < n -> float_of_int n = Some f -> exists m e, f = S754_finite false m e.
Proof.
  intros Hn. unfold float_of_int, binary_normalize.
  destruct n as [ | p | p ]; try lia.
  destruct (binary_round_pos false p 0) as [(m & e & ->) | ->].
  - unfold emin, prec, emax. lia.
  - intros [= <-]. eauto.
  - discriminate.
Qed.

(** [x / x] is exactly [1.0] for every finite non-zero [x]. *)
Lemma fdiv_self s m e : fdiv (S754_finite s m e) (S754_finite s m e) = fone.
Proof.
  unfold fdiv, SFdiv, SFdiv_core_binary.
  replace (Zdigits2 (Z.pos m) + e - (Zdigits2 (Z.pos m) + e)) with 0 by lia.
  replace (e - e) with 0 by lia.
  change (Z.min (fexp prec emax 0) 0) with (-53). change (0 - -53) with 53.
  cbv iota. rewrite Z.shiftl_mul_pow2 by lia.
  assert (H : Z.div_eucl (Z.pos m * 2 ^ 53) (Z.pos m) = (2 ^ 53, 0)).
  { pose proof (Z.div_mul (2 ^ 53) (Z.pos m)) as Hq.
    pose proof (Z.mod_mul (2 ^ 53) (Z.pos m)) as Hr.
    rewrite (Z.mul_comm (2 ^ 53)) in Hq, Hr.
    unfold Z.div, Z.modulo in Hq, Hr.
    destruct (Z.div_eucl (Z.pos m * 2 ^ 53) (Z.pos m)) as [q r]. cbn [fst snd] in *.
    rewrite Hq, Hr by lia. reflexivity. }
  rewrite H. rewrite xorb_nilpotent.
  unfold new_location. destruct (Z.even (Z.pos m)); reflexivity.
Qed.
End PyNumFacts.

(** ** The calendar *)

Module PyDateFacts.
Import PyStr PyDate.

Lemma is_leap_spec y :
  is_leap y = true <-> (y mod 4 = 0 /\ (y mod 100 <> 0 \/ y mod 400 = 0)).
Proof.
  unfold is_leap.
  rewrite andb_true_iff, orb_true_iff, negb_true_iff, !Z.eqb_eq, Z.eqb_neq. tauto.
Qed.

Lemma is_leap_false y :
  is_leap y = false <-> ~ (y mod 4 = 0 /\ (y mod 100 <> 0 \/ y mod 400 = 0)).
Proof. rewrite <- is_leap_spec. destruct (is_leap y); split; congruence. Qed.

(** Evaluation of the closed comparisons and differences a case analysis
    on the month leaves behind. *)
Ltac closed_bool t :=
  let v := eval vm_compute in t in
  lazymatch v with
  | true => change t with true
  | false => change t with false
  end.

Ltac closed_num t :=
  let v := eval vm_compute in t in
  lazymatch v with
  | Z0 => change t with v
  | Zpos ?p => change t with v
  end.

Ltac closed_Z :=
  repeat match goal with
  | |- context [Z.sub (Zpos ?a) (Zpos ?b)] => closed_num (Z.sub (Zpos a) (Zpos b))
  | |- context [Z.ltb (Zpos ?a) (Zpos ?b)] => closed_bool (Z.ltb (Zpos a) (Zpos b))
  | |- context [Z.eqb (Zpos ?a) (Zpos ?b)] => closed_bool (Z.eqb (Zpos a) (Zpos b))
  | |- context [Z.ltb (Zpos ?a) Z0] => closed_bool (Z.ltb (Zpos a) Z0)
  | |- context [Z.eqb Z0 (Zpos ?b)] => closed_bool (Z.eqb Z0 (Zpos b))
  end.

(** Case analysis on a month. *)
Ltac month_cases m :=
  let H := fresh in
  assert (H : m = 1 \/ m = 2 \/ m = 3 \/ m = 4 \/ m = 5 \/ m = 6 \/ m = 7 \/ m = 8
              \/ m = 9 \/ m = 10 \/ m = 11 \/ m = 12) by lia;
  destruct H as [-> | [-> | [-> | [-> | [-> | [-> | [-> | [-> | [-> | [-> | [-> | ->]]]]]]]]]]].

(** Case analysis on an integer known to lie in a short range. *)
Ltac enum d lo n :=
  lazymatch n with
  | O => exfalso; lia
  | S ?n' =>
      destruct (Z.eq_dec d lo) as [-> | ?];
      [ | let lo' := eval vm_compute in (lo + 1) in enum d lo' n' ]
  end.

(** [ord2ymd] yields a date of the calendar, and the one with the given
    ordinal: first the year, out of the cycles of 400, 100, 4 and 1
    years, then the month and the day within the year. *)
Lemma ord2ymd_toordinal n :
  1 <= n <= MAXORDINAL ->
  valid_date (ord2ymd n) = true /\ toordinal (ord2ymd n) = n.
Proof.
  intros Hn. unfold MAXORDINAL in Hn. unfold ord2ymd, DI400Y, DI100Y, DI4Y.
  set (n0 := n - 1).
  set (n400 := n0 / 146097). set (r1 := n0 mod 146097).
  set (n100 := r1 / 36524). set (r2 := r1 mod 36524).
  set (n4 := r2 / 1461). set (r3 := r2 mod 1461).
  set (n1 := r3 / 365). set (r4 := r3 mod 365).
  assert (B : 0 <= n400 <= 24 /\ 0 <= n100 <= 4 /\ 0 <= n4 <= 24 /\ 0 <= n1 <= 4
              /\ 0 <= r4 <= 364)
    by (subst n0 n400 r1 n100 r2 n4 r3 n1 r4; lia).
  destruct ((n1 =? 4) || (n100 =? 4)) eqn:E.
  - (* the last day of a leap year that closes a cycle *)
    apply orb_true_iff in E. rewrite !Z.eqb_eq in E.
    unfold valid_date, toordinal, days_before_year, days_before_month, days_in_month.
    cbn [year month day]. cbn -[Z.div Z.modulo Z.mul Z.add Z.sub is_leap].
    assert (L : is_leap (n400 * 400 + 1 + n100 * 100 + n4 * 4 + n1 - 1) = true).
    { apply is_leap_spec. subst n0 n400 r1 n100 r2 n4 r3 n1 r4. lia. }
    rewrite L. unfold MINYEAR, MAXYEAR.
    split; subst n0 n400 r1 n100 r2 n4 r3 n1 r4; lia.
  - apply orb_false_iff in E. rewrite !Z.eqb_neq in E.
    set (y := n400 * 400 + 1 + n100 * 100 + n4 * 4 + n1).
    set (leapyear := (n1 =? 3) && (negb (n4 =? 24) || (n100 =? 3))).
    assert (L : is_leap y = leapyear).
    { subst leapyear. destruct (is_leap y) eqn:L; symmetry.
      - apply is_leap_spec in L.
        rewrite andb_true_iff, orb_true_iff, negb_true_iff, !Z.eqb_eq, Z.eqb_neq.
        subst y n0 n400 r1 n100 r2 n4 r3 n1 r4. lia.
      - apply is_leap_false in L. apply not_true_is_false. intros C. apply L; clear L.
        rewrite andb_true_iff, orb_true_iff, negb_true_iff, !Z.eqb_eq, Z.eqb_neq in C.
        subst y n0 n400 r1 n100 r2 n4 r3 n1 r4. lia. }
    assert (Y : days_before_year y = n0 - r4 /\ 1 <= y <= 9999).
    { unfold days_before_year. subst y n0 n400 r1 n100 r2 n4 r3 n1 r4. lia. }
    assert (R : 0 <= r4 <= 364) by lia.
    assert (N0 : n0 = n - 1) by reflexivity.
    clearbody y leapyear r4. clear B E. clearbody n0. clear n400 r1 n100 r2 n4 r3 n1.
    rewrite Z.shiftr_div_pow2 by lia. change (2 ^ 5) with 32.
    set (m := (r4 + 50) / 32).
    assert (M : 1 <= m <= 12) by (subst m; lia).
    assert (M2 : 32 * m <= r4 + 50 < 32 * m + 32) by (subst m; lia).
    clearbody m.
    unfold valid_date, toordinal, days_before_month, days_in_month, MINYEAR, MAXYEAR.
    destruct Y as [Y1 Y2].
    month_cases m; destruct leapyear; closed_Z;
      cbn [andb DAYS_BEFORE_MONTH DAYS_IN_MONTH];
      match goal with |- context [?a <? ?b] => destruct (Z.ltb_spec a b) end;
      cbn [year month day]; rewrite ?L, ?Y1; closed_Z;
      cbn [andb DAYS_BEFORE_MONTH DAYS_IN_MONTH];
      (split; [rewrite !andb_true_iff, !Z.leb_le | ]; lia).
Qed.

Lemma valid_date_iff d :
  valid_date d = true <->
  1 <= year d <= 9999 /\ 1 <= month d <= 12
  /\ 1 <= day d <= days_in_month (year d) (month d).
Proof.
  unfold valid_date, MINYEAR, MAXYEAR. rewrite !andb_true_iff, !Z.leb_le. tauto.
Qed.

Lemma days_before_year_succ y :
  days_before_year (y + 1) = days_before_year y + (if is_leap y then 366 else 365).
Proof.
  unfold days_before_year. destruct (is_leap y) eqn:E.
  - apply is_leap_spec in E. lia.
  - apply is_leap_false in E. lia.
Qed.

Lemma days_before_year_mono y1 y2 : y1 <= y2 -> days_before_year y1 <= days_before_year y2.
Proof. unfold days_before_year. lia. Qed.

(** The ordinal of a date of the calendar lies within its year. *)
Lemma toordinal_year_bounds d :
  valid_date d = true ->
  days_before_year (year d) < toordinal d <= days_before_year (year d + 1).
Proof.
  rewrite valid_date_iff, days_before_year_succ.
  destruct d as [y m dd]; cbn [year month day]. unfold toordinal; cbn [year month day].
  unfold days_before_month, days_in_month. intros (Hy & Hm & Hd). revert Hd.
  month_cases m; destruct (is_leap y); closed_Z;
    cbn [andb DAYS_BEFORE_MONTH DAYS_IN_MONTH]; lia.
Qed.

Lemma toordinal_range d : valid_date d = true -> 1 <= toordinal d <= MAXORDINAL.
Proof.
  intros V. pose proof (toordinal_year_bounds d V) as B.
  apply valid_date_iff in V. destruct V as (Hy & _).
  pose proof (days_before_year_mono 1 (year d)) as L.
  pose proof (days_before_year_mono (year d + 1) 10000) as U.
  change (days_before_year 1) with 0 in L.
  change (days_before_year 10000) with MAXORDINAL in U. lia.
Qed.

(** Two dates of the calendar with the same ordinal are the same date. *)
Lemma toordinal_inj d1 d2 :
  valid_date d1 = true -> valid_date d2 = true -> toordinal d1 = toordinal d2 -> d1 = d2.
Proof.
  intros V1 V2 E.
  pose proof (toordinal_year_bounds d1 V1) as B1.
  pose proof (toordinal_year_bounds d2 V2) as B2.
  assert (Y : year d1 = year d2).
  { destruct (Z.lt_trichotomy (year d1) (year d2)) as [L | [L | L]]; [ | exact L | ].
    - pose proof (days_before_year_mono (year d1 + 1) (year d2)). lia.
    - pose proof (days_before_year_mono (year d2 + 1) (year d1)). lia. }
  apply valid_date_iff in V1, V2.
  destruct d1 as [y1 m1 dd1], d2 as [y2 m2 dd2]; cbn [year month day] in *. subst y2.
  unfold toordinal in E; cbn [year month day] in E.
  unfold days_before_month, days_in_month in *.
  destruct V1 as (_ & Hm1 & Hd1), V2 as (_ & Hm2 & Hd2). clear B1 B2.
  assert (M : m1 = m2).
  { revert E Hd1 Hd2. month_cases m1; month_cases m2; destruct (is_leap y1); closed_Z;
      cbn [andb DAYS_BEFORE_MONTH DAYS_IN_MONTH]; lia. }
  subst m2. f_equal. lia.
Qed.

(** [fromordinal] undoes [toordinal]. *)
Lemma fromordinal_toordinal d : valid_date d = true -> fromordinal (toordinal d) = Some d.
Proof.
  intros V. pose proof (toordinal_range d V) as R. unfold fromordinal.
  destruct (Z.leb_spec 1 (toordinal d)), (Z.leb_spec (toordinal d) MAXORDINAL); try lia.
  cbn [andb]. f_equal.
  destruct (ord2ymd_toordinal (toordinal d) R) as [V' E'].
  apply toordinal_inj; assumption.
Qed.

Lemma append_String c s r : (String c s ++ r)%string = String c (s ++ r)%string.
Proof. reflexivity. Qed.

Lemma append_Empty r : ("" ++ r)%string = r.
Proof. reflexivity. Qed.

Ltac norm_append := rewrite ?append_String, ?append_Empty.

Lemma digit_char_ok d :
  0 <= d <= 9 -> is_digit (digit_char d) = true /\ digit_val (digit_char d) = d.
Proof. intros H. enum d 0 10%nat; split; reflexivity. Qed.

Lemma re_Y_fmt4 y r : 0 <= y <= 9999 -> re_Y (fmt4 y ++ r) = [(y, r)].
Proof.
  intros H. unfold fmt4. norm_append. unfold re_Y.
  destruct (digit_char_ok (y / 1000)) as [-> ->]; [lia | ].
  destruct (digit_char_ok (y / 100 mod 10)) as [-> ->]; [lia | ].
  destruct (digit_char_ok (y / 10 mod 10)) as [-> ->]; [lia | ].
  destruct (digit_char_ok (y mod 10)) as [-> ->]; [lia | ].
  cbn [andb]. do 2 f_equal. lia.
Qed.

Lemma re_m_fmt2 {A} m r (k : Z -> string -> option A) x :
  1 <= m <= 12 -> k m r = Some x -> first_match (re_m (fmt2 m ++ r)) k = Some x.
Proof.
  intros H K. month_cases m; unfold fmt2; norm_append; vm_compute; rewrite K; reflexivity.
Qed.

Lemma re_d_fmt2 {A} d r (k : Z -> string -> option A) x :
  1 <= d <= 31 -> k d r = Some x -> first_match (re_d (fmt2 d ++ r)) k = Some x.
Proof.
  intros H K. enum d 1 31%nat; unfold fmt2; norm_append; vm_compute; rewrite K; reflexivity.
Qed.

Example strptime_Ymd_examples :
  strptime_Ymd "2024-02-29" = Some (mkdate 2024 2 29)
  /\ strptime_Ymd "2024-1-5" = Some (mkdate 2024 1 5)
  /\ strptime_Ymd "2023-02-29" = None
  /\ strptime_Ymd "2024-13-01" = None
  /\ strptime_Ymd "2024-01-011" = None
  /\ strptime_Ymd "01.01.2024" = None.
Proof. vm_compute. repeat split. Qed.

Example ordinal_examples :
  toordinal (mkdate 1 1 1) = 1
  /\ toordinal (mkdate 2024 1 1) = 738886
  /\ toordinal (mkdate 9999 12 31) = MAXORDINAL
  /\ fromordinal 738886 = Some (mkdate 2024 1 1)
  /\ fromordinal 0 = None.
Proof. vm_compute. repeat split. Qed.

(** [strptime] reads back what [isoformat] writes. *)
Lemma strptime_Ymd_isoformat d : valid_date d = true -> strptime_Ymd (isoformat d) = Some d.
Proof.
  intros V. pose proof V as V'. apply valid_date_iff in V'. destruct V' as (Hy & Hm & Hd).
  assert (Hd' : 1 <= day d <= 31).
  { revert Hd. unfold days_in_month. month_cases (month d); destruct (is_leap (year d));
      closed_Z; cbn [andb DAYS_IN_MONTH]; lia. }
  destruct d as [y m dd]; cbn [year month day] in *.
  unfold strptime_Ymd, isoformat; cbn [year month day].
  rewrite re_Y_fmt4 by lia. cbn [first_match].
  norm_append. cbn [lit Ascii.eqb Bool.eqb].
  replace (fmt2 dd) with (fmt2 dd ++ "")%string by (unfold fmt2; reflexivity).
  erewrite re_m_fmt2; [ | lia | ].
  2:{ norm_append. cbn [lit Ascii.eqb Bool.eqb]. apply re_d_fmt2; [lia | reflexivity]. }
  cbn [whole]. unfold checked. rewrite V. reflexivity.
Qed.

(** Two dates of the calendar are written differently. *)
Lemma isoformat_inj d1 d2 :
  valid_date d1 = true -> valid_date d2 = true -> isoformat d1 = isoformat d2 -> d1 = d2.
Proof.
  intros V1 V2 E. apply strptime_Ymd_isoformat in V1, V2. congruence.
Qed.
End PyDateFacts.

(** ** The service *)

Module RatesFacts.
Import PyStr PyNum PyDate Rates Props PyNumFacts PyDateFacts.

(** *** [fetch_daily], case by case *)

Lemma fetch_daily_unfold w date_iso st :
  fetch_daily w date_iso st =
  match fresh_hit w date_iso st with
  | Some data => (Return (DailyData data), tick st)
  | None =>
      match _date_to_cbr date_iso with
      | Raise e => (Raise e, tick st)
      | Return cbr_date =>
          let rq := daily_request cbr_date in
          let st2 := after_request rq st in
          match upstream w (length (sent st)) rq with
          | NetworkError e => (Return (DailyError ("Network error: " ++ e) None), st2)
          | HttpResponse status_code r_text r_xml =>
              if negb (status_code =? 200)
              then (Return (DailyError ("CBR returned " ++ str_of_int status_code)
                                       (Some (take 300 r_text))), st2)
              else
                match r_xml with
                | None => (Raise ParseError, st2)
                | Some root =>
                    match daily_rates root with
                    | Raise e => (Raise e, st2)
                    | Return (items, rates) =>
                        let data := snapshot_of date_iso root items rates in
                        (Return (DailyData data),
                         mkState (<[("daily", date_iso) := (clock w (ticks st), data)]> (_cache st))
                                 (S (ticks st)) (sent st ++ [rq]))
                    end
                end
          end
      end
  end.
Proof.
  unfold fetch_daily, fresh_hit, bind, time_time, cache_lookup, lift, requests_get,
    cache_store, ret, tick, after_request, daily_request, snapshot_of.
  cbn [_cache ticks sent].
  destruct (_cache st !! ("daily", date_iso)) as [[ts data] | ];
    [ destruct (flt_int (fsub (clock w (ticks st)) ts) TTL_SECONDS); [reflexivity | ] | ].
  all: destruct (_date_to_cbr date_iso) as [cbr_date | e]; [ | reflexivity ].
  all: destruct (upstream w _ _) as [msg | code text [root | ]]; try reflexivity.
  all: destruct (negb (code =? 200)); try reflexivity.
  all: unfold or_raise; destruct (daily_rates root) as [[items rates] | e]; reflexivity.
Qed.

(** *** The loop over the records of the daily feed *)

Lemma rate_from_app items more code e :
  rate_from items code e -> rate_from (items ++ more) code e.
Proof.
  intros (Hn & v & fn & Hf & Hr & [H | (it & Hin & H)]).
  - split; [exact Hn | ]. exists v, fn. auto.
  - split; [exact Hn | ]. exists v, fn. split; [exact Hf | ]. split; [exact Hr | ].
    right. exists it. split; [ | exact H]. apply in_or_app. left. exact Hin.
Qed.

Lemma rates_ok_app items more rates : rates_ok items rates -> rates_ok (items ++ more) rates.
Proof. intros H code e Hl. apply rate_from_app. exact (H code e Hl). Qed.

(** One record appends one item and keeps the rates well-formed. *)
Lemma parse_valute_ok valute items rates items' rates' :
  rates_ok items rates ->
  parse_valute valute (items, rates) = Return (items', rates') ->
  rates_ok items' rates' /\ exists it, items' = (items ++ [it])%list.
Proof.
  intros Hok. unfold parse_valute, obind, or_raise.
  destruct (int_of_str _) as [nominal | ]; [ | discriminate ].
  destruct (float_of_str _) as [v | ] eqn:Ev; cbv zeta.
  - destruct (truthy _ && (0 <? nominal)) eqn:Eg.
    + destruct (float_of_int nominal) as [fn | ] eqn:Ef; [ | discriminate ].
      intros [= <- <-]. split; [ | eauto ].
      apply andb_true_iff in Eg. destruct Eg as [_ Hpos]. apply Z.ltb_lt in Hpos.
      intros code e. rewrite lookup_insert. case_decide as Hc.
      * intros [= <-]. subst code. cbn [re_nominal re_rub_per_unit].
        split; [exact Hpos | ]. exists v, fn. split; [exact Ef | ]. split; [reflexivity | ].
        right. eexists. split; [apply in_or_app; right; left; reflexivity | ].
        cbn [it_char_code it_value it_nominal]. auto.
      * intros Hl. apply rate_from_app. exact (Hok code e Hl).
    + intros [= <- <-]. split; [ | eauto ]. apply rates_ok_app. exact Hok.
  - intros [= <- <-]. split; [ | eauto ]. apply rates_ok_app. exact Hok.
Qed.

Lemma parse_valutes_ok valutes : forall items rates items' rates',
  rates_ok items rates ->
  parse_valutes valutes (items, rates) = Return (items', rates') ->
  rates_ok items' rates'.
Proof.
  induction valutes as [ | valute rest IH]; intros items rates items' rates' Hok; cbn [parse_valutes].
  - intros [= <- <-]. exact Hok.
  - destruct (parse_valute valute (items, rates)) as [[items1 rates1] | e] eqn:E1;
      cbn [obind]; [ | discriminate ].
    apply parse_valute_ok in E1; [ | exact Hok ]. destruct E1 as [Hok1 _].
    apply IH. exact Hok1.
Qed.

Lemma rub_entry_ok items : rate_from items "RUB" RUB_ENTRY.
Proof.
  split; [reflexivity | ]. exists fone, fone.
  split; [reflexivity | ]. split; [reflexivity | ]. left. auto.
Qed.

Lemma daily_rates_ok root items rates :
  daily_rates root = Return (items, rates) ->
  rates !! "RUB" = Some RUB_ENTRY /\ rates_ok items rates.
Proof.
  unfold daily_rates.
  destruct (parse_valutes _ _) as [[items0 rates0] | e] eqn:E; cbn [obind]; [ | discriminate ].
  intros [= <- <-]. split; [apply lookup_insert_eq | ].
  apply parse_valutes_ok in E; [ | intros code e; rewrite lookup_empty; discriminate ].
  intros code e. rewrite lookup_insert. case_decide as Hc.
  - intros [= <-]. subst code. apply rub_entry_ok.
  - apply E.
Qed.

Lemma snapshot_of_ok date_iso root items rates :
  daily_rates root = Return (items, rates) ->
  snapshot_ok (snapshot_of date_iso root items rates).
Proof.
  intros H. apply daily_rates_ok in H. destruct H as [Hrub Hok].
  exists rates. cbn [snapshot_of s_rates_map s_items]. auto.
Qed.

Lemma cache_ok_initial : cache_ok initial.
Proof. intros key ts d. cbn [initial _cache]. rewrite lookup_empty. discriminate. Qed.

Lemma fresh_hit_cached w date_iso st data :
  fresh_hit w date_iso st = Some data ->
  exists ts, _cache st !! ("daily", date_iso) = Some (ts, data)
             /\ flt_int (fsub (clock w (ticks st)) ts) TTL_SECONDS = true.
Proof.
  unfold fresh_hit. destruct (_cache st !! _) as [[ts d] | ]; [ | discriminate ].
  destruct (flt_int _ _) eqn:E; [ | discriminate ]. intros [= <-]. eauto.
Qed.

(** C1. Every snapshot [fetch_daily] returns, fetched or served from the
    cache, has a rates map that is the projection of a [rates] dict in
    which RUB is the entry with [rub_per_unit = 1.0] and [nominal = 1]
    and every code has [rub_per_unit = value / nominal] for a value of
    the feed (for RUB: 1.0) and a nominal greater than zero; the cache
    keeps holding only such snapshots. *)
Theorem fetch_daily_snapshot_ok w date_iso st d st' :
  cache_ok st ->
  fetch_daily w date_iso st = (Return (DailyData d), st') ->
  (exists info, s_rates_map d !! "RUB" = Some info /\ ri_rub_per_unit info = fone)
  /\ snapshot_ok d /\ cache_ok st'.
Proof.
  intros Hc. rewrite fetch_daily_unfold.
  assert (G : snapshot_ok d -> cache_ok st' ->
              (exists info, s_rates_map d !! "RUB" = Some info /\ ri_rub_per_unit info = fone)
              /\ snapshot_ok d /\ cache_ok st').
  { intros Hd Hs. split; [ | auto ]. destruct Hd as (rates & Hm & Hrub & _).
    exists (rate_info RUB_ENTRY). rewrite Hm, lookup_fmap, Hrub. auto. }
  destruct (fresh_hit w date_iso st) as [data | ] eqn:Eh.
  - intros [= <- <-]. apply fresh_hit_cached in Eh. destruct Eh as (ts & Hl & _).
    apply G; [exact (Hc _ _ _ Hl) | exact Hc].
  - destruct (_date_to_cbr date_iso) as [cbr_date | e]; [ | discriminate ].
    cbv zeta. destruct (upstream w _ _) as [msg | code text [root | ]]; try discriminate.
    + destruct (negb (code =? 200)); [discriminate | ].
      destruct (daily_rates root) as [[items rates] | e] eqn:Er; [ | discriminate ].
      intros [= <- <-]. pose proof (snapshot_of_ok date_iso root items rates Er) as Hd.
      apply G; [exact Hd | ].
      intros key ts d. cbn [_cache]. rewrite lookup_insert. case_decide.
      * intros [= _ <-]. exact Hd.
      * apply Hc.
    + destruct (negb (code =? 200)); discriminate.
Qed.

Lemma sample_first_call :
  fetch_daily Samples.world Samples.new_year initial
  = (Return (DailyData Samples.snapshot), Samples.after_first).
Proof. vm_compute. reflexivity. Qed.

Lemma fetch_daily_snapshot_ok_witness :
  (exists info, s_rates_map Samples.snapshot !! "RUB" = Some info
                /\ ri_rub_per_unit info = fone)
  /\ snapshot_ok Samples.snapshot /\ cache_ok Samples.after_first.
Proof.
  apply (fetch_daily_snapshot_ok Samples.world Samples.new_year initial).
  - apply cache_ok_initial.
  - vm_compute. reflexivity.
Defined.

(** *** The cache *)










(** *** Conversion *)

Lemma valid_rate_finite x :
  valid_rate x = true -> exists s m e, x = S754_finite s m e.
Proof.
  unfold valid_rate. destruct x as [s | s | | s m e]; cbn; try discriminate; eauto.
Qed.

Lemma float_truthy_finite s m e : float_truthy (S754_finite s m e) = true.
Proof. destruct s; reflexivity. Qed.

Lemma cbr_convert_unfold w from_code to_code amount date st :
  cbr_convert w from_code to_code amount date st =
  match fetch_daily w date st with
  | (Return (DailyError e details), st') => (Return (ConvError e details), st')
  | (Return (DailyData d), st') => (Return (convert d from_code to_code amount), st')
  | (Raise e, st') => (Raise e, st')
  end.
Proof.
  unfold cbr_convert, bind, ret.
  destruct (fetch_daily w date st) as [[[e details | d] | e] st']; reflexivity.
Qed.

(** C2. [convert] answers with the not-found error when the upper-cased
    source or target code is not in the rates map; otherwise the rate is
    [rub_per_unit[from] / rub_per_unit[to]] and the result
    [amount * rate], both null when [rub_per_unit[to] == 0]; USD to USD
    of 100 gives rate 1.0 and result 100.0 on every map whose USD rate
    is finite and not zero; and [cbr_convert] is [convert] on the
    snapshot [fetch_daily] returns. *)
Theorem convert_spec d from_code to_code amount :
  (s_rates_map d !! upper from_code = None ->
   convert d from_code to_code amount
   = ConvError (not_found (upper from_code) (s_date d)) None)
  /\ (forall fi, s_rates_map d !! upper from_code = Some fi ->
      s_rates_map d !! upper to_code = None ->
      convert d from_code to_code amount
      = ConvError (not_found (upper to_code) (s_date d)) None)
  /\ (forall fi ti,
      s_rates_map d !! upper from_code = Some fi ->
      s_rates_map d !! upper to_code = Some ti ->
      exists rate result,
        convert d from_code to_code amount
        = ConvData (mkConversion (s_date d) (upper from_code) (upper to_code)
                                 amount rate result)
        /\ (feq (ri_rub_per_unit ti) fzero = true -> rate = None /\ result = None)
        /\ (feq (ri_rub_per_unit ti) fzero = false ->
            rate = Some (fdiv (ri_rub_per_unit fi) (ri_rub_per_unit ti))
            /\ result = Some (fmul amount (fdiv (ri_rub_per_unit fi) (ri_rub_per_unit ti)))))
  /\ (forall info,
      s_rates_map d !! "USD" = Some info ->
      valid_rate (ri_rub_per_unit info) = true ->
      convert d "USD" "USD" Samples.hundred
      = ConvData (mkConversion (s_date d) "USD" "USD" Samples.hundred
                               (Some fone) (Some Samples.hundred)))
  /\ (forall w date st d' st',
      fetch_daily w date st = (Return (DailyData d'), st') ->
      cbr_convert w from_code to_code amount date st
      = (Return (convert d' from_code to_code amount), st')).
Proof.
  repeat apply conj.
  - intros Hf. unfold convert. rewrite Hf. reflexivity.
  - intros fi Hf Ht. unfold convert. rewrite Hf, Ht. reflexivity.
  - intros fi ti Hf Ht. unfold convert. rewrite Hf, Ht. unfold float_truthy.
    destruct (feq (ri_rub_per_unit ti) fzero); cbn [negb]; do 2 eexists;
      (split; [reflexivity | ]); split; intros; try discriminate; auto.
  - intros info Hl Hv. unfold convert.
    change (upper "USD") with "USD". rewrite Hl.
    destruct (valid_rate_finite _ Hv) as (s & m & e & ->).
    rewrite float_truthy_finite, fdiv_self. reflexivity.
  - intros w date st d' st' Hf. rewrite cbr_convert_unfold, Hf. reflexivity.
Qed.

Lemma convert_spec_witness :
  convert Samples.snapshot "zzz" "USD" fone
  = ConvError (not_found "ZZZ" (Some "30.12.2023")) None
  /\ convert Samples.snapshot "USD" "USD" Samples.hundred
     = ConvData (mkConversion (Some "30.12.2023") "USD" "USD" Samples.hundred
                              (Some fone) (Some Samples.hundred))
  /\ cbr_convert Samples.world "usd" "cny" fone Samples.new_year initial
     = (Return (convert Samples.snapshot "usd" "cny" fone), Samples.after_first).
Proof.
  split; [ | split].
  - apply (proj1 (convert_spec Samples.snapshot "zzz" "USD" fone)).
    vm_compute. reflexivity.
  - apply (proj1 (proj2 (proj2 (proj2 (convert_spec Samples.snapshot "USD" "USD" fone))))
             (mkRateInfo (S754_finite false 6497885021737583 (-46)) "US Dollar" (Some "R01235"))).
    + vm_compute. reflexivity.
    + vm_compute. reflexivity.
  - apply (proj2 (proj2 (proj2 (proj2 (convert_spec Samples.snapshot "usd" "cny" fone))))).
    vm_compute. reflexivity.
Defined.


(** *** Records without a value, records without a nominal *)

Lemma parse_valutes_app l1 : forall l2 acc,
  parse_valutes (l1 ++ l2) acc = obind (parse_valutes l1 acc) (parse_valutes l2).
Proof.
  induction l1 as [ | v l1 IH]; intros l2 acc; cbn [parse_valutes app obind]; [reflexivity | ].
  destruct (parse_valute v acc) as [acc1 | e]; cbn [obind]; [apply IH | reflexivity].
Qed.

(** A record leaves the rates of every other code alone. *)
Lemma parse_valute_other valute items rates items' rates' code :
  parse_valute valute (items, rates) = Return (items', rates') ->
  charcode_of valute <> code ->
  rates' !! code = rates !! code.
Proof.
  unfold parse_valute, obind, or_raise, charcode_of.
  destruct (int_of_str _) as [nominal | ]; [ | discriminate ].
  destruct (float_of_str _) as [v | ]; cbv zeta; [ | intros [= <- <-]; reflexivity ].
  destruct (truthy _ && (0 <? nominal)); [ | intros [= <- <-]; reflexivity ].
  destruct (float_of_int nominal) as [fn | ]; [ | discriminate ].
  intros [= <- <-] Hne. apply lookup_insert_ne. exact Hne.
Qed.

Lemma parse_valutes_other valutes code : forall items rates items' rates',
  parse_valutes valutes (items, rates) = Return (items', rates') ->
  (forall v, In v valutes -> charcode_of v <> code) ->
  rates' !! code = rates !! code.
Proof.
  induction valutes as [ | v rest IH]; intros items rates items' rates'; cbn [parse_valutes].
  - intros [= <- <-] _. reflexivity.
  - destruct (parse_valute v (items, rates)) as [[items1 rates1] | e] eqn:E1;
      cbn [obind]; [ | discriminate ].
    intros Hrest Hne. rewrite (IH _ _ _ _ Hrest); [ | intros v' Hin; apply Hne; right; exact Hin ].
    eapply parse_valute_other; [exact E1 | apply Hne; left; reflexivity].
Qed.

Lemma no_value_text_zero valute :
  no_value_text valute = true ->
  float_of_str (replace "," "." (or_default (ET.findtext valute "Value") "0")) = Some fzero.
Proof.
  unfold no_value_text, or_default.
  destruct (ET.findtext valute "Value") as [[ | c s] | ]; cbn; try discriminate; reflexivity.
Qed.

(** A record without value text, with a char code and a positive
    nominal, sets the rate of its code to [0.0]. *)
Lemma parse_valute_no_value valute items rates items' rates' n :
  no_value_text valute = true ->
  truthy (charcode_of valute) = true ->
  int_of_str (or_default (ET.findtext valute "Nominal") "1") = Some n ->
  0 < n ->
  parse_valute valute (items, rates) = Return (items', rates') ->
  exists e, rates' !! charcode_of valute = Some e
            /\ re_rub_per_unit e = fzero /\ re_nominal e = n.
Proof.
  intros Hv Hc Hn Hpos. unfold parse_valute, obind, or_raise.
  rewrite Hn, (no_value_text_zero valute Hv). cbv zeta.
  fold (charcode_of valute). rewrite Hc.
  destruct (Z.ltb_spec 0 n) as [_ | ?]; [ | lia ]. cbn [andb].
  destruct (float_of_int n) as [fn | ] eqn:Ef; [ | discriminate ].
  destruct (float_of_int_pos n fn Hpos Ef) as (m & e & ->).
  intros [= <- <-]. eexists. split; [apply lookup_insert_eq | ]. split; reflexivity.
Qed.

(** C10. A record of the daily feed that carries no [Value] text (and has
    a char code other than RUB, a positive nominal and no later record
    of the same code) has its value read as ["0"], that is [0.0], and
    enters the rates with [rub_per_unit == 0.0]; a conversion into that
    currency, by [convert] and so by [cbr_convert] on a snapshot with
    these rates, then returns a null rate and a null result, not the
    not-found error. *)
Theorem missing_value_rate_zero root pre valute post n items rates :
  ET.findall root "Valute" = (pre ++ valute :: post)%list ->
  no_value_text valute = true ->
  truthy (charcode_of valute) = true ->
  charcode_of valute <> "RUB" ->
  int_of_str (or_default (ET.findtext valute "Nominal") "1") = Some n ->
  0 < n ->
  (forall v, In v post -> charcode_of v <> charcode_of valute) ->
  daily_rates root = Return (items, rates) ->
  float_of_str (replace "," "." (or_default (ET.findtext valute "Value") "0")) = Some fzero
  /\ (exists e, rates !! charcode_of valute = Some e
                /\ re_rub_per_unit e = fzero /\ re_nominal e = n)
  /\ (forall d from_code to_code amount fi,
        s_rates_map d = rate_info <$> rates ->
        upper to_code = charcode_of valute ->
        s_rates_map d !! upper from_code = Some fi ->
        convert d from_code to_code amount
        = ConvData (mkConversion (s_date d) (upper from_code) (charcode_of valute)
                                 amount None None)
        /\ forall w date st st',
            fetch_daily w date st = (Return (DailyData d), st') ->
            cbr_convert w from_code to_code amount date st
            = (Return (ConvData (mkConversion (s_date d) (upper from_code)
                                              (charcode_of valute) amount None None)), st')).
Proof.
  intros Hall Hv Hc Hrub Hn Hpos Hpost Hd.
  split; [apply no_value_text_zero; exact Hv | ].
  assert (He : exists e, rates !! charcode_of valute = Some e
                         /\ re_rub_per_unit e = fzero /\ re_nominal e = n).
  { revert Hd. unfold daily_rates. rewrite Hall, parse_valutes_app.
    destruct (parse_valutes pre ([], ∅)) as [[items1 rates1] | e]; cbn [obind]; [ | discriminate ].
    cbn [parse_valutes].
    destruct (parse_valute valute (items1, rates1)) as [[items2 rates2] | e] eqn:E2;
      cbn [obind]; [ | discriminate ].
    destruct (parse_valutes post (items2, rates2)) as [[items3 rates3] | e] eqn:E3;
      cbn [obind]; [ | discriminate ].
    intros [= <- <-].
    rewrite lookup_insert_ne by (intros H; apply Hrub; symmetry; exact H).
    rewrite (parse_valutes_other post _ _ _ _ _ E3 Hpost).
    eapply parse_valute_no_value; eassumption. }
  split; [exact He | ].
  destruct He as (e & Hl & Hr & _).
  intros d from_code to_code amount fi Hm Ht Hf.
  assert (Hconv : convert d from_code to_code amount
                  = ConvData (mkConversion (s_date d) (upper from_code)
                                           (charcode_of valute) amount None None)).
  { unfold convert. rewrite Hf, Ht, Hm, lookup_fmap, Hl.
    cbn [fmap option_fmap option_map rate_info ri_rub_per_unit].
    rewrite Hr. reflexivity. }
  split; [exact Hconv | ].
  intros w date st st' Hfetch. rewrite cbr_convert_unfold, Hfetch, Hconv. reflexivity.
Qed.

Lemma missing_value_rate_zero_witness :
  float_of_str (replace "," "." (or_default (ET.findtext Samples.kzt_no_value "Value") "0"))
  = Some fzero
  /\ (exists e, snd Samples.parsed !! "KZT" = Some e
                /\ re_rub_per_unit e = fzero /\ re_nominal e = 100)
  /\ cbr_convert Samples.world "usd" "kzt" fone Samples.new_year initial
     = (Return (ConvData (mkConversion (Some "30.12.2023") "USD" "KZT" fone None None)),
        Samples.after_first).
Proof.
  destruct (missing_value_rate_zero Samples.feed
              [Samples.usd; Samples.cny; Samples.xdr_bad_value] Samples.kzt_no_value
              [Samples.eur_no_nominal] 100 (fst Samples.parsed) (snd Samples.parsed))
    as (H1 & H2 & H3).
  - reflexivity.
  - reflexivity.
  - reflexivity.
  - vm_compute. discriminate.
  - reflexivity.
  - lia.
  - intros v [<- | []]. vm_compute. discriminate.
  - vm_compute. reflexivity.
  - split; [exact H1 | ]. split; [exact H2 | ].
    destruct (H3 Samples.snapshot "usd" "kzt" fone
                (mkRateInfo (S754_finite false 6497885021737583 (-46)) "US Dollar"
                            (Some "R01235")))
      as [_ H4].
    + reflexivity.
    + reflexivity.
    + vm_compute. reflexivity.
    + apply H4. vm_compute. reflexivity.
Defined.


(** *** What one record contributes *)

Lemma no_nominal_text_one valute :
  no_nominal_text valute = true ->
  or_default (ET.findtext valute "Nominal") "1" = "1".
Proof.
  unfold no_nominal_text, or_default.
  destruct (ET.findtext valute "Nominal") as [[ | c s] | ]; cbn; try discriminate; reflexivity.
Qed.

(** Every record whose nominal reads as an integer appends exactly
    [item_of]; a record whose value does not read leaves the rates
    untouched. *)
Lemma parse_valute_item valute items rates items' rates' n :
  int_of_str (or_default (ET.findtext valute "Nominal") "1") = Some n ->
  parse_valute valute (items, rates) = Return (items', rates') ->
  items' = (items ++ [item_of valute n])%list
  /\ (it_value (item_of valute n) = None -> rates' = rates).
Proof.
  intros Hn. unfold parse_valute, obind, or_raise, item_of, charcode_of.
  rewrite Hn. cbn [it_value].
  destruct (float_of_str _) as [v | ]; cbv zeta.
  - destruct (truthy _ && (0 <? n)).
    + destruct (float_of_int n); [ | discriminate ].
      intros [= <- <-]. split; [reflexivity | discriminate].
    + intros [= <- <-]. split; [reflexivity | discriminate].
  - intros [= <- <-]. auto.
Qed.

Lemma parse_valute_bad_value valute items rates n :
  int_of_str (or_default (ET.findtext valute "Nominal") "1") = Some n ->
  float_of_str (replace "," "." (or_default (ET.findtext valute "Value") "0")) = None ->
  parse_valute valute (items, rates) = Return ((items ++ [item_of valute n])%list, rates)
  /\ it_value (item_of valute n) = None.
Proof.
  intros Hn Hv. unfold parse_valute, obind, or_raise, item_of, charcode_of.
  rewrite Hn, Hv. auto.
Qed.

Lemma parse_valute_no_nominal valute items rates :
  no_nominal_text valute = true ->
  exists rates',
    parse_valute valute (items, rates) = Return ((items ++ [item_of valute 1])%list, rates').
Proof.
  intros Hn. unfold parse_valute, obind, or_raise, item_of, charcode_of.
  rewrite (no_nominal_text_one valute Hn).
  change (int_of_str "1") with (Some 1).
  destruct (float_of_str _) as [v | ]; cbv zeta; [ | eauto ].
  destruct (truthy _ && (0 <? 1)); [ | eauto ].
  change (float_of_int 1) with (Some fone). eauto.
Qed.

(** The loop on a record whose nominal is absent or reads as an
    integer: a nominal that is absent or empty is 1; a nominal that
    reads as an integer is that integer; the raw value has its decimal
    commas turned into dots before it is read as a number, so that
    ["92,3405"] reads as 92.3405; a value that does not read gives
    [value = null], and the record is then listed in [items] and changes
    nothing in the rates. *)
Theorem parse_valute_fields valute items rates :
  (no_nominal_text valute = true ->
   exists rates',
     parse_valute valute (items, rates) = Return ((items ++ [item_of valute 1])%list, rates')
     /\ it_nominal (item_of valute 1) = 1)
  /\ (forall n items' rates',
      int_of_str (or_default (ET.findtext valute "Nominal") "1") = Some n ->
      parse_valute valute (items, rates) = Return (items', rates') ->
      items' = (items ++ [item_of valute n])%list
      /\ it_nominal (item_of valute n) = n
      /\ it_value (item_of valute n)
         = float_of_str (replace "," "." (or_default (ET.findtext valute "Value") "0")))
  /\ (forall n,
      int_of_str (or_default (ET.findtext valute "Nominal") "1") = Some n ->
      float_of_str (replace "," "." (or_default (ET.findtext valute "Value") "0")) = None ->
      parse_valute valute (items, rates) = Return ((items ++ [item_of valute n])%list, rates)
      /\ it_value (item_of valute n) = None)
  /\ (exists f, float_of_str (replace "," "." "92,3405") = Some f
                /\ nearest_to 923405 10000 f).
Proof.
  repeat apply conj.
  - intros Hn. destruct (parse_valute_no_nominal valute items rates Hn) as [rates' H].
    exists rates'. split; [exact H | reflexivity].
  - intros n items' rates' Hn Hp.
    destruct (parse_valute_item valute items rates items' rates' n Hn Hp) as [H _].
    split; [exact H | ]. split; reflexivity.
  - intros n Hn Hv. apply parse_valute_bad_value; assumption.
  - exists (S754_finite false 6497885021737583 (-46)). split; [vm_compute; reflexivity | ].
    cbn. lia.
Qed.

Lemma parse_valute_fields_witness :
  (exists rates',
      parse_valute Samples.eur_no_nominal ([], ∅)
      = Return ([item_of Samples.eur_no_nominal 1], rates'))
  /\ parse_valute Samples.xdr_bad_value ([], ∅)
     = Return ([item_of Samples.xdr_bad_value 1], ∅)
  /\ it_value (item_of Samples.xdr_bad_value 1) = None
  /\ it_value (item_of Samples.usd 1) = Some (S754_finite false 6497885021737583 (-46)).
Proof.
  split; [ | split; [ | split]].
  - destruct (proj1 (parse_valute_fields Samples.eur_no_nominal [] ∅) eq_refl)
      as (rates' & H & _).
    exists rates'. exact H.
  - apply (proj1 (proj2 (proj2 (parse_valute_fields Samples.xdr_bad_value [] ∅))) 1);
      vm_compute; reflexivity.
  - apply (proj1 (proj2 (proj2 (parse_valute_fields Samples.xdr_bad_value [] ∅))) 1);
      vm_compute; reflexivity.
  - destruct (proj1 (proj2 (parse_valute_fields Samples.usd [] ∅)) 1
                [item_of Samples.usd 1]
                (<["USD" := mkRateEntry (S754_finite false 6497885021737583 (-46)) 1
                             "US Dollar" (Some "R01235")]> ∅))
      as (_ & _ & H).
    + vm_compute. reflexivity.
    + vm_compute. reflexivity.
    + rewrite H. vm_compute. reflexivity.
Defined.

(** C8, the code at a failing input. A record of the daily feed whose
    nominal is the text [abc] is not given the nominal 1: [int] raises
    [ValueError] outside the [try] that guards the value, so the whole
    call of [fetch_daily] ends with the exception, and with it the daily
    table and the conversion; nothing is cached, and the usable record
    read before it is lost. The loop of the history, in the same module,
    reads the nominal inside its [try]: there such a record is skipped
    and the records around it are kept. *)
Theorem unparseable_nominal_raises :
  int_of_str "abc" = None
  /\ parse_valute Samples.gbp_bad_nominal ([], ∅) = Raise ValueError
  /\ fst (fetch_daily Samples.world_bad_nominal None initial) = Raise ValueError
  /\ _cache (snd (fetch_daily Samples.world_bad_nominal None initial)) = ∅
  /\ (forall strict,
        fst (cbr_daily Samples.world_bad_nominal None strict initial) = Raise ValueError)
  /\ fst (cbr_convert Samples.world_bad_nominal "USD" "RUB" fone None initial)
     = Raise ValueError
  /\ parse_records [Samples.record "10.01.2024" "abc" "89,3939";
                    Samples.record "11.01.2024" "1" "88,7818"]
     = [mkPoint "2024-01-11" (S754_finite false 6247463771832530 (-46))].
Proof.
  repeat apply conj; vm_compute; reflexivity.
Qed.


(** *** Date conversions and strict mode *)

Lemma truthy_append a c b : truthy (a ++ String c b) = true.
Proof. destruct a; reflexivity. Qed.

(** C9, as amended. [_ddmmyyyy_to_iso] fails, by returning [None], exactly
    when its input is [None], empty, or does not split at its dots into
    three segments; on three segments it returns them reordered and
    joined by dashes, whatever they contain. *)
Theorem ddmmyyyy_to_iso_spec (x : option string) :
  (_ddmmyyyy_to_iso x = None <->
   x = None \/ x = Some "" \/ exists s, x = Some s /\ length (split "." s) <> 3%nat)
  /\ (forall s d m y,
      x = Some s -> split "." s = [d; m; y] ->
      _ddmmyyyy_to_iso x = Some (y ++ "-" ++ m ++ "-" ++ d)).
Proof.
  split.
  - unfold _ddmmyyyy_to_iso. destruct x as [s | ]; [ | split; auto ].
    destruct s as [ | c s]; cbn [truthy negb]; [split; auto | ].
    destruct (split "." (String c s)) as [ | d [ | m [ | y [ | z l]]]] eqn:E; split;
      try discriminate; try (intros _; reflexivity);
      try (intros _; right; right; exists (String c s);
           split; [reflexivity | rewrite E; cbn; lia]).
    intros [H | [H | (s' & [= <-] & H)]]; try discriminate.
    rewrite E in H. cbn in H. lia.
  - intros s d m y -> E. unfold _ddmmyyyy_to_iso.
    destruct s as [ | c s]; [discriminate | ]. cbn [truthy negb]. rewrite E. reflexivity.
Qed.

Lemma ddmmyyyy_to_iso_spec_witness :
  _ddmmyyyy_to_iso (Some "30.12.2023") = Some "2023-12-30"
  /\ _ddmmyyyy_to_iso (Some "30.12") = None.
Proof.
  split.
  - apply (proj2 (ddmmyyyy_to_iso_spec (Some "30.12.2023")) "30.12.2023" "30" "12" "2023");
      reflexivity.
  - apply (proj1 (ddmmyyyy_to_iso_spec (Some "30.12"))).
    right. right. exists "30.12". split; [reflexivity | vm_compute; lia].
Defined.

(** C9 as stated fails: segments that are not numbers are not rejected. *)
Lemma non_numeric_segments_accepted :
  _ddmmyyyy_to_iso (Some "aa.bb.cccc") = Some "cccc-bb-aa"
  /\ _ddmmyyyy_to_iso (Some "aa.bb.cccc") <> None.
Proof. split; [reflexivity | discriminate]. Qed.

Lemma cbr_daily_unfold w date strict st :
  cbr_daily w date strict st =
  match fetch_daily w date st with
  | (Return (DailyData d), st') =>
      match date with
      | Some dt =>
          if strict && truthy dt then
            match _ddmmyyyy_to_iso (s_date d) with
            | Some cbr_iso =>
                if truthy cbr_iso && negb (String.eqb cbr_iso dt)
                then (Return (DailyError (date_mismatch dt (s_date d)) None), st')
                else (Return (DailyData d), st')
            | None => (Return (DailyData d), st')
            end
          else (Return (DailyData d), st')
      | None => (Return (DailyData d), st')
      end
  | other => other
  end.
Proof.
  unfold cbr_daily, bind, ret.
  destruct (fetch_daily w date st) as [[[e details | d] | e] st']; try reflexivity.
  destruct date as [dt | ]; [ | reflexivity ].
  destruct (strict && truthy dt); [ | reflexivity ].
  destruct (_ddmmyyyy_to_iso (s_date d)) as [cbr_iso | ]; [ | reflexivity ].
  destruct (truthy cbr_iso && negb (cbr_iso =? dt)%string); reflexivity.
Qed.

Lemma ddmmyyyy_to_iso_truthy x iso : _ddmmyyyy_to_iso x = Some iso -> truthy iso = true.
Proof.
  unfold _ddmmyyyy_to_iso. destruct x as [s | ]; [ | discriminate ].
  destruct (negb (truthy s)); [discriminate | ].
  destruct (split "." s) as [ | d [ | m [ | y [ | z l]]]]; try discriminate.
  intros [= <-]. apply truthy_append.
Qed.

Lemma digit_not_dot x : 0 <= x <= 9 -> Ascii.eqb (digit_char x) "." = false.
Proof. intros H. enum x 0 10%nat; reflexivity. Qed.

(** The feed's [DD.MM.YYYY] of a date is put in ISO form as the
    [isoformat] of that date. *)
Lemma ddmmyyyy_of_feed_date d :
  valid_date d = true -> _ddmmyyyy_to_iso (Some (feed_date_of d)) = Some (isoformat d).
Proof.
  intros V. apply valid_date_iff in V. destruct V as (Hy & Hm & Hd).
  assert (Hd' : 1 <= day d <= 31).
  { revert Hd. unfold days_in_month. month_cases (month d); destruct (is_leap (year d));
      closed_Z; cbn [andb DAYS_IN_MONTH]; lia. }
  unfold _ddmmyyyy_to_iso, feed_date_of, isoformat, fmt2, fmt4. norm_append.
  cbn [truthy negb split].
  rewrite !digit_not_dot by lia. cbn [Ascii.eqb Bool.eqb]. reflexivity.
Qed.

(** C7. With [strict=true] and a date, when the snapshot's feed date,
    put in ISO form, differs from the requested date, [cbr_daily] answers
    with the date-mismatch error: so it does whenever the feed's date
    and the requested date are two different calendar days. With
    [strict=false] (the default) it returns whatever [fetch_daily]
    returns, mismatching snapshot included. *)
Theorem strict_mode w date st d st' :
  fetch_daily w (Some date) st = (Return (DailyData d), st') ->
  truthy date = true ->
  (forall iso,
      _ddmmyyyy_to_iso (s_date d) = Some iso -> iso <> date ->
      cbr_daily w (Some date) true st
      = (Return (DailyError (date_mismatch date (s_date d)) None), st'))
  /\ (forall feed_day requested_day,
        valid_date feed_day = true -> valid_date requested_day = true ->
        s_date d = Some (feed_date_of feed_day) ->
        date = isoformat requested_day ->
        feed_day <> requested_day ->
        cbr_daily w (Some date) true st
        = (Return (DailyError (date_mismatch date (s_date d)) None), st'))
  /\ cbr_daily w (Some date) false st = (Return (DailyData d), st')
  /\ (forall date', cbr_daily w date' false st = fetch_daily w date' st).
Proof.
  intros Hf Ht.
  assert (Hstrict : forall iso,
             _ddmmyyyy_to_iso (s_date d) = Some iso -> iso <> date ->
             cbr_daily w (Some date) true st
             = (Return (DailyError (date_mismatch date (s_date d)) None), st')).
  { intros iso Hi Hne. rewrite cbr_daily_unfold, Hf, Ht, Hi. cbn [andb].
    rewrite (ddmmyyyy_to_iso_truthy _ _ Hi).
    destruct (String.eqb_spec iso date) as [E | _]; [contradiction | reflexivity]. }
  split; [exact Hstrict | ]. split; [ | split].
  - intros feed_day requested_day Vf Vr Hs Hd Hne.
    apply (Hstrict (isoformat feed_day)).
    + rewrite Hs. apply ddmmyyyy_of_feed_date. exact Vf.
    + rewrite Hd. intros E. apply Hne. apply isoformat_inj; assumption.
  - rewrite cbr_daily_unfold, Hf. reflexivity.
  - intros date'. rewrite cbr_daily_unfold.
    destruct (fetch_daily w date' st) as [[[e details | d'] | e] st'']; try reflexivity.
    destruct date'; reflexivity.
Qed.

Lemma strict_mode_witness :
  cbr_daily Samples.world Samples.new_year true initial
  = (Return (DailyError (date_mismatch "2024-01-01" (Some "30.12.2023")) None),
     Samples.after_first)
  /\ cbr_daily Samples.world Samples.new_year false initial
     = (Return (DailyData Samples.snapshot), Samples.after_first).
Proof.
  destruct (strict_mode Samples.world "2024-01-01" initial Samples.snapshot
              Samples.after_first) as (_ & H1 & H2 & _).
  - vm_compute. reflexivity.
  - reflexivity.
  - split; [ | exact H2 ].
    apply (H1 (mkdate 2023 12 30) (mkdate 2024 1 1)); try reflexivity. discriminate.
Defined.


(** *** Dates that are not dates *)

(** When the date is not a calendar date and nothing fresh is cached
    under it, [fetch_daily] raises the [ValueError] of [strptime]: nothing
    between [_date_to_cbr] and the caller catches it. *)
Lemma invalid_date_raises w date st :
  truthy date = true ->
  strptime_Ymd date = None ->
  fresh_hit w (Some date) st = None ->
  fetch_daily w (Some date) st = (Raise ValueError, tick st).
Proof.
  intros Ht Hp Hh. rewrite fetch_daily_unfold, Hh. unfold _date_to_cbr.
  rewrite Ht, Hp. reflexivity.
Qed.

(** C5, the code at a failing input. For the date 2024-02-30, on a fresh
    service and whatever upstream would answer, the daily-snapshot and the
    convert endpoints end with an uncaught [ValueError], and so does the
    history endpoint for a currency other than RUB; only the RUB branch
    of the history answers with an error result. An empty date is not
    reported either: it is taken as no date. *)
Theorem invalid_date_escapes w strict st :
  cbr_daily w (Some "2024-02-30") strict initial = (Raise ValueError, tick initial)
  /\ cbr_convert w "USD" "EUR" fone (Some "2024-02-30") initial
     = (Raise ValueError, tick initial)
  /\ fst (cbr_history Samples.world "USD" "2024-02-30" "2024-03-01" initial)
     = Raise ValueError
  /\ cbr_history w "RUB" "2024-02-30" "2024-03-01" st = (Return (HistError "bad dates"), st)
  /\ _date_to_cbr (Some "") = Return None.
Proof.
  assert (H : fetch_daily w (Some "2024-02-30") initial = (Raise ValueError, tick initial))
    by (apply invalid_date_raises; reflexivity).
  repeat apply conj.
  - rewrite cbr_daily_unfold, H. reflexivity.
  - rewrite cbr_convert_unfold, H. reflexivity.
  - vm_compute. reflexivity.
  - reflexivity.
  - reflexivity.
Qed.

(** *** Ranges given backwards *)

(** C6, the code at a failing input. For USD the range from 2024-02-01 to
    2024-01-01 goes upstream as it is, first date first; an upstream that
    serves only ranges given in order returns no record for it, while the
    range from 2024-01-01 to 2024-02-01 yields two points. For RUB the two
    ranges yield the same points. *)
Theorem reversed_range_sent_as_is :
  let backwards := fetch_history Samples.world "USD" "2024-02-01" "2024-01-01" initial in
  let forwards := fetch_history Samples.world "USD" "2024-01-01" "2024-02-01" initial in
  List.last (sent (snd backwards)) (mkRequest "" [])
  = mkRequest CBR_DYNAMIC_XML
      [("date_req1", Some "01/02/2024"); ("date_req2", Some "01/01/2024");
       ("VAL_NM_RQ", Some "R01235")]
  /\ points_of (fst backwards) = Some []
  /\ option_map (List.map hp_date) (points_of (fst forwards))
     = Some ["2024-01-10"; "2024-01-11"]
  /\ points_of (fst backwards) <> points_of (fst forwards)
  /\ points_of (fst (fetch_history Samples.world "RUB" "2024-02-01" "2024-01-01" initial))
     = points_of (fst (fetch_history Samples.world "RUB" "2024-01-01" "2024-02-01" initial)).
Proof.
  vm_compute. repeat split. discriminate.
Qed.


(** *** The RUB series *)

Lemma strptime_Ymd_valid s d : strptime_Ymd s = Some d -> valid_date d = true.
Proof.
  unfold strptime_Ymd, whole.
  destruct (first_match _ _) as [[[[y m] dd] [ | c r]] | ]; try discriminate.
  unfold checked. destruct (valid_date (mkdate y m dd)) eqn:V; [ | discriminate ].
  intros [= <-]. exact V.
Qed.

Lemma nth_error_ordinals count : forall first i,
  nth_error (ordinals first count) i
  = if (i <? count)%nat then Some (first + Z.of_nat i) else None.
Proof.
  induction count as [ | count IH]; intros first i; cbn [ordinals].
  - destruct i; reflexivity.
  - destruct i as [ | i]; cbn [nth_error].
    + cbn. f_equal. lia.
    + rewrite IH. change (S i <? S count)%nat with (i <? count)%nat.
      destruct (i <? count)%nat; [f_equal; lia | reflexivity].
Qed.

Lemma length_ordinals count : forall first, length (ordinals first count) = count.
Proof. induction count as [ | count IH]; intros first; cbn; [ | rewrite IH ]; reflexivity. Qed.

(** The loop of the RUB branch never leaves the range of ordinals. *)
Lemma rub_points_ok count : forall first,
  1 <= first -> first + Z.of_nat count - 1 <= MAXORDINAL ->
  rub_points first count = Return (List.map rub_point (ordinals first count)).
Proof.
  induction count as [ | count IH]; intros first Hlo Hhi; cbn [rub_points ordinals List.map].
  - reflexivity.
  - unfold fromordinal.
    destruct (Z.leb_spec 1 first); [ | lia ].
    destruct (Z.leb_spec first MAXORDINAL); [ | lia ].
    cbn [andb or_raise obind]. rewrite IH by lia. reflexivity.
Qed.

Lemma earlier_later_valid d1 d2 :
  valid_date d1 = true -> valid_date d2 = true ->
  valid_date (earlier d1 d2) = true /\ valid_date (later d1 d2) = true
  /\ toordinal (earlier d1 d2) <= toordinal (later d1 d2).
Proof.
  intros V1 V2. unfold earlier, later, date_lt.
  destruct (Z.ltb_spec (toordinal d2) (toordinal d1)); repeat split; auto; lia.
Qed.

Lemma rub_history_unfold date_from date_to d1 d2 :
  strptime_Ymd date_from = Some d1 ->
  strptime_Ymd date_to = Some d2 ->
  rub_history date_from date_to
  = obind (rub_points (toordinal (earlier d1 d2))
             (Z.to_nat (toordinal (later d1 d2) - toordinal (earlier d1 d2) + 1)))
      (fun points => Return (HistData (mkHistory "RUB" RUB_NAME date_from date_to points))).
Proof.
  intros H1 H2. unfold rub_history, earlier, later. rewrite H1, H2.
  destruct (date_lt d2 d1); reflexivity.
Qed.

(** C4. For RUB (in any letter case) and two dates that [strptime]
    accepts, [fetch_history] touches neither the clock, the cache nor
    upstream, and returns one point for every calendar day from the
    earlier to the later date, both included, in ascending order, each
    with [rub_per_unit = 1.0]: the point at index [i] is the day [i] days
    after the earlier date, and every day of the range is the date of
    exactly one point. The range 2024-01-01 to 2024-01-05 gives five
    points. *)
Theorem rub_history_days :
  (forall w code date_from date_to d1 d2 st,
      upper code = "RUB" ->
      strptime_Ymd date_from = Some d1 ->
      strptime_Ymd date_to = Some d2 ->
      let lo := earlier d1 d2 in
      let hi := later d1 d2 in
      let points :=
        List.map rub_point
          (ordinals (toordinal lo) (Z.to_nat (toordinal hi - toordinal lo + 1))) in
      fetch_history w code date_from date_to st
      = (Return (HistData (mkHistory "RUB" RUB_NAME date_from date_to points)), st)
      /\ Z.of_nat (length points) = toordinal hi - toordinal lo + 1
      /\ (forall i p,
            nth_error points i = Some p ->
            hp_rub_per_unit p = fone
            /\ exists day, valid_date day = true
                           /\ toordinal day = toordinal lo + Z.of_nat i
                           /\ hp_date p = isoformat day)
      /\ (forall day,
            valid_date day = true ->
            toordinal lo <= toordinal day <= toordinal hi ->
            let i := Z.to_nat (toordinal day - toordinal lo) in
            nth_error points i = Some (mkPoint (isoformat day) fone)
            /\ forall j p, nth_error points j = Some p ->
                           hp_date p = isoformat day -> j = i))
  /\ (forall w st,
        fetch_history w "RUB" "2024-01-01" "2024-01-05" st
        = (Return (HistData (mkHistory "RUB" RUB_NAME "2024-01-01" "2024-01-05"
                     [mkPoint "2024-01-01" fone; mkPoint "2024-01-02" fone;
                      mkPoint "2024-01-03" fone; mkPoint "2024-01-04" fone;
                      mkPoint "2024-01-05" fone])), st)).
Proof.
  split; [ | intros w st; reflexivity ].
  intros w code date_from date_to d1 d2 st Hc H1 H2 lo hi points.
  destruct (earlier_later_valid d1 d2 (strptime_Ymd_valid _ _ H1) (strptime_Ymd_valid _ _ H2))
    as (Vlo & Vhi & Hle).
  fold lo hi in Vlo, Vhi, Hle.
  pose proof (toordinal_range lo Vlo) as Rlo.
  pose proof (toordinal_range hi Vhi) as Rhi.
  set (count := Z.to_nat (toordinal hi - toordinal lo + 1)) in *.
  assert (Hnth : forall i p, nth_error points i = Some p ->
                 (i < count)%nat /\ p = rub_point (toordinal lo + Z.of_nat i)).
  { intros i p. subst points. rewrite nth_error_map, nth_error_ordinals.
    destruct (Nat.ltb_spec i count); [ | discriminate ].
    cbn [option_map]. intros [= <-]. auto. }
  repeat apply conj.
  - unfold fetch_history. rewrite Hc. cbn [String.eqb Ascii.eqb Bool.eqb]. unfold lift.
    rewrite (rub_history_unfold _ _ _ _ H1 H2). fold lo hi count.
    rewrite rub_points_ok by lia. reflexivity.
  - subst points. rewrite length_map, length_ordinals. lia.
  - intros i p Hp. destruct (Hnth i p Hp) as [Hi ->]. split; [reflexivity | ].
    destruct (ord2ymd_toordinal (toordinal lo + Z.of_nat i)) as [V E]; [lia | ].
    exists (ord2ymd (toordinal lo + Z.of_nat i)). auto.
  - intros day Vd Hr i. split.
    + subst points. rewrite nth_error_map, nth_error_ordinals.
      destruct (Nat.ltb_spec i count); [ | lia ]. cbn [option_map]. unfold rub_point.
      replace (toordinal lo + Z.of_nat i) with (toordinal day) by lia.
      pose proof (fromordinal_toordinal day Vd) as F. unfold fromordinal in F.
      destruct ((1 <=? toordinal day) && (toordinal day <=? MAXORDINAL)); [ | discriminate ].
      injection F as ->. reflexivity.
    + intros j p Hp Hd. destruct (Hnth j p Hp) as [Hj ->]. cbn [rub_point hp_date] in Hd.
      destruct (ord2ymd_toordinal (toordinal lo + Z.of_nat j)) as [V E]; [lia | ].
      apply isoformat_inj in Hd; [ | exact V | exact Vd ]. subst day. lia.
Qed.

Lemma rub_history_days_witness :
  fetch_history Samples.world "rub" "2024-01-05" "2024-01-01" initial
  = (Return (HistData (mkHistory "RUB" RUB_NAME "2024-01-05" "2024-01-01"
               [mkPoint "2024-01-01" fone; mkPoint "2024-01-02" fone;
                mkPoint "2024-01-03" fone; mkPoint "2024-01-04" fone;
                mkPoint "2024-01-05" fone])), initial).
Proof.
  apply (proj1 (proj1 rub_history_days Samples.world "rub" "2024-01-05" "2024-01-01"
                  (mkdate 2024 1 5) (mkdate 2024 1 1) initial eq_refl eq_refl eq_refl)).
Defined.

End RatesFacts.

(* ===================================================================== *)
(** ** [fetch_daily]: what a call touches *)
(* ===================================================================== *)

Module DailyFacts.
Import PyStr PyNum PyDate Rates Props PyNumFacts PyDateFacts RatesFacts.

(** The state a call leaves: the clock read once, and either nothing
    else, or one request sent, or one request sent and one entry stored
    under the call's key. *)
Lemma fetch_daily_state w date_iso st :
  let st' := snd (fetch_daily w date_iso st) in
  st' = tick st
  \/ exists cbr_date,
       _date_to_cbr date_iso = Return cbr_date
       /\ (st' = after_request (daily_request cbr_date) st
           \/ exists v, st' = mkState (<[("daily", date_iso) := v]> (_cache st))
                                      (S (ticks st))
                                      (sent st ++ [daily_request cbr_date])).
Proof.
  cbv zeta. rewrite fetch_daily_unfold.
  destruct (fresh_hit w date_iso st) as [data | ]; [left; reflexivity | ].
  destruct (_date_to_cbr date_iso) as [cbr_date | e]; [ | left; reflexivity ].
  right. exists cbr_date. split; [reflexivity | ]. cbv zeta.
  destruct (upstream w _ _) as [msg | code text [root | ]]; try (left; reflexivity).
  all: destruct (negb (code =? 200)); try (left; reflexivity).
  destruct (daily_rates root) as [[items rates] | e]; [ | left; reflexivity ].
  right. eexists. reflexivity.
Qed.

(** X1. Whatever it returns, a call of [fetch_daily] reads the clock
    exactly once, leaves the cache entries under every other key as they
    were, removes no entry, and sends at most one request. *)
Theorem fetch_daily_frame w date_iso st :
  let st' := snd (fetch_daily w date_iso st) in
  ticks st' = S (ticks st)
  /\ (forall key, key <> ("daily", date_iso) -> _cache st' !! key = _cache st !! key)
  /\ (forall key, is_Some (_cache st !! key) -> is_Some (_cache st' !! key))
  /\ (sent st' = sent st \/ exists rq, sent st' = (sent st ++ [rq])%list).
Proof.
  cbv zeta.
  destruct (fetch_daily_state w date_iso st) as [-> | (cbr_date & _ & [-> | (v & ->)])];
    cbn [tick after_request ticks _cache sent].
  - repeat split; auto.
  - repeat split; eauto.
  - split; [reflexivity | ]. split; [ | split ].
    + intros key Hne. apply lookup_insert_ne. congruence.
    + intros key Hs. rewrite lookup_insert. case_decide; [eauto | exact Hs].
    + eauto.
Qed.

Lemma truthy_String c s : truthy (String c s) = true.
Proof. reflexivity. Qed.

(** What [_date_to_cbr] returns: nothing for no date or an empty one,
    and what [strftime] writes for a string that [strptime] reads as a
    date of the calendar. *)
Lemma date_to_cbr_cases date_iso cbr_date :
  _date_to_cbr date_iso = Return cbr_date ->
  ((date_iso = None \/ date_iso = Some "") /\ cbr_date = None)
  \/ exists s d, date_iso = Some s /\ strptime_Ymd s = Some d /\ valid_date d = true
                 /\ cbr_date = Some (strftime_dmY_slash d).
Proof.
  unfold _date_to_cbr. destruct date_iso as [s | ]; [ | intros [= <-]; auto ].
  destruct s as [ | c s]; [intros [= <-]; auto | ].
  cbn [truthy negb]. destruct (strptime_Ymd (String c s)) as [d | ] eqn:E; [ | discriminate ].
  cbn [or_raise obind]. intros [= <-]. right. exists (String c s), d.
  repeat split; auto. eapply strptime_Ymd_valid; exact E.
Qed.

(** X2. A request [fetch_daily] sends goes to the daily endpoint. It
    carries no parameter when the call has no date or an empty one, and
    otherwise the one parameter [date_req], the requested day as
    [strftime("%d/%m/%Y")] writes it: day and month with two digits and
    the year in decimal, without padding. *)
Theorem fetch_daily_request w date_iso st rq :
  sent (snd (fetch_daily w date_iso st)) = (sent st ++ [rq])%list ->
  rq_url rq = CBR_DAILY_XML
  /\ (((date_iso = None \/ date_iso = Some "") /\ rq_params rq = [])
      \/ exists s d, date_iso = Some s /\ strptime_Ymd s = Some d /\ valid_date d = true
                     /\ rq_params rq = [("date_req", Some (strftime_dmY_slash d))]).
Proof.
  intros Hs.
  assert (Hrq : exists cbr_date,
             _date_to_cbr date_iso = Return cbr_date /\ rq = daily_request cbr_date).
  { destruct (fetch_daily_state w date_iso st) as [E | (cbr_date & Hc & [E | (v & E)])];
      rewrite E in Hs; cbn [tick after_request sent] in Hs.
    - exfalso. apply (f_equal (@length _)) in Hs. rewrite length_app in Hs. cbn in Hs. lia.
    - exists cbr_date. split; [exact Hc | ]. apply app_inv_head in Hs. congruence.
    - exists cbr_date. split; [exact Hc | ]. apply app_inv_head in Hs. congruence. }
  destruct Hrq as (cbr_date & Hc & ->). split; [reflexivity | ].
  destruct (date_to_cbr_cases _ _ Hc) as [[Hd ->] | (s & d & -> & Hp & V & ->)].
  - left. split; [exact Hd | reflexivity].
  - right. exists s, d. repeat split; auto.
Qed.

Lemma fetch_daily_request_witness :
  rq_url (daily_request (Some "01/01/2024")) = CBR_DAILY_XML
  /\ (((Samples.new_year = None \/ Samples.new_year = Some "")
       /\ rq_params (daily_request (Some "01/01/2024")) = [])
      \/ exists s d, Samples.new_year = Some s /\ strptime_Ymd s = Some d
                     /\ valid_date d = true
                     /\ rq_params (daily_request (Some "01/01/2024"))
                        = [("date_req", Some (strftime_dmY_slash d))]).
Proof.
  apply (fetch_daily_request Samples.world Samples.new_year initial).
  rewrite sample_first_call. reflexivity.
Defined.

Lemma cache_keyed_initial : cache_keyed initial.
Proof. intros date_iso ts d. cbn [initial _cache]. rewrite lookup_empty. discriminate. Qed.

(** X3. Every snapshot [fetch_daily] returns, fetched or served from
    the cache, carries the date it was asked for as
    [requested_date_iso], and its [count] is the number of its [items];
    the same holds of every snapshot the cache holds afterwards. *)
Theorem fetch_daily_keyed w date_iso st r st' :
  cache_keyed st ->
  fetch_daily w date_iso st = (r, st') ->
  cache_keyed st'
  /\ forall d, r = Return (DailyData d) ->
       s_requested_date_iso d = date_iso /\ s_count d = Z.of_nat (length (s_items d)).
Proof.
  intros Hk. rewrite fetch_daily_unfold.
  destruct (fresh_hit w date_iso st) as [data | ] eqn:Eh.
  - intros [= <- <-]. split; [exact Hk | ]. intros d [= <-].
    apply fresh_hit_cached in Eh. destruct Eh as (ts & Hl & _). eapply Hk; exact Hl.
  - destruct (_date_to_cbr date_iso) as [cbr_date | e];
      [ | intros [= <- <-]; split; [exact Hk | discriminate] ].
    cbv zeta. destruct (upstream w _ _) as [msg | code text [root | ]];
      try (intros [= <- <-]; split; [exact Hk | discriminate]).
    all: destruct (negb (code =? 200));
      try (intros [= <- <-]; split; [exact Hk | discriminate]).
    destruct (daily_rates root) as [[items rates] | e];
      [ | intros [= <- <-]; split; [exact Hk | discriminate] ].
    intros [= <- <-]. split.
    + intros date' ts d. cbn [_cache]. rewrite lookup_insert. case_decide as Hd.
      * intros [= _ <-]. injection Hd as <-. split; reflexivity.
      * apply Hk.
    + intros d [= <-]. split; reflexivity.
Qed.

Lemma fetch_daily_keyed_witness :
  cache_keyed Samples.after_first
  /\ forall d, Return (DailyData Samples.snapshot) = Return (DailyData d) ->
       s_requested_date_iso d = Samples.new_year
       /\ s_count d = Z.of_nat (length (s_items d)).
Proof.
  apply (fetch_daily_keyed Samples.world Samples.new_year initial).
  - exact cache_keyed_initial.
  - exact sample_first_call.
Defined.

Lemma take_first_chars text : forall n, first_chars n text (take n text).
Proof.
  unfold first_chars.
  induction text as [ | c text IH]; intros n; cbn [take char_count].
  - split; [exists ""; split; reflexivity | lia].
  - destruct (is_continuation c) eqn:Ec.
    + destruct (IH n) as ((rest & Hr & Hs) & Hc). cbn [char_count]. rewrite Ec. split.
      * exists rest. rewrite append_String, <- Hr. split; [reflexivity | exact Hs].
      * lia.
    + destruct n as [ | n].
      * split; [ | reflexivity ]. exists (String c text).
        split; [reflexivity | ]. cbn [starts_char]. rewrite Ec. reflexivity.
      * destruct (IH n) as ((rest & Hr & Hs) & Hc). cbn [char_count]. rewrite Ec. split.
        -- exists rest. rewrite append_String, <- Hr. split; [reflexivity | exact Hs].
        -- lia.
Qed.

(** X27. The error results of [fetch_daily] are of two kinds and no
    other, and the cache serves neither. A call returns an error
    exactly when it finds nothing fresh in the cache, its date converts,
    and upstream, asked the call's request, either fails, and then the
    error is the text of the exception, without details, or answers
    with a status other than 200, and then the error names that status
    and the details are the first 300 characters of that answer's
    body. *)
Theorem fetch_daily_errors w date_iso st e details :
  (fst (fetch_daily w date_iso st) = Return (DailyError e details)
   <-> fresh_hit w date_iso st = None
       /\ exists cbr_date,
            _date_to_cbr date_iso = Return cbr_date
            /\ match upstream w (length (sent st)) (daily_request cbr_date) with
               | NetworkError msg =>
                   e = ("Network error: " ++ msg)%string /\ details = None
               | HttpResponse status text _ =>
                   status <> 200
                   /\ e = ("CBR returned " ++ str_of_int status)%string
                   /\ details = Some (take 300 text)
               end)
  /\ forall text, first_chars 300 text (take 300 text).
Proof.
  split; [ | intros text; apply take_first_chars ].
  rewrite fetch_daily_unfold.
  destruct (fresh_hit w date_iso st) as [data | ].
  { split; [discriminate | intros [H _]; discriminate]. }
  destruct (_date_to_cbr date_iso) as [cbr_date | e0].
  2:{ split; [discriminate | intros [_ (c & H & _)]; discriminate]. }
  cbv zeta. split.
  - intros H. split; [reflexivity | ]. exists cbr_date. split; [reflexivity | ].
    destruct (upstream w _ _) as [msg | status text xml].
    + injection H as <- <-. split; reflexivity.
    + destruct (Z.eqb_spec status 200) as [-> | Hs]; cbn [negb] in H.
      * destruct xml as [root | ]; [ | discriminate ].
        destruct (daily_rates root) as [[items rates] | e0]; discriminate.
      * injection H as <- <-. repeat split. exact Hs.
  - intros [_ (c & [= <-] & H)].
    destruct (upstream w _ _) as [msg | status text xml].
    + destruct H as [-> ->]. reflexivity.
    + destruct H as (Hs & -> & ->).
      destruct (Z.eqb_spec status 200) as [E | _]; [contradiction | reflexivity].
Qed.

Lemma fetch_daily_errors_witness :
  fresh_hit Samples.world_down None initial = None
  /\ exists cbr_date,
       _date_to_cbr None = Return cbr_date
       /\ match upstream Samples.world_down (length (sent initial)) (daily_request cbr_date)
          with
          | NetworkError msg =>
              "CBR returned 503" = ("Network error: " ++ msg)%string
              /\ Some "Service Unavailable" = None
          | HttpResponse status text _ =>
              status <> 200
              /\ "CBR returned 503" = ("CBR returned " ++ str_of_int status)%string
              /\ Some "Service Unavailable" = Some (take 300 text)
          end.
Proof.
  apply (proj1 (fetch_daily_errors Samples.world_down None initial
                  "CBR returned 503" (Some "Service Unavailable"))).
  reflexivity.
Defined.

End DailyFacts.

(* ===================================================================== *)
(** ** The loop over the records of the daily feed *)
(* ===================================================================== *)

Module FeedFacts.
Import PyStr PyNum PyDate Rates Props PyNumFacts PyDateFacts RatesFacts.

Lemma upper_char_idem c : upper_char (upper_char c) = upper_char c.
Proof. destruct c as [[] [] [] [] [] [] [] []]; reflexivity. Qed.

Lemma upper_idem s : upper (upper s) = upper s.
Proof.
  unfold upper. induction s as [ | c s IH]; cbn [map_chars]; [reflexivity | ].
  rewrite upper_char_idem, IH. reflexivity.
Qed.

(** What one turn of the loop does, by the record it reads. *)
Lemma parse_valute_cases valute items rates :
  parse_valute valute (items, rates) =
  match nominal_of valute with
  | None => Raise ValueError
  | Some n =>
      if usable valute then
        match value_of valute, float_of_int n with
        | Some v, Some fn =>
            Return ((items ++ [item_of valute n])%list,
                    <[charcode_of valute :=
                        mkRateEntry (fdiv v fn) n
                          (or_default (ET.findtext valute "Name") "")
                          (ET.attrib_get valute "ID")]> rates)
        | _, _ => Raise OverflowError
        end
      else Return ((items ++ [item_of valute n])%list, rates)
  end.
Proof.
  unfold parse_valute, usable, nominal_of, value_of, item_of, charcode_of, obind, or_raise.
  destruct (int_of_str _) as [n | ]; [ | reflexivity ].
  destruct (float_of_str _) as [v | ]; cbv zeta; [ | reflexivity ].
  destruct (truthy _ && (0 <? n)); [ | reflexivity ].
  destruct (float_of_int n); reflexivity.
Qed.

Lemma parse_valutes_items valutes : forall items rates items' rates',
  parse_valutes valutes (items, rates) = Return (items', rates') ->
  exists more,
    items' = (items ++ more)%list
    /\ Forall2 (fun valute it => exists n, nominal_of valute = Some n /\ it = item_of valute n)
               valutes more.
Proof.
  induction valutes as [ | v rest IH]; intros items rates items' rates'; cbn [parse_valutes].
  - intros [= <- <-]. exists []. split; [symmetry; apply app_nil_r | constructor].
  - rewrite parse_valute_cases.
    destruct (nominal_of v) as [n | ] eqn:En; [ | discriminate ].
    assert (Hstep : forall rates1,
               parse_valutes rest ((items ++ [item_of v n])%list, rates1)
               = Return (items', rates') ->
               exists more,
                 items' = (items ++ more)%list
                 /\ Forall2 (fun valute it =>
                               exists n, nominal_of valute = Some n /\ it = item_of valute n)
                            (v :: rest) more).
    { intros rates1 Hrest. apply IH in Hrest. destruct Hrest as (more & -> & Hall).
      exists (item_of v n :: more). split.
      - rewrite <- app_assoc. reflexivity.
      - constructor; [eauto | exact Hall]. }
    destruct (usable v); [ | cbn [obind]; apply Hstep ].
    destruct (value_of v) as [x | ]; [ | discriminate ].
    destruct (float_of_int n) as [fn | ]; [ | discriminate ].
    cbn [obind]. apply Hstep.
Qed.

(** X4. When the daily feed parses, [items] holds exactly one entry for
    every [Valute] record of the document, in the order of the feed, a
    record that sets no rate included: the entry of a record is built
    from its [ID] attribute and its [NumCode], [CharCode], [Name],
    [Nominal] and [Value] texts. *)
Theorem daily_items_all root items rates :
  daily_rates root = Return (items, rates) ->
  Forall2 (fun valute it => exists n, nominal_of valute = Some n /\ it = item_of valute n)
          (ET.findall root "Valute") items.
Proof.
  unfold daily_rates.
  destruct (parse_valutes _ _) as [[items0 rates0] | e] eqn:E; cbn [obind]; [ | discriminate ].
  intros [= <- <-]. apply parse_valutes_items in E. destruct E as (more & -> & Hall).
  exact Hall.
Qed.

Lemma sample_daily_rates :
  daily_rates Samples.feed = Return (fst Samples.parsed, snd Samples.parsed).
Proof. vm_compute. reflexivity. Qed.

Lemma daily_items_all_witness :
  Forall2 (fun valute it => exists n, nominal_of valute = Some n /\ it = item_of valute n)
          (ET.findall Samples.feed "Valute") (fst Samples.parsed).
Proof. apply (daily_items_all Samples.feed _ (snd Samples.parsed)). exact sample_daily_rates. Defined.

Lemma truthy_upper s : truthy (upper s) = truthy s.
Proof. destruct s; reflexivity. Qed.

Lemma parse_valutes_keys valutes : forall items rates items' rates',
  parse_valutes valutes (items, rates) = Return (items', rates') ->
  (forall code e, rates !! code = Some e -> truthy code = true /\ upper code = code) ->
  forall code e, rates' !! code = Some e -> truthy code = true /\ upper code = code.
Proof.
  induction valutes as [ | v rest IH]; intros items rates items' rates'; cbn [parse_valutes].
  - intros [= <- <-] H. exact H.
  - rewrite parse_valute_cases.
    destruct (nominal_of v) as [n | ]; [ | discriminate ].
    destruct (usable v) eqn:U; [ | cbn [obind]; apply IH ].
    destruct (value_of v) as [x | ] eqn:Ex; [ | discriminate ].
    destruct (float_of_int n) as [fn | ]; [ | discriminate ].
    cbn [obind]. intros Hrest Hk. eapply IH; [exact Hrest | ].
    intros code e. rewrite lookup_insert. case_decide as Hc; [ | apply Hk ].
    intros _. subst code. unfold usable in U. rewrite Ex in U.
    destruct (nominal_of v); [ | discriminate ].
    apply andb_prop in U. destruct U as [Ut _]. split; [exact Ut | ].
    unfold charcode_of. apply upper_idem.
Qed.

(** X5. Every key of the [rates] dict, and so of ["rates_map"], is a
    non-empty string in upper case: the look-ups, which put the
    requested code in upper case first, can reach every entry. *)
Theorem rates_keys_upper root items rates code e :
  daily_rates root = Return (items, rates) ->
  rates !! code = Some e ->
  truthy code = true /\ upper code = code.
Proof.
  unfold daily_rates.
  destruct (parse_valutes _ _) as [[items0 rates0] | e0] eqn:E; cbn [obind]; [ | discriminate ].
  intros [= <- <-]. rewrite lookup_insert. case_decide as Hc.
  - intros _. subst code. split; reflexivity.
  - eapply parse_valutes_keys; [exact E | ].
    intros code' e'. rewrite lookup_empty. discriminate.
Qed.

Lemma rates_keys_upper_witness : truthy "CNY" = true /\ upper "CNY" = "CNY".
Proof.
  eapply (rates_keys_upper Samples.feed (fst Samples.parsed) (snd Samples.parsed) "CNY").
  - exact sample_daily_rates.
  - vm_compute. reflexivity.
Defined.

(** X6. The letter case of a currency code makes no difference: the
    conversion, the id look-up and the history, which all put the code
    in upper case before they use it (the history before it hands it to
    the id look-up, which does so again), give for a code what they give
    for its upper-case form. *)
Theorem codes_case_insensitive :
  (forall d from_code to_code amount,
      convert d (upper from_code) (upper to_code) amount
      = convert d from_code to_code amount)
  /\ (forall w code date_iso st,
        get_valute_id w (upper code) date_iso st = get_valute_id w code date_iso st)
  /\ (forall w code date_from date_to st,
        fetch_history w (upper code) date_from date_to st
        = fetch_history w code date_from date_to st).
Proof.
  split; [ | split ].
  - intros d f t a. unfold convert. rewrite !upper_idem. reflexivity.
  - intros w code date_iso st. unfold get_valute_id. rewrite upper_idem. reflexivity.
  - intros w code date_from date_to st. unfold fetch_history. rewrite upper_idem. reflexivity.
Qed.

Lemma parse_valutes_keeps valutes code : forall items rates items' rates',
  parse_valutes valutes (items, rates) = Return (items', rates') ->
  (forall v, In v valutes -> charcode_of v = code -> usable v = false) ->
  rates' !! code = rates !! code.
Proof.
  induction valutes as [ | v rest IH]; intros items rates items' rates'; cbn [parse_valutes].
  - intros [= <- <-] _. reflexivity.
  - rewrite parse_valute_cases.
    destruct (nominal_of v) as [n | ]; [ | discriminate ].
    destruct (usable v) eqn:U.
    + destruct (value_of v) as [x | ]; [ | discriminate ].
      destruct (float_of_int n) as [fn | ]; [ | discriminate ].
      cbn [obind]. intros Hrest Hno.
      rewrite (IH _ _ _ _ Hrest) by (intros v' Hin; apply Hno; right; exact Hin).
      apply lookup_insert_ne. intros Hc.
      specialize (Hno v (or_introl eq_refl) Hc). congruence.
    + cbn [obind]. intros Hrest Hno. apply (IH _ _ _ _ Hrest).
      intros v' Hin. apply Hno. right. exact Hin.
Qed.

(** X7. The last usable record of a code decides its rate. When the
    feed parses and a usable record of a code other than RUB is followed
    by no usable record of the same code, the entry of that code holds
    the record's value divided by its nominal, with the record's
    nominal, name and [ID]: an earlier record of the code is
    overwritten, and a later one that sets no rate changes nothing. *)
Theorem last_usable_record_wins root pre valute post items rates :
  ET.findall root "Valute" = (pre ++ valute :: post)%list ->
  usable valute = true ->
  charcode_of valute <> "RUB" ->
  (forall v, In v post -> charcode_of v = charcode_of valute -> usable v = false) ->
  daily_rates root = Return (items, rates) ->
  exists n v fn,
    nominal_of valute = Some n /\ value_of valute = Some v /\ float_of_int n = Some fn
    /\ rates !! charcode_of valute
       = Some (mkRateEntry (fdiv v fn) n (or_default (ET.findtext valute "Name") "")
                           (ET.attrib_get valute "ID")).
Proof.
  intros Hall U Hrub Hpost. unfold daily_rates. rewrite Hall, parse_valutes_app.
  destruct (parse_valutes pre _) as [[items1 rates1] | e1]; cbn [obind]; [ | discriminate ].
  cbn [parse_valutes]. rewrite parse_valute_cases, U.
  destruct (nominal_of valute) as [n | ]; [ | discriminate ].
  destruct (value_of valute) as [v | ]; [ | discriminate ].
  destruct (float_of_int n) as [fn | ] eqn:Ef; [ | discriminate ].
  cbn [obind].
  destruct (parse_valutes post _) as [[items2 rates2] | e2] eqn:E2; cbn [obind];
    [ | discriminate ].
  intros [= <- <-]. exists n, v, fn. do 2 (split; [reflexivity | ]). split; [exact Ef | ].
  rewrite lookup_insert_ne by congruence.
  rewrite (parse_valutes_keeps _ _ _ _ _ _ E2 Hpost). apply lookup_insert_eq.
Qed.

Lemma last_usable_record_wins_witness :
  exists n v fn,
    nominal_of Samples.cny = Some n /\ value_of Samples.cny = Some v
    /\ float_of_int n = Some fn
    /\ snd Samples.parsed !! charcode_of Samples.cny
       = Some (mkRateEntry (fdiv v fn) n
                 (or_default (ET.findtext Samples.cny "Name") "")
                 (ET.attrib_get Samples.cny "ID")).
Proof.
  apply (last_usable_record_wins Samples.feed [Samples.usd] Samples.cny
           [Samples.xdr_bad_value; Samples.kzt_no_value; Samples.eur_no_nominal]
           (fst Samples.parsed)).
  - reflexivity.
  - vm_compute. reflexivity.
  - vm_compute. discriminate.
  - intros v [<- | [<- | [<- | []]]]; vm_compute; discriminate.
  - exact sample_daily_rates.
Defined.

Lemma parse_valutes_domain valutes code : forall items rates items' rates',
  parse_valutes valutes (items, rates) = Return (items', rates') ->
  is_Some (rates' !! code)
  <-> is_Some (rates !! code)
      \/ exists v, In v valutes /\ charcode_of v = code /\ usable v = true.
Proof.
  induction valutes as [ | v rest IH]; intros items rates items' rates'; cbn [parse_valutes].
  - intros [= <- <-]. split; [auto | ]. intros [H | (v & [] & _)]. exact H.
  - rewrite parse_valute_cases.
    destruct (nominal_of v) as [n | ]; [ | discriminate ].
    destruct (usable v) eqn:U.
    + destruct (value_of v) as [x | ]; [ | discriminate ].
      destruct (float_of_int n) as [fn | ]; [ | discriminate ].
      cbn [obind]. intros Hrest. rewrite (IH _ _ _ _ Hrest). rewrite lookup_insert.
      case_decide as Hc.
      * split; [ | eauto ]. intros _. right. exists v. split; [left; reflexivity | auto].
      * split.
        -- intros [H | (v' & Hin & Hv')]; [auto | ]. right. exists v'. split; [right | ]; auto.
        -- intros [H | (v' & [<- | Hin] & Hv' & Uv')]; [auto | congruence | ].
           right. exists v'. auto.
    + cbn [obind]. intros Hrest. rewrite (IH _ _ _ _ Hrest). split.
      * intros [H | (v' & Hin & Hv')]; [auto | ]. right. exists v'. split; [right | ]; auto.
      * intros [H | (v' & [<- | Hin] & Hv' & Uv')]; [auto | congruence | ].
        right. exists v'. auto.
Qed.

(** X8. The codes of the [rates] dict are RUB and the char codes of the
    usable records of the feed, and no other: a code none of whose
    records has a value that reads as a float, a non-empty char code and
    a positive nominal is absent. *)
Theorem rates_domain root items rates code :
  daily_rates root = Return (items, rates) ->
  is_Some (rates !! code)
  <-> code = "RUB"
      \/ exists v, In v (ET.findall root "Valute") /\ charcode_of v = code /\ usable v = true.
Proof.
  unfold daily_rates.
  destruct (parse_valutes _ _) as [[items0 rates0] | e0] eqn:E; cbn [obind]; [ | discriminate ].
  intros [= <- <-]. rewrite lookup_insert.
  pose proof (parse_valutes_domain _ code _ _ _ _ E) as Hd. rewrite lookup_empty in Hd.
  case_decide as Hc.
  - split; [auto | eauto].
  - rewrite Hd. split.
    + intros [[x Hx] | H]; [discriminate | auto].
    + intros [H | H]; [congruence | auto].
Qed.

Lemma rates_domain_witness :
  is_Some (snd Samples.parsed !! "XDR")
  <-> "XDR" = "RUB"
      \/ exists v, In v (ET.findall Samples.feed "Valute")
                   /\ charcode_of v = "XDR" /\ usable v = true.
Proof. apply (rates_domain Samples.feed (fst Samples.parsed)). exact sample_daily_rates. Defined.

End FeedFacts.

(* ===================================================================== *)
(** ** Dates across the two formats, and the history *)
(* ===================================================================== *)

Module HistoryFacts.
Import PyStr PyNum PyDate Rates Props PyNumFacts PyDateFacts RatesFacts.
Import DailyFacts FeedFacts.

Lemma day_bounds d : valid_date d = true -> 1 <= day d <= 31.
Proof.
  intros V. apply valid_date_iff in V. destruct V as (Hy & Hm & Hd).
  revert Hd. unfold days_in_month. month_cases (month d); destruct (is_leap (year d));
    closed_Z; cbn [andb DAYS_IN_MONTH]; lia.
Qed.

(** [strptime] with the feed's format reads back the feed's rendering
    of a date. *)
Lemma strptime_dmY_feed_date d : valid_date d = true -> strptime_dmY (feed_date_of d) = Some d.
Proof.
  intros V. pose proof (day_bounds d V) as Hd'.
  pose proof V as V'. apply valid_date_iff in V'. destruct V' as (Hy & Hm & Hd).
  destruct d as [y m dd]; cbn [year month day] in *.
  unfold strptime_dmY, feed_date_of; cbn [year month day].
  erewrite re_d_fmt2; [ | lia | ].
  2:{ norm_append. cbn [lit Ascii.eqb Bool.eqb].
      apply re_m_fmt2; [lia | ]. norm_append. cbn [lit Ascii.eqb Bool.eqb].
      replace (fmt4 y) with (fmt4 y ++ "")%string by (unfold fmt4; reflexivity).
      rewrite re_Y_fmt4 by (unfold MINYEAR, MAXYEAR in *; lia). cbn [first_match]. reflexivity. }
  cbn [whole]. unfold checked. rewrite V. reflexivity.
Qed.

Lemma strptime_dmY_valid s d : strptime_dmY s = Some d -> valid_date d = true.
Proof.
  unfold strptime_dmY, whole.
  destruct (first_match _ _) as [[[[y m] dd] [ | c r]] | ]; try discriminate.
  unfold checked. destruct (valid_date (mkdate y m dd)) eqn:V; [ | discriminate ].
  intros [= <-]. exact V.
Qed.

(** From the year 1000 on the year has four digits. *)
Lemma fmt_year_fmt4 y : 1000 <= y <= 9999 -> fmt_year y = fmt4 y.
Proof.
  intros H.
  assert (A : forallb (fun k => String.eqb (fmt_year (1000 + Z.of_nat k))
                                           (fmt4 (1000 + Z.of_nat k)))
                      (List.seq 0 (Z.to_nat 9000)) = true) by (vm_compute; reflexivity).
  rewrite forallb_forall in A. specialize (A (Z.to_nat (y - 1000))).
  rewrite Z2Nat.id in A by lia. replace (1000 + (y - 1000)) with y in A by lia.
  apply String.eqb_eq, A, in_seq. lia.
Qed.

(** X9. The date conversions fit together. For a date of the calendar,
    [_date_to_cbr] turns its ISO form into what [strftime("%d/%m/%Y")]
    writes for it, which is [DD/MM/YYYY] from the year 1000 on and has
    a shorter year before (the year 999 is written [999]); the feed's
    [DD.MM.YYYY] of the date is read back as that date by the
    [strptime] of the history; and [_ddmmyyyy_to_iso], which only
    reorders the segments, gives the same ISO string as reading the date
    and writing it with [isoformat]. *)
Theorem date_formats_agree d :
  valid_date d = true ->
  _date_to_cbr (Some (isoformat d)) = Return (Some (strftime_dmY_slash d))
  /\ (1000 <= year d ->
      strftime_dmY_slash d
      = (fmt2 (day d) ++ "/" ++ fmt2 (month d) ++ "/" ++ fmt4 (year d))%string)
  /\ _date_to_cbr (Some "0999-01-01") = Return (Some "01/01/999")
  /\ strptime_dmY (feed_date_of d) = Some d
  /\ _ddmmyyyy_to_iso (Some (feed_date_of d))
     = option_map isoformat (strptime_dmY (feed_date_of d)).
Proof.
  intros V. split; [ | split; [ | split; [ | split ] ] ].
  - unfold _date_to_cbr. rewrite strptime_Ymd_isoformat by exact V.
    unfold isoformat, fmt4. norm_append. reflexivity.
  - intros Hy. unfold strftime_dmY_slash. rewrite fmt_year_fmt4; [reflexivity | ].
    apply valid_date_iff in V. unfold MAXYEAR in V. lia.
  - vm_compute. reflexivity.
  - apply strptime_dmY_feed_date. exact V.
  - rewrite strptime_dmY_feed_date by exact V. apply ddmmyyyy_of_feed_date. exact V.
Qed.

Lemma date_formats_agree_witness :
  _date_to_cbr (Some (isoformat (mkdate 999 2 28)))
  = Return (Some (strftime_dmY_slash (mkdate 999 2 28)))
  /\ (1000 <= year (mkdate 999 2 28) ->
      strftime_dmY_slash (mkdate 999 2 28)
      = (fmt2 (day (mkdate 999 2 28)) ++ "/" ++ fmt2 (month (mkdate 999 2 28)) ++ "/"
         ++ fmt4 (year (mkdate 999 2 28)))%string)
  /\ _date_to_cbr (Some "0999-01-01") = Return (Some "01/01/999")
  /\ strptime_dmY (feed_date_of (mkdate 999 2 28)) = Some (mkdate 999 2 28)
  /\ _ddmmyyyy_to_iso (Some (feed_date_of (mkdate 999 2 28)))
     = option_map isoformat (strptime_dmY (feed_date_of (mkdate 999 2 28))).
Proof. apply (date_formats_agree (mkdate 999 2 28)). reflexivity. Defined.

(** What a record of the dynamic feed must be to contribute a point. *)
Lemma parse_record_some rec p :
  parse_record rec = Some p ->
  exists s d value nominal fnominal,
    ET.attrib_get rec "Date" = Some s /\ strptime_dmY s = Some d
    /\ hp_date p = isoformat d
    /\ float_of_str (replace "," "." (or_default (ET.findtext rec "Value") "0")) = Some value
    /\ int_of_str (or_default (ET.findtext rec "Nominal") "1") = Some nominal
    /\ nominal <> 0
    /\ float_of_int nominal = Some fnominal
    /\ hp_rub_per_unit p = fdiv value fnominal.
Proof.
  unfold parse_record.
  destruct (ET.attrib_get rec "Date") as [s | ]; [ | discriminate ].
  destruct (strptime_dmY s) as [d | ] eqn:Ed; cbn [option_map]; [ | discriminate ].
  destruct (float_of_str _) as [value | ]; [ | discriminate ].
  destruct (int_of_str _) as [nominal | ]; [ | discriminate ].
  destruct (Z.eqb_spec nominal 0) as [ | Hn]; [discriminate | ].
  destruct (float_of_int nominal) as [fnominal | ] eqn:Ef; [ | discriminate ].
  destruct (truthy (isoformat d)); [ | discriminate ].
  intros [= <-]. exists s, d, value, nominal, fnominal. repeat split; auto.
Qed.

Lemma parse_records_in recs p :
  In p (parse_records recs) -> exists rec, In rec recs /\ parse_record rec = Some p.
Proof.
  induction recs as [ | rec rest IH]; cbn [parse_records]; [intros [] | ].
  destruct (parse_record rec) as [q | ] eqn:E.
  - intros [<- | Hin].
    + exists rec. split; [left; reflexivity | exact E].
    + destruct (IH Hin) as (rec' & Hin' & E'). exists rec'. split; [right | ]; assumption.
  - intros Hin. destruct (IH Hin) as (rec' & Hin' & E'). exists rec'. split; [right | ]; assumption.
Qed.

Lemma parse_records_length recs : (length (parse_records recs) <= length recs)%nat.
Proof.
  induction recs as [ | rec rest IH]; cbn [parse_records length]; [lia | ].
  destruct (parse_record rec); cbn [length]; lia.
Qed.

(** X10. Every point of a history comes from a record of the dynamic
    feed: its date is the ISO form of the day of the calendar that the
    record's [Date] attribute, read as [DD.MM.YYYY], denotes, and its
    rate is the record's value divided by its nominal, which is not
    zero. A record that lacks one of these contributes nothing, so there
    are at most as many points as records. *)
Theorem history_points_from_records recs :
  (length (parse_records recs) <= length recs)%nat
  /\ forall p, In p (parse_records recs) ->
       exists rec s d value nominal fnominal,
         In rec recs
         /\ ET.attrib_get rec "Date" = Some s /\ strptime_dmY s = Some d
         /\ valid_date d = true /\ hp_date p = isoformat d
         /\ float_of_str (replace "," "." (or_default (ET.findtext rec "Value") "0"))
            = Some value
         /\ int_of_str (or_default (ET.findtext rec "Nominal") "1") = Some nominal
         /\ nominal <> 0
         /\ float_of_int nominal = Some fnominal
         /\ hp_rub_per_unit p = fdiv value fnominal.
Proof.
  split; [apply parse_records_length | ].
  intros p Hin. destruct (parse_records_in _ _ Hin) as (rec & Hrec & E).
  destruct (parse_record_some _ _ E) as (s & d & value & nominal & fn & H1 & H2 & H3 & H4 & H5 & H6 & H7 & H8).
  exists rec, s, d, value, nominal, fn. repeat split; auto.
  eapply strptime_dmY_valid; exact H2.
Qed.

Lemma history_points_from_records_witness :
  (length (parse_records (ET.findall Samples.january "Record"))
   <= length (ET.findall Samples.january "Record"))%nat
  /\ exists rec s d value nominal fnominal,
       In rec (ET.findall Samples.january "Record")
       /\ ET.attrib_get rec "Date" = Some s /\ strptime_dmY s = Some d
       /\ valid_date d = true
       /\ hp_date (mkPoint "2024-01-10" (S754_finite false 6290536480143678 (-46)))
          = isoformat d
       /\ float_of_str (replace "," "." (or_default (ET.findtext rec "Value") "0"))
          = Some value
       /\ int_of_str (or_default (ET.findtext rec "Nominal") "1") = Some nominal
       /\ nominal <> 0
       /\ float_of_int nominal = Some fnominal
       /\ hp_rub_per_unit (mkPoint "2024-01-10" (S754_finite false 6290536480143678 (-46)))
          = fdiv value fnominal.
Proof.
  destruct (history_points_from_records (ET.findall Samples.january "Record")) as [Hlen Hin].
  split; [exact Hlen | ]. apply Hin. vm_compute. left. reflexivity.
Defined.

(** X11. The RUB branch of the history never raises and touches
    neither the clock, the cache nor upstream: for every pair of date
    strings in ASCII it returns, and what it returns is the error
    [bad dates] exactly when [strptime] rejects one of them. (A date
    written with the decimal digits of another script is outside the
    statement: Python's [strptime] reads those too.) *)
Theorem rub_history_returns w code date_from date_to st :
  upper code = "RUB" ->
  is_ascii date_from = true ->
  is_ascii date_to = true ->
  exists r,
    fetch_history w code date_from date_to st = (Return r, st)
    /\ (r = HistError "bad dates"
        <-> strptime_Ymd date_from = None \/ strptime_Ymd date_to = None).
Proof.
  intros Hc _ _. unfold fetch_history. rewrite Hc. cbn [String.eqb Ascii.eqb Bool.eqb].
  unfold lift.
  destruct (strptime_Ymd date_from) as [d1 | ] eqn:E1.
  - destruct (strptime_Ymd date_to) as [d2 | ] eqn:E2.
    + rewrite (rub_history_unfold _ _ _ _ E1 E2).
      pose proof (strptime_Ymd_valid _ _ E1) as V1.
      pose proof (strptime_Ymd_valid _ _ E2) as V2.
      destruct (earlier_later_valid d1 d2 V1 V2) as (Ve & Vl & Hle).
      pose proof (toordinal_range _ Ve). pose proof (toordinal_range _ Vl).
      rewrite rub_points_ok by lia. cbn [obind]. eexists. split; [reflexivity | ].
      split; [discriminate | intros [H' | H']; discriminate].
    + unfold rub_history. rewrite E1, E2. eexists. split; [reflexivity | ]. split; auto.
  - unfold rub_history. rewrite E1. eexists. split; [reflexivity | ]. split; auto.
Qed.

Lemma rub_history_returns_witness :
  exists r,
    fetch_history Samples.world_down "rub" "2024-02-30" "2024-03-01" initial
    = (Return r, initial)
    /\ (r = HistError "bad dates"
        <-> strptime_Ymd "2024-02-30" = None \/ strptime_Ymd "2024-03-01" = None).
Proof. apply (rub_history_returns Samples.world_down "rub"); reflexivity. Defined.

(** The branch of the history for a code other than RUB, step by
    step. *)
Lemma fetch_history_unfold w code date_from date_to st :
  upper code <> "RUB" ->
  fetch_history w code date_from date_to st =
  match fetch_daily w None st with
  | (Raise e, st1) => (Raise e, st1)
  | (Return r, st1) =>
      match valute_id_in r (upper code) with
      | None => (Return (HistError ("Не найден код " ++ upper code)), st1)
      | Some val_id =>
          match _date_to_cbr (Some date_from) with
          | Raise e => (Raise e, st1)
          | Return req1 =>
              match _date_to_cbr (Some date_to) with
              | Raise e => (Raise e, st1)
              | Return req2 =>
                  let rq := dynamic_request req1 req2 val_id in
                  let st2 := mkState (_cache st1) (ticks st1) (sent st1 ++ [rq]) in
                  match upstream w (length (sent st1)) rq with
                  | NetworkError e => (Return (HistError ("Network error: " ++ e)), st2)
                  | HttpResponse status_code r_text r_xml =>
                      if negb (status_code =? 200)
                      then (Return (HistError ("CBR returned " ++ str_of_int status_code)), st2)
                      else
                        match r_xml with
                        | None => (Raise ParseError, st2)
                        | Some root =>
                            match fetch_daily w None st2 with
                            | (Raise e, st3) => (Raise e, st3)
                            | (Return r', st3) =>
                                (Return (HistData
                                   (mkHistory (upper code) (name_in r' (upper code))
                                      date_from date_to
                                      (parse_records (ET.findall root "Record")))), st3)
                            end
                        end
                  end
              end
          end
      end
  end.
Proof.
  intros Hc. unfold fetch_history.
  destruct (String.eqb_spec (upper code) "RUB") as [E | _]; [contradiction | ].
  unfold bind at 1. unfold get_valute_id. unfold bind at 1.
  destruct (fetch_daily w None st) as [[r | e] st1]; [ | reflexivity ].
  rewrite upper_idem. unfold valute_id_in.
  destruct r as [e details | d].
  - reflexivity.
  - destruct (s_rates_map d !! upper code) as [info | ]; [ | reflexivity ].
    unfold ret at 1. destruct (ri_id info) as [v | ]; [ | reflexivity ].
    destruct (truthy v); [ | reflexivity ].
    unfold bind, lift, ret, requests_get, dynamic_request, or_raise, name_in.
    destruct (_date_to_cbr (Some date_from)) as [req1 | e1]; [ | reflexivity ].
    destruct (_date_to_cbr (Some date_to)) as [req2 | e2]; [ | reflexivity ].
    cbv zeta.
    destruct (upstream w _ _) as [msg | status text [root | ]]; try reflexivity.
    + destruct (negb (status =? 200)); [reflexivity | ].
      destruct (fetch_daily w None _) as [[[e' det' | d'] | e'] st3]; reflexivity.
    + destruct (negb (status =? 200)); reflexivity.
Qed.

(** X12. For a code other than RUB whose id the latest daily table
    does not give (the table could not be fetched, it has no entry for
    the code, or the entry has no [ID]), the history answers that the
    code was not found, whatever the two dates are, and sends nothing to
    the dynamic endpoint. A failure of the daily feed is so reported as
    an unknown code. *)
Theorem history_code_not_found w code date_from date_to st r st1 :
  upper code <> "RUB" ->
  fetch_daily w None st = (Return r, st1) ->
  valute_id_in r (upper code) = None ->
  fetch_history w code date_from date_to st
  = (Return (HistError ("Не найден код " ++ upper code)), st1)
  /\ (forall rq, In rq (sent st1) -> is_dynamic rq = true -> In rq (sent st)).
Proof.
  intros Hc Hf Hid. split.
  - rewrite fetch_history_unfold by exact Hc. rewrite Hf, Hid. reflexivity.
  - intros rq Hin Hd.
    assert (Hrq : forall cbr_date, is_dynamic (daily_request cbr_date) = false)
      by (intros; reflexivity).
    pose proof (fetch_daily_state w None st) as Hs. cbv zeta in Hs. rewrite Hf in Hs.
    cbn [snd] in Hs.
    destruct Hs as [-> | (cbr_date & _ & [-> | (v & ->)])];
      cbn [tick after_request sent] in Hin; [exact Hin | | ].
    all: apply in_app_or in Hin; destruct Hin as [Hin | [<- | []]]; [exact Hin | ].
    all: rewrite Hrq in Hd; discriminate.
Qed.

Lemma history_code_not_found_witness :
  fetch_history Samples.world_down "usd" "2024-02-30" "" initial
  = (Return (HistError ("Не найден код " ++ upper "usd")),
     after_request (daily_request None) initial)
  /\ (forall rq, In rq (sent (after_request (daily_request None) initial)) ->
       is_dynamic rq = true -> In rq (sent initial)).
Proof.
  apply (history_code_not_found Samples.world_down "usd" "2024-02-30" "" initial
           (DailyError "CBR returned 503" (Some "Service Unavailable"))).
  - vm_compute. discriminate.
  - vm_compute. reflexivity.
  - reflexivity.
Defined.

Lemma extends_refl n k t st : extends n k t st st.
Proof.
  repeat split; auto; [lia | ]. exists []. rewrite app_nil_r. cbn. repeat split; lia.
Qed.

Lemma extends_trans n1 k1 t1 n2 k2 t2 st1 st2 st3 :
  extends n1 k1 t1 st1 st2 -> extends n2 k2 t2 st2 st3 ->
  extends (n1 + n2) (k1 + k2) (t1 + t2) st1 st3.
Proof.
  intros (Ha1 & Hb1 & Ht1 & new1 & Hs1 & Hn1 & Hk1) (Ha2 & Hb2 & Ht2 & new2 & Hs2 & Hn2 & Hk2).
  split; [ | split; [ | split ] ].
  - intros key Hne. rewrite Ha2, Ha1 by exact Hne. reflexivity.
  - intros key Hsome. apply Hb2, Hb1, Hsome.
  - lia.
  - exists (new1 ++ new2)%list. rewrite Hs2, Hs1, <- app_assoc. split; [reflexivity | ].
    rewrite List.filter_app, !length_app. split; lia.
Qed.

Lemma extends_weaken n k t n' k' t' st st' :
  extends n k t st st' -> (n <= n')%nat -> (k <= k')%nat -> (t <= t')%nat ->
  extends n' k' t' st st'.
Proof.
  intros (Ha & Hb & Ht & new & Hs & Hn & Hk) ? ? ?.
  repeat split; auto; [lia | ]. exists new. repeat split; auto; lia.
Qed.

Lemma extends_daily w st : extends 1 0 1 st (snd (fetch_daily w None st)).
Proof.
  destruct (fetch_daily_state w None st) as [-> | (cbr_date & _ & [-> | (v & ->)])];
    unfold extends; cbn [tick after_request ticks _cache sent].
  - repeat split; auto; [lia | ]. exists []. rewrite app_nil_r. cbn. repeat split; lia.
  - repeat split; auto; [lia | ]. eexists. split; [reflexivity | ]. cbn. split; lia.
  - split; [ | split; [ | split ] ].
    + intros key Hne. apply lookup_insert_ne. congruence.
    + intros key Hsome. rewrite lookup_insert. case_decide; [eauto | exact Hsome].
    + lia.
    + eexists. split; [reflexivity | ]. cbn. split; lia.
Qed.

Lemma extends_dynamic st rq :
  extends 1 1 0 st (mkState (_cache st) (ticks st) (sent st ++ [rq])).
Proof.
  unfold extends; cbn [ticks _cache sent]. repeat split; auto; [lia | ].
  exists [rq]. split; [reflexivity | ]. cbn [List.filter length].
  destruct (is_dynamic rq); cbn [length]; split; lia.
Qed.

(** X13. Whatever the code, the dates and the answers of upstream, and
    whether it returns or raises, a call of the history sends at most
    three requests, at most one of them to the dynamic endpoint, reads
    the clock at most twice, and leaves the cache as it was except
    perhaps for the entry of the latest daily table; it removes no
    entry. *)
Theorem fetch_history_frame w code date_from date_to st :
  extends 3 1 2 st (snd (fetch_history w code date_from date_to st)).
Proof.
  destruct (String.eqb_spec (upper code) "RUB") as [E | Hc].
  - unfold fetch_history. rewrite E. cbn [String.eqb Ascii.eqb Bool.eqb]. unfold lift.
    cbn [snd]. apply extends_refl.
  - rewrite fetch_history_unfold by exact Hc.
    pose proof (extends_daily w st) as H1.
    destruct (fetch_daily w None st) as [[r | e] st1]; cbn [snd] in H1 |- *;
      [ | eapply extends_weaken; [exact H1 | lia ..] ].
    destruct (valute_id_in r (upper code)) as [val_id | ]; cbn [snd];
      [ | eapply extends_weaken; [exact H1 | lia ..] ].
    destruct (_date_to_cbr (Some date_from)) as [req1 | e1]; cbn [snd];
      [ | eapply extends_weaken; [exact H1 | lia ..] ].
    destruct (_date_to_cbr (Some date_to)) as [req2 | e2]; cbn [snd];
      [ | eapply extends_weaken; [exact H1 | lia ..] ].
    cbv zeta.
    pose proof (extends_trans _ _ _ _ _ _ _ _ _ H1
                  (extends_dynamic st1 (dynamic_request req1 req2 val_id))) as H2.
    destruct (upstream w _ _) as [msg | status text [root | ]]; cbn [snd];
      try (eapply extends_weaken; [exact H2 | lia ..]).
    all: destruct (negb (status =? 200)); cbn [snd];
      try (eapply extends_weaken; [exact H2 | lia ..]).
    pose proof (extends_trans _ _ _ _ _ _ _ _ _ H2 (extends_daily w _)) as H3.
    destruct (fetch_daily w None _) as [[r' | e'] st3]; cbn [snd] in H3 |- *;
      (eapply extends_weaken; [exact H3 | lia ..]).
Qed.

Lemma date_to_cbr_parsed s d :
  strptime_Ymd s = Some d -> _date_to_cbr (Some s) = Return (Some (strftime_dmY_slash d)).
Proof.
  intros Hp. unfold _date_to_cbr. destruct s as [ | c s]; [discriminate | ].
  cbn [truthy negb]. rewrite Hp. reflexivity.
Qed.

(** X14. The history of a currency other than RUB, when all goes well.
    With the id the latest daily table gives for the code and two dates
    that [strptime] reads, the call sends one request to the dynamic
    endpoint, with the two days as [strftime("%d/%m/%Y")] writes them
    (day and month with two digits, the year in decimal without
    padding), in the order given, and the id; when upstream answers 200
    with a document, the result
    carries the code in upper case, the two date strings as given, the
    points of the document's records and the name the daily table gives
    the code. *)
Theorem history_of_currency w code date_from date_to st r st1 val_id d1 d2
    text root r' st3 :
  let rq := dynamic_request (Some (strftime_dmY_slash d1)) (Some (strftime_dmY_slash d2))
                            val_id in
  let st2 := mkState (_cache st1) (ticks st1) (sent st1 ++ [rq]) in
  upper code <> "RUB" ->
  fetch_daily w None st = (Return r, st1) ->
  valute_id_in r (upper code) = Some val_id ->
  strptime_Ymd date_from = Some d1 ->
  strptime_Ymd date_to = Some d2 ->
  upstream w (length (sent st1)) rq = HttpResponse 200 text (Some root) ->
  fetch_daily w None st2 = (Return r', st3) ->
  fetch_history w code date_from date_to st
  = (Return (HistData (mkHistory (upper code) (name_in r' (upper code)) date_from date_to
                         (parse_records (ET.findall root "Record")))), st3).
Proof.
  cbv zeta. intros Hc Hf Hid H1 H2 Hup Hf2.
  rewrite fetch_history_unfold by exact Hc.
  rewrite Hf, Hid, (date_to_cbr_parsed _ _ H1), (date_to_cbr_parsed _ _ H2).
  cbv zeta. rewrite Hup. cbn [Z.eqb Pos.eqb negb]. rewrite Hf2. reflexivity.
Qed.

Lemma history_of_currency_witness :
  fetch_history Samples.world "usd" "2024-01-01" "2024-02-01" initial
  = (Return (HistData (mkHistory (upper "usd")
                         (name_in (DailyData Samples.snapshot_latest) (upper "usd"))
                         "2024-01-01" "2024-02-01"
                         (parse_records (ET.findall Samples.january "Record")))),
     Samples.after_history).
Proof.
  apply (history_of_currency Samples.world "usd" "2024-01-01" "2024-02-01" initial
           (DailyData Samples.snapshot_latest) Samples.after_latest "R01235"
           (mkdate 2024 1 1) (mkdate 2024 2 1) "<ValCurs/>" Samples.january
           (DailyData Samples.snapshot_latest)).
  - vm_compute. discriminate.
  - vm_compute. reflexivity.
  - vm_compute. reflexivity.
  - reflexivity.
  - reflexivity.
  - reflexivity.
  - vm_compute. reflexivity.
Defined.

End HistoryFacts.

(* ===================================================================== *)
(** ** Binary64: multiplying and dividing by [1.0] *)
(* ===================================================================== *)

Module FloatFacts.
Import PyNum PyNumFacts.

Lemma digits2_shift m n :
  Zdigits2 (Z.pos m * 2 ^ Z.of_nat n) = Zdigits2 (Z.pos m) + Z.of_nat n.
Proof.
  induction n as [ | n IH].
  - cbn [Z.of_nat]. rewrite Z.pow_0_r, Z.mul_1_r. lia.
  - rewrite Nat2Z.inj_succ, Z.pow_succ_r by lia.
    replace (Z.pos m * (2 * 2 ^ Z.of_nat n)) with (2 * (Z.pos m * 2 ^ Z.of_nat n)) by ring.
    destruct (Z.pos m * 2 ^ Z.of_nat n) as [ | p | p ] eqn:E.
    + pose proof (Z.pow_pos_nonneg 2 (Z.of_nat n) ltac:(lia) ltac:(lia)). nia.
    + change (2 * Z.pos p) with (Z.pos p~0). cbn [Zdigits2 digits2_pos] in IH |- *.
      rewrite Pos2Z.inj_succ, IH. lia.
    + pose proof (Z.pow_pos_nonneg 2 (Z.of_nat n) ltac:(lia) ltac:(lia)). nia.
Qed.

Lemma digits2_shift_Z m k :
  0 <= k -> Zdigits2 (Z.pos m * 2 ^ k) = Zdigits2 (Z.pos m) + k.
Proof. intros Hk. rewrite <- (Z2Nat.id k) by exact Hk. apply digits2_shift. Qed.

(** Shifting a multiple of [2^p] right by [p] bits loses nothing. *)
Lemma iter_shr_1_exact p : forall m,
  SpecFloat.iter_pos shr_1 p (Build_shr_record (Z.pos m * 2 ^ Z.pos p) false false)
  = Build_shr_record (Z.pos m) false false.
Proof.
  induction p as [p IH | p IH | ]; intros m; cbn [SpecFloat.iter_pos].
  - rewrite pow2_xI.
    replace (Z.pos m * (2 * 2 ^ Z.pos p * 2 ^ Z.pos p))
      with (2 * (Z.pos m * 2 ^ Z.pos p * 2 ^ Z.pos p)) by ring.
    destruct (Z.pos m * 2 ^ Z.pos p) as [ | q | q ] eqn:E;
      try (pose proof (Z.pow_pos_nonneg 2 (Z.pos p) ltac:(lia) ltac:(lia)); nia).
    destruct (Z.pos q * 2 ^ Z.pos p) as [ | r | r ] eqn:E2;
      try (pose proof (Z.pow_pos_nonneg 2 (Z.pos p) ltac:(lia) ltac:(lia)); nia).
    change (2 * Z.pos r) with (Z.pos r~0). cbn [shr_1 orb].
    rewrite <- E2, IH, <- E, IH. reflexivity.
  - rewrite pow2_xO, Z.mul_assoc.
    destruct (Z.pos m * 2 ^ Z.pos p) as [ | q | q ] eqn:E;
      try (pose proof (Z.pow_pos_nonneg 2 (Z.pos p) ltac:(lia) ltac:(lia)); nia).
    rewrite IH, <- E, IH. reflexivity.
  - change (2 ^ 1) with 2. rewrite Z.mul_comm. reflexivity.
Qed.

(** A float given with [k] extra low bits, all zero, rounds to
    itself. *)
Lemma binary_round_aux_exact s m e k :
  0 <= k ->
  bounded prec emax m e = true ->
  binary_round_aux prec emax s (Z.pos m * 2 ^ k) (e - k) loc_Exact = S754_finite s m e.
Proof.
  intros Hk Hb. unfold bounded, canonical_mantissa in Hb.
  apply andb_prop in Hb. destruct Hb as [Hc He]. apply Z.eqb_eq in Hc.
  unfold binary_round_aux, shr_fexp.
  rewrite digits2_shift_Z by exact Hk.
  cbn [Zdigits2].
  replace (Z.pos (digits2_pos m) + k + (e - k)) with (Z.pos (digits2_pos m) + e) by lia.
  rewrite Hc. replace (e - (e - k)) with k by lia.
  assert (Hfirst : shr (shr_record_of_loc (Z.pos m * 2 ^ k) loc_Exact) (e - k) k
                   = (Build_shr_record (Z.pos m) false false, e)).
  { unfold shr. cbn [shr_record_of_loc]. destruct k as [ | p | p ]; [ | | lia ].
    - rewrite Z.pow_0_r, Z.mul_1_r. f_equal. lia.
    - rewrite iter_shr_1_exact. f_equal. lia. }
  unfold shr in Hfirst |- *. rewrite Hfirst.
  cbn [shr_m loc_of_shr_record round_nearest_even Zdigits2]. rewrite Hc, Z.sub_diag.
  cbn [shr_record_of_loc shr_m]. rewrite He. reflexivity.
Qed.

(** [x * 1.0] is [x]. *)
Lemma fmul_one x : valid_binary prec emax x = true -> fmul x fone = x.
Proof.
  destruct x as [s | s | | s m e]; cbn [valid_binary]; intros Hv;
    try (destruct s; reflexivity); try reflexivity.
  unfold fmul, fone, SFmul. rewrite xorb_false_r, Pos2Z.inj_mul.
  change (Z.pos 4503599627370496) with (2 ^ 52). change (e + -52) with (e - 52).
  apply binary_round_aux_exact; [lia | exact Hv].
Qed.

(** [x / 1.0] is [x]. *)
Lemma fdiv_one x : valid_binary prec emax x = true -> fdiv x fone = x.
Proof.
  destruct x as [s | s | | s m e]; cbn [valid_binary]; intros Hv;
    try (destruct s; reflexivity); try reflexivity.
  pose proof Hv as Hb. unfold bounded, canonical_mantissa in Hb.
  apply andb_prop in Hb. destruct Hb as [Hc He]. apply Z.eqb_eq in Hc.
  unfold fdiv, fone, SFdiv, SFdiv_core_binary. rewrite xorb_false_r.
  set (d := Z.pos (digits2_pos m)) in *.
  change (Zdigits2 (Z.pos m)) with d. change (Zdigits2 (Z.pos 4503599627370496)) with 53.
  assert (Hj : exists j, 0 <= j <= 1
                 /\ Z.min (fexp prec emax (d + e - (53 + -52))) (e - -52) = e - j).
  { unfold fexp, emin, prec, emax in Hc |- *. 
    destruct (Z.eq_dec d 53) as [Hd | Hd].
    - destruct (Z.eq_dec e (-1074)) as [Hm | Hm]; [exists 0 | exists 1]; lia.
    - exists 0. lia. }
  destruct Hj as (j & Hj & ->).
  replace (e - -52 - (e - j)) with (52 + j) by lia.
  assert (H52 : exists p, 52 + j = Z.pos p) by (destruct (52 + j) eqn:E; [lia | eauto | lia]).
  destruct H52 as (p & Hp). rewrite Hp, <- Hp.
  rewrite Z.shiftl_mul_pow2 by lia.
  assert (H : Z.div_eucl (Z.pos m * 2 ^ (52 + j)) (Z.pos 4503599627370496)
              = (Z.pos m * 2 ^ j, 0)).
  { change (Z.pos 4503599627370496) with (2 ^ 52).
    rewrite Z.pow_add_r by lia.
    replace (Z.pos m * (2 ^ 52 * 2 ^ j)) with (Z.pos m * 2 ^ j * 2 ^ 52) by ring.
    pose proof (Z.div_mul (Z.pos m * 2 ^ j) (2 ^ 52) ltac:(lia)) as Hq.
    pose proof (Z.mod_mul (Z.pos m * 2 ^ j) (2 ^ 52) ltac:(lia)) as Hr.
    unfold Z.div, Z.modulo in Hq, Hr.
    destruct (Z.div_eucl (Z.pos m * 2 ^ j * 2 ^ 52) (2 ^ 52)) as [q r]. cbn [fst snd] in *.
    rewrite Hq, Hr. reflexivity. }
  rewrite H. change (new_location (Z.pos 4503599627370496) 0) with loc_Exact.
  apply binary_round_aux_exact; [lia | exact Hv].
Qed.

End FloatFacts.

(* ===================================================================== *)
(** ** The endpoints over [fetch_daily] *)
(* ===================================================================== *)

Module EndpointFacts.
Import PyStr PyNum PyDate Rates Props PyNumFacts PyDateFacts RatesFacts.
Import DailyFacts FeedFacts HistoryFacts FloatFacts.

(** X15. Strict mode compares the text of the dates, not the days.
    When the table [fetch_daily] returns is that of a day of the
    calendar, [cbr_daily] with [strict=true] returns it if the requested
    string is the ISO form of that day, and the date-mismatch error
    otherwise: also when the requested string denotes that very day but
    is not written with zero padding, a string that [fetch_daily]
    accepts. *)
Theorem strict_compares_text w date st d st' day :
  fetch_daily w (Some date) st = (Return (DailyData d), st') ->
  truthy date = true ->
  valid_date day = true ->
  s_date d = Some (feed_date_of day) ->
  cbr_daily w (Some date) true st
  = (Return (if String.eqb date (isoformat day) then DailyData d
             else DailyError (date_mismatch date (s_date d)) None), st').
Proof.
  intros Hf Ht V Hs. rewrite cbr_daily_unfold, Hf, Ht, Hs. cbn [andb].
  rewrite ddmmyyyy_of_feed_date by exact V.
  rewrite (ddmmyyyy_to_iso_truthy _ _ (ddmmyyyy_of_feed_date _ V)). cbn [andb].
  rewrite String.eqb_sym. destruct (String.eqb date (isoformat day)); reflexivity.
Qed.

Lemma strict_compares_text_witness :
  strptime_Ymd Samples.jan5_unpadded = Some (mkdate 2024 1 5)
  /\ cbr_daily Samples.world_jan5 (Some Samples.jan5_unpadded) true initial
     = (Return (if String.eqb Samples.jan5_unpadded (isoformat (mkdate 2024 1 5))
                then DailyData Samples.snapshot_jan5
                else DailyError (date_mismatch Samples.jan5_unpadded
                                   (s_date Samples.snapshot_jan5)) None),
        Samples.after_jan5).
Proof.
  split; [reflexivity | ].
  apply (strict_compares_text Samples.world_jan5 Samples.jan5_unpadded initial).
  - vm_compute. reflexivity.
  - reflexivity.
  - reflexivity.
  - reflexivity.
Defined.

(** X16. Converting a currency into itself gives the amount back: for
    every code the snapshot holds with a finite, non-zero rate, in any
    letter case, the rate of the conversion is exactly [1.0] and the
    result is exactly the amount. *)
Theorem convert_same_code d code amount info :
  s_rates_map d !! upper code = Some info ->
  valid_rate (ri_rub_per_unit info) = true ->
  valid_binary prec emax amount = true ->
  convert d code code amount
  = ConvData (mkConversion (s_date d) (upper code) (upper code) amount
                           (Some fone) (Some amount)).
Proof.
  intros Hl Hv Ha. unfold convert. rewrite Hl.
  destruct (valid_rate_finite _ Hv) as (s & m & e & ->).
  rewrite float_truthy_finite, fdiv_self, fmul_one by exact Ha. reflexivity.
Qed.

Lemma convert_same_code_witness :
  convert Samples.snapshot "cny" "cny" Samples.hundred
  = ConvData (mkConversion (s_date Samples.snapshot) (upper "cny") (upper "cny")
                Samples.hundred (Some fone) (Some Samples.hundred)).
Proof.
  eapply (convert_same_code Samples.snapshot "cny" Samples.hundred).
  - vm_compute. reflexivity.
  - reflexivity.
  - reflexivity.
Defined.

(** X17. Converting into RUB uses the currency's own rate. In a
    snapshot of [fetch_daily], where RUB stands at [1.0], the
    conversion of a code the snapshot holds into RUB has as its rate
    exactly the code's [rub_per_unit], and as its result the amount
    times that number. *)
Theorem convert_into_rub d code amount info :
  snapshot_ok d ->
  s_rates_map d !! upper code = Some info ->
  valid_binary prec emax (ri_rub_per_unit info) = true ->
  convert d code "RUB" amount
  = ConvData (mkConversion (s_date d) (upper code) "RUB" amount
                (Some (ri_rub_per_unit info))
                (Some (fmul amount (ri_rub_per_unit info)))).
Proof.
  intros (rates & Hm & Hrub & _) Hl Hv. unfold convert. rewrite Hl.
  change (upper "RUB") with "RUB".
  rewrite Hm, lookup_fmap, Hrub. cbn [fmap option_fmap option_map rate_info RUB_ENTRY
    re_rub_per_unit ri_rub_per_unit].
  change (float_truthy fone) with true. cbv iota.
  rewrite fdiv_one by exact Hv. reflexivity.
Qed.

Lemma convert_into_rub_witness :
  convert Samples.snapshot "usd" "RUB" Samples.hundred
  = ConvData (mkConversion (s_date Samples.snapshot) (upper "usd") "RUB" Samples.hundred
                (Some (S754_finite false 6497885021737583 (-46)))
                (Some (fmul Samples.hundred (S754_finite false 6497885021737583 (-46))))).
Proof.
  apply (convert_into_rub Samples.snapshot "usd" Samples.hundred
           (mkRateInfo (S754_finite false 6497885021737583 (-46)) "US Dollar"
                       (Some "R01235"))).
  - apply snapshot_of_ok. exact sample_daily_rates.
  - vm_compute. reflexivity.
  - reflexivity.
Defined.

(** X18. The endpoints over [fetch_daily] add no effect of their own:
    the daily table, the conversion, the CSV export and the currencies
    listing each leave the state that their one call of [fetch_daily]
    leaves, whether they return or raise. *)
Theorem endpoints_add_no_effect w date st :
  (forall strict, snd (cbr_daily w date strict st) = snd (fetch_daily w date st))
  /\ (forall from_code to_code amount,
        snd (cbr_convert w from_code to_code amount date st) = snd (fetch_daily w date st))
  /\ snd (cbr_daily_csv w date st) = snd (fetch_daily w date st)
  /\ snd (cbr_currencies w date st) = snd (fetch_daily w date st).
Proof.
  split; [ | split; [ | split ] ].
  - intros strict. rewrite cbr_daily_unfold.
    destruct (fetch_daily w date st) as [[[e details | d] | e] st']; try reflexivity.
    destruct date as [dt | ]; [ | reflexivity ].
    destruct (strict && truthy dt); [ | reflexivity ].
    destruct (_ddmmyyyy_to_iso (s_date d)) as [cbr_iso | ]; [ | reflexivity ].
    destruct (truthy cbr_iso && negb (cbr_iso =? dt)%string); reflexivity.
  - intros f t a. unfold cbr_convert, bind, ret.
    destruct (fetch_daily w date st) as [[[e details | d] | e] st']; reflexivity.
  - unfold cbr_daily_csv, bind, ret, lift.
    destruct (fetch_daily w date st) as [[[e details | d] | e] st']; try reflexivity.
    destruct (csv_rows (s_items d)); reflexivity.
  - unfold cbr_currencies, bind, ret.
    destruct (fetch_daily w date st) as [[[e details | d] | e] st']; reflexivity.
Qed.

(** X19. An error of [fetch_daily] passes through the endpoints
    unchanged: when it returns an error dict, the daily table (strict or
    not), the conversion, the CSV export and the currencies listing all
    return that error with its details, and when it raises, they raise
    the same exception. *)
Theorem endpoints_pass_errors w date st :
  (forall e details,
      fst (fetch_daily w date st) = Return (DailyError e details) ->
      (forall strict, fst (cbr_daily w date strict st) = Return (DailyError e details))
      /\ (forall from_code to_code amount,
            fst (cbr_convert w from_code to_code amount date st)
            = Return (ConvError e details))
      /\ fst (cbr_daily_csv w date st) = Return (CsvError e details)
      /\ fst (cbr_currencies w date st) = Return (CurError e details))
  /\ (forall e,
        fst (fetch_daily w date st) = Raise e ->
        (forall strict, fst (cbr_daily w date strict st) = Raise e)
        /\ (forall from_code to_code amount,
              fst (cbr_convert w from_code to_code amount date st) = Raise e)
        /\ fst (cbr_daily_csv w date st) = Raise e
        /\ fst (cbr_currencies w date st) = Raise e).
Proof.
  split; [intros e details | intros e]; intros Hf.
  all: split; [ | split; [ | split ] ]; try intros strict; try intros f t a.
  all: try rewrite cbr_daily_unfold.
  all: unfold cbr_convert, cbr_daily_csv, cbr_currencies, bind, ret, lift.
  all: destruct (fetch_daily w date st) as [[[e' details' | d] | e'] st'];
    cbn [fst] in Hf; try discriminate; exact Hf || (injection Hf as <- <-; reflexivity)
                                         || (injection Hf as <-; reflexivity).
Qed.

Lemma endpoints_pass_errors_witness :
  ((forall strict,
       fst (cbr_daily Samples.world_down None strict initial)
       = Return (DailyError "CBR returned 503" (Some "Service Unavailable")))
   /\ (forall from_code to_code amount,
         fst (cbr_convert Samples.world_down from_code to_code amount None initial)
         = Return (ConvError "CBR returned 503" (Some "Service Unavailable")))
   /\ fst (cbr_daily_csv Samples.world_down None initial)
      = Return (CsvError "CBR returned 503" (Some "Service Unavailable"))
   /\ fst (cbr_currencies Samples.world_down None initial)
      = Return (CurError "CBR returned 503" (Some "Service Unavailable")))
  /\ ((forall strict,
         fst (cbr_daily Samples.world (Some "2024-02-30") strict initial) = Raise ValueError)
      /\ (forall from_code to_code amount,
            fst (cbr_convert Samples.world from_code to_code amount (Some "2024-02-30")
                   initial) = Raise ValueError)
      /\ fst (cbr_daily_csv Samples.world (Some "2024-02-30") initial) = Raise ValueError
      /\ fst (cbr_currencies Samples.world (Some "2024-02-30") initial) = Raise ValueError).
Proof.
  split.
  - apply (endpoints_pass_errors Samples.world_down None initial). reflexivity.
  - apply (endpoints_pass_errors Samples.world (Some "2024-02-30") initial). reflexivity.
Defined.

(** *** The currencies listing *)

Lemma string_compare_refl s : String.compare s s = Eq.
Proof.
  pose proof (String.compare_antisym s s) as H.
  destruct (String.compare s s); cbn in H; congruence.
Qed.

Lemma string_compare_lt_trans a : forall b c,
  String.compare a b = Lt -> String.compare b c = Lt -> String.compare a c = Lt.
Proof.
  induction a as [ | x a IH]; intros [ | y b] [ | z c]; cbn [String.compare];
    try discriminate; auto.
  unfold Ascii.compare.
  destruct (N.compare_spec (N_of_ascii x) (N_of_ascii y)) as [E1 | L1 | G1];
    try discriminate;
    destruct (N.compare_spec (N_of_ascii y) (N_of_ascii z)) as [E2 | L2 | G2];
    try discriminate; intros H1 H2.
  - rewrite E1, E2, N.compare_refl. eapply IH; eassumption.
  - rewrite E1. apply N.compare_lt_iff in L2. rewrite L2. reflexivity.
  - rewrite <- E2. apply N.compare_lt_iff in L1. rewrite L1. reflexivity.
  - assert (L : (N_of_ascii x < N_of_ascii z)%N) by (eapply N.lt_trans; eassumption).
    apply N.compare_lt_iff in L. rewrite L. reflexivity.
Qed.

Lemma code_lt_trans a b c : code_lt a b -> code_lt b c -> code_lt a c.
Proof.
  unfold code_lt, String.ltb. intros H1 H2.
  destruct (String.compare (cur_code a) (cur_code b)) eqn:E1; try discriminate.
  destruct (String.compare (cur_code b) (cur_code c)) eqn:E2; try discriminate.
  rewrite (string_compare_lt_trans _ _ _ E1 E2). reflexivity.
Qed.

Lemma code_lt_irrefl a : ~ code_lt a a.
Proof. unfold code_lt, String.ltb. rewrite string_compare_refl. discriminate. Qed.

Lemma leb_code_lt a b :
  String.leb (cur_code a) (cur_code b) = true -> cur_code a <> cur_code b -> code_lt a b.
Proof.
  unfold code_lt, String.leb, String.ltb. intros H Hne.
  destruct (String.compare (cur_code a) (cur_code b)) eqn:E; try discriminate; auto.
  apply String.compare_eq_iff in E. contradiction.
Qed.

Lemma not_leb_code_lt a b : String.leb (cur_code a) (cur_code b) = false -> code_lt b a.
Proof.
  unfold code_lt, String.leb, String.ltb. rewrite (String.compare_antisym (cur_code a)).
  destruct (String.compare (cur_code b) (cur_code a)); cbn; congruence.
Qed.

Lemma insert_by_code_in x l y : In y (insert_by_code x l) <-> y = x \/ In y l.
Proof.
  induction l as [ | z l IH]; cbn [insert_by_code].
  - cbn. intuition.
  - destruct (String.leb (cur_code x) (cur_code z)); cbn [In]; [intuition | ].
    rewrite IH. intuition.
Qed.

Lemma sort_by_code_in l y : In y (sort_by_code l) <-> In y l.
Proof.
  unfold sort_by_code. induction l as [ | x l IH]; cbn [fold_right]; [reflexivity | ].
  rewrite insert_by_code_in, IH. cbn. intuition.
Qed.

Lemma insert_by_code_sorted x l :
  StronglySorted code_lt l ->
  (forall y, In y l -> cur_code y <> cur_code x) ->
  StronglySorted code_lt (insert_by_code x l).
Proof.
  induction l as [ | z l IH]; intros Hs Hne; cbn [insert_by_code].
  - repeat constructor.
  - apply StronglySorted_inv in Hs. destruct Hs as [Hs Hz].
    destruct (String.leb (cur_code x) (cur_code z)) eqn:E.
    + assert (Hxz : code_lt x z).
      { apply leb_code_lt; [exact E | ]. intros Heq. apply (Hne z); [left; reflexivity | auto]. }
      constructor; [constructor; assumption | ].
      constructor; [exact Hxz | ].
      rewrite List.Forall_forall in Hz |- *. intros y Hy.
      eapply code_lt_trans; [exact Hxz | apply Hz, Hy].
    + constructor.
      * apply IH; [exact Hs | ]. intros y Hy. apply Hne. right. exact Hy.
      * rewrite List.Forall_forall in Hz |- *. intros y Hy.
        apply insert_by_code_in in Hy. destruct Hy as [-> | Hy]; [ | apply Hz, Hy ].
        apply not_leb_code_lt. exact E.
Qed.

Lemma sort_by_code_sorted l :
  List.NoDup (List.map cur_code l) -> StronglySorted code_lt (sort_by_code l).
Proof.
  unfold sort_by_code. induction l as [ | x l IH]; cbn [List.map fold_right]; intros Hn.
  - constructor.
  - apply List.NoDup_cons_iff in Hn. destruct Hn as [Hx Hn].
    apply insert_by_code_sorted; [apply IH, Hn | ].
    intros y Hy Heq. apply Hx. rewrite <- Heq. apply in_map.
    apply (sort_by_code_in l y). exact Hy.
Qed.

(** Two lists in strict order of code that hold the same elements are
    equal. *)
Lemma sorted_unique l1 : forall l2,
  StronglySorted code_lt l1 -> StronglySorted code_lt l2 ->
  (forall x, In x l1 <-> In x l2) -> l1 = l2.
Proof.
  induction l1 as [ | x l1 IH]; intros [ | y l2] H1 H2 Hin.
  - reflexivity.
  - exfalso. apply (Hin y). left. reflexivity.
  - exfalso. apply (Hin x). left. reflexivity.
  - apply StronglySorted_inv in H1, H2. destruct H1 as [H1 Hx], H2 as [H2 Hy].
    rewrite List.Forall_forall in Hx, Hy.
    assert (E : x = y).
    { destruct (proj1 (Hin x) (or_introl eq_refl)) as [E | Hx2]; [auto | ].
      destruct (proj2 (Hin y) (or_introl eq_refl)) as [E | Hy1]; [auto | ].
      exfalso. apply (code_lt_irrefl x).
      eapply code_lt_trans; [apply Hx, Hy1 | apply Hy, Hx2]. }
    subst y. f_equal. apply IH; [assumption .. | ].
    intros z. split; intros Hz.
    + destruct (proj1 (Hin z) (or_intror Hz)) as [<- | ?]; [ | assumption ].
      exfalso. apply (code_lt_irrefl x), Hx, Hz.
    + destruct (proj2 (Hin z) (or_intror Hz)) as [<- | ?]; [ | assumption ].
      exfalso. apply (code_lt_irrefl x), Hy, Hz.
Qed.

Lemma map_fmap {A B} (f : A -> B) (l : list A) : List.map f l = f <$> l.
Proof. induction l as [ | x l IH]; cbn; [ | rewrite IH ]; reflexivity. Qed.

(** X20. The currencies listing of a snapshot holds one item for every
    entry of its ["rates_map"], with the entry's code and name, and no
    other; the items are in strictly ascending order of code, so no code
    is listed twice; the listing is the same whatever the order in which
    the entries of the dict are walked; and for a snapshot of
    [fetch_daily] it includes the rouble. *)
Theorem cbr_currencies_listing w date st d st' :
  fetch_daily w date st = (Return (DailyData d), st') ->
  exists items,
    cbr_currencies w date st = (Return (CurData (s_date d) items), st')
    /\ StronglySorted code_lt items
    /\ (forall code name,
          In (mkCurrency code name) items
          <-> exists info, s_rates_map d !! code = Some info /\ ri_name info = name)
    /\ (forall entries,
          Permutation entries (map_to_list (s_rates_map d)) ->
          sort_by_code (List.map (fun kv => mkCurrency (fst kv) (ri_name (snd kv))) entries)
          = items)
    /\ (snapshot_ok d -> In (mkCurrency "RUB" RUB_NAME) items).
Proof.
  intros Hf. unfold cbr_currencies, bind, ret. rewrite Hf.
  set (mk := fun kv : string * RateInfo => mkCurrency (fst kv) (ri_name (snd kv))).
  assert (Hcodes : forall entries,
             Permutation entries (map_to_list (s_rates_map d)) ->
             List.NoDup (List.map cur_code (List.map mk entries))).
  { intros entries Hp. rewrite List.map_map. cbn [mk cur_code].
    apply (Permutation_NoDup (l := List.map fst (map_to_list (s_rates_map d)))).
    - apply Permutation_map. symmetry. exact Hp.
    - rewrite map_fmap. apply NoDup_ListNoDup, NoDup_fst_map_to_list. }
  assert (Hmem : forall code name,
             In (mkCurrency code name) (sort_by_code (List.map mk (map_to_list (s_rates_map d))))
             <-> exists info, s_rates_map d !! code = Some info /\ ri_name info = name).
  { intros code name. rewrite sort_by_code_in, in_map_iff. split.
    - intros ([k info] & [= <- <-] & Hin). exists info. split; [ | reflexivity ].
      apply elem_of_map_to_list, list_elem_of_In. exact Hin.
    - intros (info & Hl & <-). exists (code, info). split; [reflexivity | ].
      apply list_elem_of_In, elem_of_map_to_list. exact Hl. }
  eexists. split; [reflexivity | ]. split; [ | split; [ | split ] ].
  - apply sort_by_code_sorted, Hcodes. reflexivity.
  - exact Hmem.
  - intros entries Hp. apply sorted_unique.
    + apply sort_by_code_sorted, Hcodes, Hp.
    + apply sort_by_code_sorted, Hcodes. reflexivity.
    + intros x. rewrite !sort_by_code_in. split; apply Permutation_in, Permutation_map.
      * exact Hp.
      * symmetry. exact Hp.
  - intros (rates & Hm & Hrub & _). apply Hmem. exists (rate_info RUB_ENTRY).
    split; [ | reflexivity ]. rewrite Hm, lookup_fmap, Hrub. reflexivity.
Qed.

Lemma cbr_currencies_listing_witness :
  exists items,
    cbr_currencies Samples.world Samples.new_year initial
    = (Return (CurData (s_date Samples.snapshot) items), Samples.after_first)
    /\ StronglySorted code_lt items
    /\ (forall code name,
          In (mkCurrency code name) items
          <-> exists info, s_rates_map Samples.snapshot !! code = Some info
                           /\ ri_name info = name)
    /\ (forall entries,
          Permutation entries (map_to_list (s_rates_map Samples.snapshot)) ->
          sort_by_code (List.map (fun kv => mkCurrency (fst kv) (ri_name (snd kv))) entries)
          = items)
    /\ (snapshot_ok Samples.snapshot -> In (mkCurrency "RUB" RUB_NAME) items).
Proof.
  apply (cbr_currencies_listing Samples.world Samples.new_year initial).
  exact sample_first_call.
Defined.

(** *** Dates and the cache key *)

(** X21. The cache is keyed by the text of the requested date, the
    request by the day it denotes. Two calls of [fetch_daily] whose
    dates [_date_to_cbr] converts alike (no date and an empty one, or
    one day written with and without zero padding), each finding nothing
    fresh under its own key, send the same request and return the same
    result, up to the requested date recorded in the snapshot; and the
    call for one date leaves the cache entry of the other as it was. *)
Theorem same_request_for_same_day w a b st :
  _date_to_cbr a = _date_to_cbr b ->
  fresh_hit w a st = None ->
  fresh_hit w b st = None ->
  sent (snd (fetch_daily w a st)) = sent (snd (fetch_daily w b st))
  /\ fst (fetch_daily w a st) = with_requested a (fst (fetch_daily w b st))
  /\ (a <> b ->
      _cache (snd (fetch_daily w b st)) !! ("daily", a) = _cache st !! ("daily", a)).
Proof.
  intros Hc Ha Hb. split; [ | split ].
  - rewrite !fetch_daily_unfold, Ha, Hb, Hc.
    destruct (_date_to_cbr b) as [cbr_date | e]; [ | reflexivity ]. cbv zeta.
    destruct (upstream w _ _) as [msg | code text [root | ]]; try reflexivity.
    all: destruct (negb (code =? 200)); try reflexivity.
    destruct (daily_rates root) as [[items rates] | e]; reflexivity.
  - rewrite !fetch_daily_unfold, Ha, Hb, Hc.
    destruct (_date_to_cbr b) as [cbr_date | e]; [ | reflexivity ]. cbv zeta.
    destruct (upstream w _ _) as [msg | code text [root | ]]; try reflexivity.
    all: destruct (negb (code =? 200)); try reflexivity.
    destruct (daily_rates root) as [[items rates] | e]; reflexivity.
  - intros Hne.
    destruct (fetch_daily_state w b st) as [-> | (cbr_date & _ & [-> | (v & ->)])];
      cbn [tick after_request _cache]; try reflexivity.
    apply lookup_insert_ne. congruence.
Qed.

Lemma same_request_for_same_day_witness :
  sent (snd (fetch_daily Samples.world_jan5 (Some Samples.jan5_unpadded) initial))
  = sent (snd (fetch_daily Samples.world_jan5 (Some "2024-01-05") initial))
  /\ fst (fetch_daily Samples.world_jan5 (Some Samples.jan5_unpadded) initial)
     = with_requested (Some Samples.jan5_unpadded)
         (fst (fetch_daily Samples.world_jan5 (Some "2024-01-05") initial))
  /\ (Some Samples.jan5_unpadded <> Some "2024-01-05" ->
      _cache (snd (fetch_daily Samples.world_jan5 (Some "2024-01-05") initial))
        !! ("daily", Some Samples.jan5_unpadded)
      = _cache initial !! ("daily", Some Samples.jan5_unpadded)).
Proof.
  apply (same_request_for_same_day Samples.world_jan5 (Some Samples.jan5_unpadded)
           (Some "2024-01-05") initial); reflexivity.
Defined.

(** X22. What strict mode does not check. With [strict=true],
    [cbr_daily] returns what [fetch_daily] returns when no date or an
    empty one is asked for, and returns the snapshot unchecked when the
    feed's date cannot be put in ISO form: when the document has no
    [Date] attribute, or one that is not three segments between dots. *)
Theorem strict_unchecked w date st :
  (date = None \/ date = Some "" -> cbr_daily w date true st = fetch_daily w date st)
  /\ (forall d st',
        fetch_daily w date st = (Return (DailyData d), st') ->
        _ddmmyyyy_to_iso (s_date d) = None ->
        cbr_daily w date true st = (Return (DailyData d), st')).
Proof.
  split.
  - intros Hd. rewrite cbr_daily_unfold.
    destruct (fetch_daily w date st) as [[[e details | d] | e] st']; try reflexivity.
    destruct Hd as [-> | ->]; reflexivity.
  - intros d st' Hf Hi. rewrite cbr_daily_unfold, Hf, Hi.
    destruct date as [dt | ]; [ | reflexivity ].
    destruct (true && truthy dt); reflexivity.
Qed.

Lemma strict_unchecked_witness :
  cbr_daily Samples.world None true initial = fetch_daily Samples.world None initial
  /\ cbr_daily Samples.world_undated Samples.new_year true initial
     = (Return (DailyData Samples.snapshot_undated), Samples.after_undated).
Proof.
  split.
  - apply (strict_unchecked Samples.world None initial). left. reflexivity.
  - apply (strict_unchecked Samples.world_undated Samples.new_year initial).
    + vm_compute. reflexivity.
    + reflexivity.
Defined.

(** *** The CSV export *)

Lemma fdiv_falsy v s m e :
  float_truthy v = false -> float_truthy (fdiv v (S754_finite s m e)) = false.
Proof.
  intros H. destruct v as [sv | [] | | [] mv ev]; try (cbv in H; discriminate H).
  reflexivity.
Qed.

Lemma csv_row_for it : float_of_int (it_nominal it) <> None ->
  exists row, csv_row it = Return row /\ row_for it row.
Proof.
  intros Hn. unfold csv_row, per1, row_for.
  destruct (float_of_int (it_nominal it)) as [fn | ] eqn:Ef; [clear Hn | contradiction ].
  destruct (it_value it) as [v | ] eqn:Ev.
  - destruct (Z.eqb_spec (it_nominal it) 0) as [E0 | N0].
    + rewrite andb_false_r. cbn [obind]. eexists. split; [reflexivity | ].
      eexists. split; [reflexivity | ]. split; [ | reflexivity ].
      intros v' fn' _ Hpos _. lia.
    + cbn [negb]. rewrite andb_true_r.
      destruct (float_truthy v) eqn:Tv; cbn [or_raise obind].
      * eexists. split; [reflexivity | ]. eexists. split; [reflexivity | ]. split.
        -- intros v' fn' [= <-] _ [= <-]. reflexivity.
        -- intros [H | H]; [discriminate | contradiction].
      * eexists. split; [reflexivity | ]. eexists. split; [reflexivity | ]. split.
        -- intros v' fn' [= <-] Hpos [= <-].
           destruct (float_of_int_pos _ _ Hpos Ef) as (m & e & ->).
           rewrite fdiv_falsy by exact Tv. reflexivity.
        -- reflexivity.
  - cbn [obind]. eexists. split; [reflexivity | ]. eexists. split; [reflexivity | ].
    split; [discriminate | reflexivity].
Qed.

Lemma csv_rows_for items :
  (forall it, In it items -> float_of_int (it_nominal it) <> None) ->
  exists body, csv_rows items = Return body /\ Forall2 row_for items body.
Proof.
  induction items as [ | it rest IH]; intros Hn; cbn [csv_rows].
  - exists []. split; [reflexivity | constructor].
  - destruct (csv_row_for it) as (row & -> & Hrow); [apply Hn; left; reflexivity | ].
    destruct IH as (body & -> & Hbody); [intros it' Hin; apply Hn; right; exact Hin | ].
    cbn [obind]. exists (row :: body). split; [reflexivity | constructor; assumption].
Qed.

(** X23. The CSV export of a snapshot all of whose nominals convert
    to a float returns a response, with the header row first and then
    one row for every item, in the order of the items: code, name,
    nominal, value and the price of one unit. For an item with a value
    and a positive nominal that price is the quotient the conversion
    uses as the item's rate, written with six decimals, or nothing when
    the quotient is zero; for an item without a value or with a zero
    nominal the cell is empty. *)
Theorem cbr_daily_csv_rows w date st d st' :
  fetch_daily w date st = (Return (DailyData d), st') ->
  (forall it, In it (s_items d) -> float_of_int (it_nominal it) <> None) ->
  exists body,
    cbr_daily_csv w date st
    = (Return (CsvResponse (CSV_HEADER :: body) (csv_disposition d)), st')
    /\ Forall2 row_for (s_items d) body.
Proof.
  intros Hf Hn. unfold cbr_daily_csv, bind, ret, lift. rewrite Hf.
  destruct (csv_rows_for _ Hn) as (body & -> & Hbody).
  exists body. split; [reflexivity | exact Hbody].
Qed.

Lemma cbr_daily_csv_rows_witness :
  exists body,
    cbr_daily_csv Samples.world Samples.new_year initial
    = (Return (CsvResponse (CSV_HEADER :: body) (csv_disposition Samples.snapshot)),
       Samples.after_first)
    /\ Forall2 row_for (s_items Samples.snapshot) body.
Proof.
  apply (cbr_daily_csv_rows Samples.world Samples.new_year initial).
  - exact sample_first_call.
  - intros it Hin. vm_compute in Hin.
    destruct Hin as [<- | [<- | [<- | [<- | [<- | []]]]]]; vm_compute; discriminate.
Defined.

Lemma string_of_uint_digits d : all_digits (NilEmpty.string_of_uint d) = true.
Proof. induction d; cbn [NilEmpty.string_of_uint all_digits]; try rewrite IHd; reflexivity. Qed.

Lemma string_of_nonneg_digits n :
  0 <= n ->
  all_digits (NilZero.string_of_int (Z.to_int n)) = true
  /\ truthy (NilZero.string_of_int (Z.to_int n)) = true.
Proof.
  intros Hn. destruct n as [ | p | p ]; [split; reflexivity | | lia ].
  cbn [Z.to_int NilZero.string_of_int]. unfold NilZero.string_of_uint.
  destruct (Pos.to_uint p) eqn:E; try (split; [ | reflexivity ]);
    try (rewrite <- E; apply string_of_uint_digits).
  split; reflexivity.
Qed.

Lemma digit_is_digit k : 0 <= k <= 9 -> is_digit (digit k) = true.
Proof. intros H. enum k 0 10%nat; reflexivity. Qed.

Lemma pad6_digits n :
  0 <= n < 1000000 -> all_digits (pad6 n) = true /\ String.length (pad6 n) = 6%nat.
Proof.
  intros H. split; [ | reflexivity ]. unfold pad6. cbn [all_digits].
  rewrite !digit_is_digit by lia. reflexivity.
Qed.

Lemma round_half_even_nearest num den :
  0 <= num -> 0 < den ->
  0 <= round_half_even num den
  /\ 2 * Z.abs (round_half_even num den * den - num) <= den.
Proof.
  intros Hnum Hden. unfold round_half_even.
  pose proof (Z.div_mod num den ltac:(lia)) as Hdm.
  pose proof (Z.mod_pos_bound num den Hden) as Hr.
  pose proof (Z.div_pos num den Hnum Hden) as Hq.
  rewrite (Z.mul_comm den) in Hdm.
  set (q := num / den) in *. set (r := num mod den) in *.
  assert (Hs : (q + 1) * den = q * den + den) by ring.
  destruct (Z.compare_spec (2 * r) den) as [E | L | G]; [destruct (Z.even q) | | ];
    (split; [lia | ]); try rewrite Hs; lia.
Qed.

(** X24. The price column is a plain decimal. A finite non-zero number
    is written as an optional minus sign, the digits of a whole number,
    a point and exactly six digits, and the number so written, counted
    in millionths, is an integer nearest to the exact value of the
    float: it differs from it by at most half a millionth. *)
Theorem format_6f_finite s m e :
  exists scaled,
    0 <= scaled
    /\ (if 0 <=? e then scaled = Z.pos m * 2 ^ e * 1000000
        else 2 * Z.abs (scaled * 2 ^ (- e) - Z.pos m * 1000000) <= 2 ^ (- e))
    /\ format_6f (S754_finite s m e)
       = ((if s then "-" else "") ++ str_of_int (scaled / 1000000) ++ "."
          ++ pad6 (scaled mod 1000000))%string
    /\ all_digits (str_of_int (scaled / 1000000)) = true
    /\ truthy (str_of_int (scaled / 1000000)) = true
    /\ all_digits (pad6 (scaled mod 1000000)) = true
    /\ String.length (pad6 (scaled mod 1000000)) = 6%nat.
Proof.
  unfold format_6f.
  set (scaled := if 0 <=? e then Z.pos m * 2 ^ e * 1000000
                 else round_half_even (Z.pos m * 1000000) (2 ^ (- e))).
  exists scaled.
  assert (H0 : 0 <= scaled
               /\ (if 0 <=? e then scaled = Z.pos m * 2 ^ e * 1000000
                   else 2 * Z.abs (scaled * 2 ^ (- e) - Z.pos m * 1000000) <= 2 ^ (- e))).
  { subst scaled. destruct (Z.leb_spec 0 e) as [He | He].
    - split; [ | reflexivity ]. pose proof (Z.pow_pos_nonneg 2 e ltac:(lia) He). nia.
    - apply round_half_even_nearest; [lia | ]. apply Z.pow_pos_nonneg; lia. }
  destruct H0 as [Hpos Hnear].
  split; [exact Hpos | ]. split; [exact Hnear | ]. split; [reflexivity | ].
  unfold str_of_int.
  destruct (string_of_nonneg_digits (scaled / 1000000)) as [Hd Ht]; [lia | ].
  destruct (pad6_digits (scaled mod 1000000)) as [Hp Hl]; [lia | ].
  repeat split; assumption.
Qed.

Lemma replace_no_char old new s :
  Ascii.eqb new old = false -> has_char old (replace old new s) = false.
Proof.
  intros Hne. unfold replace. induction s as [ | c s IH]; cbn [map_chars has_char];
    [reflexivity | ].
  rewrite IH, orb_false_r. destruct (Ascii.eqb_spec c old) as [-> | Hc]; [exact Hne | ].
  apply Ascii.eqb_neq. exact Hc.
Qed.

Lemma replace_append old new a b :
  replace old new (a ++ b) = (replace old new a ++ replace old new b)%string.
Proof.
  unfold replace. induction a as [ | c a IH]; norm_append; cbn [map_chars];
    [reflexivity | ].
  rewrite IH. reflexivity.
Qed.

Lemma replace_fmt2 n : 0 <= n <= 99 -> replace "." "-" (fmt2 n) = fmt2 n.
Proof.
  intros H. unfold fmt2, replace. cbn [map_chars]. rewrite !digit_not_dot by lia. reflexivity.
Qed.

Lemma replace_fmt4 n : 0 <= n <= 9999 -> replace "." "-" (fmt4 n) = fmt4 n.
Proof.
  intros H. unfold fmt4, replace. cbn [map_chars]. rewrite !digit_not_dot by lia. reflexivity.
Qed.

(** X25. The file name of the CSV export is [cbr_daily_], a stem and
    [.csv], and the stem holds no dot: it is [today] when the feed gave
    no date, and [DD-MM-YYYY] when the feed's date is [DD.MM.YYYY]. *)
Theorem csv_file_name d :
  exists stem,
    csv_disposition d
    = ("attachment; filename=" ++ DQUOTE ++ "cbr_daily_" ++ stem ++ ".csv" ++ DQUOTE)%string
    /\ has_char "." stem = false
    /\ (s_date d = None \/ s_date d = Some "" -> stem = "today")
    /\ (forall dt, valid_date dt = true -> s_date d = Some (feed_date_of dt) ->
          stem = (fmt2 (day dt) ++ "-" ++ fmt2 (month dt) ++ "-" ++ fmt4 (year dt))%string).
Proof.
  unfold csv_disposition. eexists. split; [reflexivity | ]. split; [ | split ].
  - apply replace_no_char. reflexivity.
  - intros [-> | ->]; reflexivity.
  - intros dt V ->. pose proof (day_bounds dt V) as Hd.
    apply valid_date_iff in V. destruct V as (Hy & Hm & _).
    unfold MINYEAR, MAXYEAR in Hy.
    replace (or_default (Some (feed_date_of dt)) "today") with (feed_date_of dt).
    + unfold feed_date_of. rewrite !replace_append.
      rewrite !replace_fmt2, replace_fmt4 by lia. reflexivity.
    + unfold feed_date_of, fmt2. norm_append. reflexivity.
Qed.

Lemma csv_file_name_witness :
  csv_disposition Samples.snapshot
  = ("attachment; filename=" ++ DQUOTE ++ "cbr_daily_30-12-2023.csv" ++ DQUOTE)%string.
Proof.
  destruct (csv_file_name Samples.snapshot) as (stem & E & _ & _ & Hday).
  rewrite E, (Hday (mkdate 2023 12 30)); reflexivity.
Defined.

End EndpointFacts.

(* ===================================================================== *)
(** ** The caller's configuration: [_env_url] *)
(* ===================================================================== *)

Module AnalyticsFacts.
Import PyStr Props PyDateFacts.

Lemma rstrip_char_split c s :
  exists k, s = (rstrip_char c s ++ repeat_char c k)%string.
Proof.
  induction s as [ | a s IH]; [exists O; reflexivity | ].
  destruct IH as (k & IH). cbn [rstrip_char].
  destruct (rstrip_char c s) as [ | b r].
  - rewrite append_Empty in IH. destruct (Ascii.eqb_spec a c) as [-> | Hne].
    + exists (S k). rewrite append_Empty. cbn [repeat_char]. rewrite <- IH. reflexivity.
    + exists k. norm_append. rewrite <- IH. reflexivity.
  - exists k. rewrite append_String, <- IH. reflexivity.
Qed.

Lemma rstrip_char_end c s : forall t, rstrip_char c s <> (t ++ String c "")%string.
Proof.
  induction s as [ | a s IH]; intros t; cbn [rstrip_char].
  - destruct t; discriminate.
  - destruct (rstrip_char c s) as [ | b r] eqn:E.
    + destruct (Ascii.eqb_spec a c) as [-> | Hne]; [destruct t; discriminate | ].
      destruct t as [ | a' [ | ? ?]]; norm_append; try discriminate. congruence.
    + destruct t as [ | a' t']; norm_append; [discriminate | ].
      intros [= _ H]. exact (IH t' H).
Qed.

(** X26. A base URL read by [_env_url] never ends with a slash, and is
    otherwise what was configured: the value of the environment
    variable with the blanks around it removed, or the default when the
    variable is unset, empty or blank, in both cases without the slashes
    at its end. *)
Theorem env_url_no_trailing_slash getenv key default :
  let configured :=
    match getenv key with
    | Some x => if truthy (strip x) then strip x else default
    | None => default
    end in
  (forall t, Analytics._env_url getenv key default <> (t ++ "/")%string)
  /\ exists k,
       configured = (Analytics._env_url getenv key default ++ repeat_char "/" k)%string.
Proof.
  cbv zeta. unfold Analytics._env_url.
  destruct (getenv key) as [x | ].
  - destruct (truthy (strip x)); split;
      try apply rstrip_char_end; apply rstrip_char_split.
  - change (truthy (strip "")) with false. cbv iota. split;
      [apply rstrip_char_end | apply rstrip_char_split].
Qed.

End AnalyticsFacts.
